(** * IGenBench: item record, completion oracle, state store and drivers

    A shallow embedding of the resumable state-tracking core of IGenBench
    ([igenbench/vis_item.py], [igenbench/utils/state_manager.py],
    [igenbench/utils/model_resolver.py], [igenbench/utils/path_resolver.py],
    [igenbench/engine/*.py], [igenbench/workflow/*.py]) together with the
    properties its specification states about it.

    Python is dynamically typed: the dataclass annotations are not enforced
    and [VISItem.from_dict] stores whatever [json.load] produced.  The
    embedding therefore keeps record fields as dynamic [value]s and models
    the exceptions Python raises on ill-typed operations. *)

From Stdlib Require Import String Ascii ZArith List Bool Lia.
From stdpp Require Import base option strings gmap list.

Set Warnings "-register-all".
Local Open Scope string_scope.
Local Open Scope list_scope.

(** ** Python values, exceptions and the dynamic operations the code uses *)

Module Py.

(** What [json.load] returns: [None], [bool], numbers, [str], [list] and
    [dict] with string keys.  A [dict] keeps its insertion order, so it is an
    association list; the keys of a dict built by [json.load] or by item
    assignment are distinct.  Strings are sequences of code points below 256.
    Numbers are never computed with by the code under study (only tested for
    truth), so integers stand for them. *)
Inductive value : Type :=
| VNone
| VBool (b : bool)
| VNum (n : Z)
| VStr (s : string)
| VList (l : list value)
| VDict (kvs : list (string * value)).

(** The messages of the [ValueError]s the code raises itself. *)
Inductive message : Type :=
| no_questions_found (item_id : value)
    (* f"No questions found for item {item.id}. Questions should be
       generated before evaluation." *)
| question_required        (* "Question is required" *)
| t2i_prompt_required.     (* "Generation requires t2i_prompt to be set" *)

(** The error numbers, other than [ENOENT], with which the operating system
    can refuse to look a path up: a component of the path is a regular file,
    the path runs through too many symbolic links, a directory on the way may
    not be searched, a name is longer than the system allows. *)
Inductive errno : Type := ENOTDIR | ELOOP | EACCES | ENAMETOOLONG.

(** The exceptions that can surface in the modelled code; [OSError] is the
    plain class, raised for the error numbers that have no subclass of their
    own; the last one stands for whatever the LLM client raises. *)
Inductive exn : Type :=
| KeyError (key : string)
| TypeError
| AttributeError
| ValueError (msg : message)
| FileNotFoundError (path : string)
| FileExistsError (path : string)
| IsADirectoryError (path : string)
| NotADirectoryError (path : string)
| PermissionError (path : string)
| OSError (e : errno) (path : string)
| JSONDecodeError
| CapabilityError (msg : string).

(** The exception Python builds from an error number: [OSError.__new__]
    picks the subclass. *)
Definition os_error (e : errno) (path : string) : exn :=
  match e with
  | ENOTDIR => NotADirectoryError path
  | EACCES => PermissionError path
  | ELOOP | ENAMETOOLONG => OSError e path
  end.

(** A computation that returns or raises. *)
Inductive result (A : Type) : Type :=
| Ok (a : A)
| Raise (e : exn).
Arguments Ok {A} a.
Arguments Raise {A} e.

Definition bind {A B} (m : result A) (k : A -> result B) : result B :=
  match m with
  | Ok a => k a
  | Raise e => Raise e
  end.

Notation "'try!' x ':=' m 'in' k" := (bind m (fun x => k))
  (at level 10, x name, m at level 100, k at level 200,
   format "'[v' 'try!'  x  ':='  m  'in' '/' k ']'").

(** [[f(x) for x in l]] where [f] may raise: stops at the first exception. *)
Fixpoint mapM {A B} (f : A -> result B) (l : list A) : result (list B) :=
  match l with
  | [] => Ok []
  | x :: l' => try! y := f x in try! ys := mapM f l' in Ok (y :: ys)
  end.

(** *** Dict operations *)

Fixpoint dict_lookup (k : string) (d : list (string * value)) : option value :=
  match d with
  | [] => None
  | (k', v) :: d' => if String.eqb k k' then Some v else dict_lookup k d'
  end.

(** [d.get(k, default)] on a dict. *)
Definition dict_get (k : string) (default : value) (d : list (string * value)) : value :=
  match dict_lookup k d with
  | Some v => v
  | None => default
  end.

(** [k in d] on a dict. *)
Definition dict_mem (k : string) (d : list (string * value)) : bool :=
  match dict_lookup k d with
  | Some _ => true
  | None => false
  end.

(** [d[k] = v]: an existing key keeps its position, a new key goes last. *)
Fixpoint dict_set (k : string) (v : value) (d : list (string * value))
  : list (string * value) :=
  match d with
  | [] => [(k, v)]
  | (k', v') :: d' =>
      if String.eqb k k' then (k', v) :: d' else (k', v') :: dict_set k v d'
  end.

Definition dict_keys (d : list (string * value)) : list string := map fst d.

(** *** Dynamic operations on arbitrary values *)

(** [bool(v)]. *)
Definition truthy (v : value) : bool :=
  match v with
  | VNone => false
  | VBool b => b
  | VNum n => negb (Z.eqb n 0)
  | VStr s => negb (String.eqb s "")
  | VList l => match l with [] => false | _ => true end
  | VDict d => match d with [] => false | _ => true end
  end.

(** [v == s] for a [str] [s]: only the same string is equal to it. *)
Definition eq_str (v : value) (s : string) : bool :=
  match v with
  | VStr s' => String.eqb s' s
  | _ => false
  end.

(** [isinstance(v, dict)]. *)
Definition is_dict (v : value) : bool :=
  match v with
  | VDict _ => true
  | _ => false
  end.

(** [v.get(k, default)]: only dicts have [get]. *)
Definition get (v : value) (k : string) (default : value) : result value :=
  match v with
  | VDict d => Ok (dict_get k default d)
  | _ => Raise AttributeError
  end.

(** [v[k]] with a [str] subscript. *)
Definition getitem (v : value) (k : string) : result value :=
  match v with
  | VDict d =>
      match dict_lookup k d with
      | Some x => Ok x
      | None => Raise (KeyError k)
      end
  | _ => Raise TypeError
  end.

(** [sub in s] on strings. *)
Fixpoint is_substring (sub s : string) : bool :=
  String.prefix sub s
  || match s with
     | EmptyString => false
     | String _ s' => is_substring sub s'
     end.

(** [k in v] with a [str] [k]: key test on a dict, element test on a list,
    substring test on a string, [TypeError] otherwise. *)
Definition contains (k : string) (v : value) : result bool :=
  match v with
  | VDict d => Ok (dict_mem k d)
  | VList l => Ok (existsb (fun x => eq_str x k) l)
  | VStr s => Ok (is_substring k s)
  | _ => Raise TypeError
  end.

Fixpoint chars (s : string) : list value :=
  match s with
  | EmptyString => []
  | String c s' => VStr (String c EmptyString) :: chars s'
  end.

(** [for x in v]: the elements of a list, the keys of a dict, the characters
    of a string; anything else is not iterable. *)
Definition iter (v : value) : result (list value) :=
  match v with
  | VList l => Ok l
  | VDict d => Ok (map (fun kv => VStr (fst kv)) d)
  | VStr s => Ok (chars s)
  | _ => Raise TypeError
  end.

(** *** String helpers *)

(** [s.endswith(suffix)]. *)
Definition endswith (s suffix : string) : bool :=
  let n := String.length s in
  let m := String.length suffix in
  (m <=? n)%nat && String.eqb (String.substring (n - m) m s) suffix.

(** [s.replace(old, new)] for a one-character [old]. *)
Fixpoint replace_char (old : ascii) (new : string) (s : string) : string :=
  match s with
  | EmptyString => EmptyString
  | String c s' =>
      if Ascii.eqb c old then new +:+ replace_char old new s'
      else String c (replace_char old new s')
  end.

(** [s.split(sep)] for a one-character [sep]: never empty. *)
Fixpoint split_char (sep : ascii) (s : string) : list string :=
  match s with
  | EmptyString => [EmptyString]
  | String c s' =>
      if Ascii.eqb c sep then EmptyString :: split_char sep s'
      else match split_char sep s' with
           | [] => [String c EmptyString]
           | w :: ws => String c w :: ws
           end
  end.

(** [s.split(sep, 1)] for a one-character [sep]: at most one cut, at the
    first occurrence. *)
Fixpoint split_once (sep : ascii) (s : string) : list string :=
  match s with
  | EmptyString => [EmptyString]
  | String c s' =>
      if Ascii.eqb c sep then [EmptyString; s']
      else match split_once sep s' with
           | [] => [String c EmptyString]
           | w :: ws => String c w :: ws
           end
  end.

(** [c.isspace()] for a code point below 256. *)
Definition isspace (c : ascii) : bool :=
  let n := nat_of_ascii c in
  ((9 <=? n) && (n <=? 13) || (28 <=? n) && (n <=? 32)
   || (n =? 133) || (n =? 160))%nat.

(** [bool(s.strip())]: some character of [s] is not white space. *)
Fixpoint strip_nonempty (s : string) : bool :=
  match s with
  | EmptyString => false
  | String c s' => negb (isspace c) || strip_nonempty s'
  end.

(** [c in s] for a one-character [c]. *)
Fixpoint has_char (c : ascii) (s : string) : bool :=
  match s with
  | EmptyString => false
  | String c' s' => Ascii.eqb c' c || has_char c s'
  end.

(** *** Code with side effects

    A statement sequence that reads and writes a state [S] and may raise:
    the state reached when the exception is raised is kept, as the effects of
    a Python function that raises half-way are. *)
Definition prog (S A : Type) : Type := S -> result A * S.

Definition ret {S A} (a : A) : prog S A := fun s => (Ok a, s).

Definition throw {S A} (e : exn) : prog S A := fun s => (Raise e, s).

Definition pbind {S A B} (m : prog S A) (k : A -> prog S B) : prog S B :=
  fun s =>
    match m s with
    | (Ok a, s') => k a s'
    | (Raise e, s') => (Raise e, s')
    end.

(** A pure computation used as a statement. *)
Definition lift {S A} (r : result A) : prog S A := fun s => (r, s).

Notation "'do!' x ':=' m 'in' k" := (pbind m (fun x => k))
  (at level 10, x name, m at level 100, k at level 200,
   format "'[v' 'do!'  x  ':='  m  'in' '/' k ']'").

End Py.
Export Py.

(** ** Paths and the file system *)

(** [pathlib] and [os.path] are library code.  A path is represented by the
    string [str(p)]; the operations the code uses are a parameter of the
    development, so every result holds for whatever normalisation [pathlib]
    performs. *)
Class PathLib : Type := {
  Path : string -> string;              (* [Path(s)] *)
  joinpath : string -> string -> string;  (* [p / s] *)
  parent : string -> string;            (* [p.parent] *)
  os_path_join : string -> string -> string;   (* [os.path.join(a, b)] *)
  os_path_dirname : string -> string           (* [os.path.dirname(a)] *)
}.

Module FS.

(** What the operating system answers when a path is looked up: a
    directory, a file holding a JSON document (the text encoding is
    abstracted: [json.dump] followed by [json.load] gives the document back),
    a file whose content is not JSON (an image, a truncated record), or an
    error other than "not found": [ENOTDIR] for a path that runs through a
    regular file, [EACCES] below a directory that may not be searched,
    [ENAMETOOLONG] for an over-long name, [ELOOP]. *)
Inductive fnode : Type :=
| FDir
| FJson (v : value)
| FBlob (content : string)
| FError (e : errno).

(** The file system maps a path string to the answer of its lookup; a path
    that is not in the map is not found ([ENOENT]).  Only the directories the
    code creates itself are tracked. *)
Abbreviation filesystem := (gmap string fnode).

(** [p.exists()] of [pathlib]: [os.stat] in a handler that answers [False]
    for [ENOENT], [ENOTDIR], [EBADF] and [ELOOP] and raises every other
    [OSError] again. *)
Definition exists_ (fs : filesystem) (p : string) : result bool :=
  match fs !! p with
  | Some (FError ENOTDIR) | Some (FError ELOOP) => Ok false
  | Some (FError e) => Raise (os_error e p)
  | Some _ => Ok true
  | None => Ok false
  end.

(** [json.load(open(p, "r"))]. *)
Definition json_load (fs : filesystem) (p : string) : result value :=
  match fs !! p with
  | Some (FJson v) => Ok v
  | Some (FBlob _) => Raise JSONDecodeError
  | Some FDir => Raise (IsADirectoryError p)
  | Some (FError e) => Raise (os_error e p)
  | None => Raise (FileNotFoundError p)
  end.

(** Opening [p] for writing and writing [n] to it. *)
Definition write_file (p : string) (n : fnode) : prog filesystem unit :=
  fun fs =>
    match fs !! p with
    | Some FDir => (Raise (IsADirectoryError p), fs)
    | Some (FError e) => (Raise (os_error e p), fs)
    | _ => (Ok tt, <[p := n]> fs)
    end.

(** [p.mkdir(parents=True, exist_ok=True)]. *)
Definition mkdir (d : string) : prog filesystem unit :=
  fun fs =>
    match fs !! d with
    | Some FDir => (Ok tt, fs)
    | Some (FError e) => (Raise (os_error e d), fs)
    | Some _ => (Raise (FileExistsError d), fs)
    | None => (Ok tt, <[d := FDir]> fs)
    end.

(** [os.makedirs(d, exist_ok=True)]: the empty name is refused. *)
Definition makedirs (d : string) : prog filesystem unit :=
  if String.eqb d "" then throw (FileNotFoundError d) else mkdir d.

(** What the code writes is a file. *)
Definition is_file (n : fnode) : Prop :=
  match n with
  | FJson _ | FBlob _ => True
  | FDir | FError _ => False
  end.

End FS.
Export FS.

(** ** The item record ([igenbench/vis_item.py]) *)

(** [Judgment]. *)
Record Judgment : Type := mkJudgment {
  eval_model : value;
  gen_model : value;
  analysis : value;
  answer : value
}.

(** [EvalEntry]. *)
Record EvalEntry : Type := mkEvalEntry {
  source : value;
  ground : value;
  question : value;
  question_type : value;
  judgments : list Judgment
}.

(** An element of [VISItem.evaluation]: [VISItem.from_dict] turns a dict
    into an [EvalEntry] and keeps anything else as it found it. *)
Inductive eval_elem : Type :=
| Entry (e : EvalEntry)
| Raw (v : value).

(** [VISItem].  Unset optional fields hold [VNone]. *)
Record VISItem : Type := mkVISItem {
  item_id : value;
  reference_image_url : value;
  t2i_prompt : value;
  chart_type : value;
  generation : value;
  evaluation : list eval_elem
}.

(** The [Judgment(...)] built from a dict-shaped judgment. *)
Definition judgment_of_dict (j : list (string * value)) : Judgment :=
  {| eval_model := dict_get "eval_model" (VStr "") j;
     gen_model := dict_get "gen_model" (VStr "") j;
     analysis := dict_get "analysis" (VStr "") j;
     answer := dict_get "answer" (VStr "") j |}.

(** The loop body of [EvalEntry.from_dict]: a dict becomes a [Judgment],
    anything else is skipped ([json.load] never yields a [Judgment]). *)
Definition parse_judgment (j : value) : option Judgment :=
  match j with
  | VDict d => Some (judgment_of_dict d)
  | _ => None
  end.

(** [EvalEntry.from_dict(data)] for a dict [data]. *)
Definition EvalEntry_from_dict (data : list (string * value)) : result EvalEntry :=
  try! judgments_data := iter (dict_get "judgments" (VList []) data) in
  Ok {| source := dict_get "source" (VStr "") data;
        question := dict_get "question" (VStr "") data;
        ground := dict_get "ground" (VStr "") data;
        question_type := dict_get "question_type" (VStr "") data;
        judgments := omap parse_judgment judgments_data |}.

(** [asdict(j)]. *)
Definition judgment_asdict (j : Judgment) : value :=
  VDict [("eval_model", eval_model j); ("gen_model", gen_model j);
         ("analysis", analysis j); ("answer", answer j)].

(** [asdict(entry)], which is also [entry.to_dict()]. *)
Definition EvalEntry_to_dict (e : EvalEntry) : value :=
  VDict [("source", source e); ("ground", ground e);
         ("question", question e); ("question_type", question_type e);
         ("judgments", VList (map judgment_asdict (judgments e)))].

(** [entry.has_judgment(gen_model, eval_model)]. *)
Definition has_judgment (e : EvalEntry) (gen eval : string) : bool :=
  existsb (fun j => eq_str (gen_model j) gen && eq_str (eval_model j) eval)
          (judgments e).

(** [entry.add_judgment(gen_model, eval_model, analysis, answer)]. *)
Definition add_judgment (e : EvalEntry) (gen eval ana ans : string) : EvalEntry :=
  {| source := source e; ground := ground e; question := question e;
     question_type := question_type e;
     judgments := judgments e ++
       [ {| eval_model := VStr eval; gen_model := VStr gen;
            analysis := VStr ana; answer := VStr ans |} ] |}.

Definition set_source (s : value) (e : EvalEntry) : EvalEntry :=
  {| source := s; ground := ground e; question := question e;
     question_type := question_type e; judgments := judgments e |}.

(** The loop body of [VISItem.from_dict] over [info_data["evaluation"]]. *)
Definition parse_eval_elem (entry : value) : result eval_elem :=
  match entry with
  | VDict d =>
      try! eval_entry := EvalEntry_from_dict d in
      Ok (Entry match dict_lookup "source" d with
                | Some s => set_source s eval_entry
                | None => eval_entry
                end)
  | _ => Ok (Raw entry)
  end.

(** [VISItem.from_dict] after [json.load]: from the parsed document to the
    record. *)
Definition VISItem_of_json (info_data : value) : result VISItem :=
  try! id := getitem info_data "id" in
  match info_data with
  | VDict d =>
      try! evaluation :=
        match dict_lookup "evaluation" d with
        | Some ev => try! entries := iter ev in mapM parse_eval_elem entries
        | None => Ok []
        end in
      Ok {| item_id := id;
            reference_image_url := dict_get "reference_image_url" VNone d;
            t2i_prompt := dict_get "t2i_prompt" VNone d;
            chart_type := dict_get "chart_type" VNone d;
            generation := dict_get "generation" (VDict []) d;
            evaluation := evaluation |}
  | _ => Raise TypeError
  end.

(** [VISItem.from_dict(info_path)]. *)
Definition VISItem_from_dict (fs : filesystem) (info_path : string) : result VISItem :=
  try! info_data := json_load fs info_path in
  VISItem_of_json info_data.

(** [item.update_generation(model, image_path)]: item assignment on the
    generation dict; nothing else supports it with a [str] subscript. *)
Definition update_generation (item : VISItem) (model image_path : string)
  : result VISItem :=
  match generation item with
  | VDict g =>
      Ok {| item_id := item_id item;
            reference_image_url := reference_image_url item;
            t2i_prompt := t2i_prompt item;
            chart_type := chart_type item;
            generation := VDict (dict_set model (VStr image_path) g);
            evaluation := evaluation item |}
  | _ => Raise TypeError
  end.

(** [item.check_generation_exists(model)]. *)
Definition check_generation_exists (item : VISItem) (model : string) : result bool :=
  try! present := contains model (generation item) in
  if present then
    try! p := getitem (generation item) model in
    Ok match p with VNone => false | _ => true end
  else Ok false.

(** The loop of [check_evaluation_complete]; an element that is not an
    [EvalEntry] has no [has_judgment]. *)
Fixpoint all_judged (l : list eval_elem) (gen eval : string) : result bool :=
  match l with
  | [] => Ok true
  | Entry e :: l' =>
      if has_judgment e gen eval then all_judged l' gen eval else Ok false
  | Raw _ :: _ => Raise AttributeError
  end.

(** [item.check_evaluation_complete(gen_model, eval_model)]. *)
Definition check_evaluation_complete (item : VISItem) (gen eval : string)
  : result bool :=
  match evaluation item with
  | [] => Ok false
  | l => all_judged l gen eval
  end.

Section Paths.
Context `{PathLib}.

(** [item.build_save_path(output_dir)]. *)
Definition build_save_path (item : VISItem) (output_dir : string) : result string :=
  match item_id item with
  | VStr id => Ok (os_path_join (os_path_join output_dir id) (id +:+ ".json"))
  | _ => Raise TypeError
  end.

Definition elem_asdict (x : eval_elem) : value :=
  match x with
  | Entry e => EvalEntry_to_dict e
  | Raw v => v
  end.

(** [asdict(item)] as [save_item] writes it.  [asdict] has already turned
    every [EvalEntry] into a dict, so the loop of [save_item] over
    [data["evaluation"]] finds no [EvalEntry] and no [source] attribute and
    rebuilds the list it was given. *)
Definition VISItem_asdict (item : VISItem) : value :=
  VDict [("id", item_id item);
         ("reference_image_url", reference_image_url item);
         ("t2i_prompt", t2i_prompt item);
         ("chart_type", chart_type item);
         ("generation", generation item);
         ("evaluation", VList (map elem_asdict (evaluation item)))].

(** Where [item.save_item(output_path)] writes. *)
Definition resolve_save_path (item : VISItem) (output_path : string) : result string :=
  if endswith output_path ".json" then Ok output_path
  else build_save_path item output_path.

(** [item.save_item(output_path)]. *)
Definition VISItem_save_item (item : VISItem) (output_path : string)
  : prog filesystem unit :=
  do! save_path := lift (resolve_save_path item output_path) in
  do! _ := makedirs (os_path_dirname save_path) in
  write_file save_path (FJson (VISItem_asdict item)).

(** ** Model names and image paths
       ([utils/model_resolver.py], [utils/path_resolver.py]) *)

(** [ModelNameResolver.normalize_for_filename(model_name)].  When the name
    contains a slash the split has at least two parts, so the subscript [1]
    cannot be out of range (see [split_char_has_char]). *)
Definition normalize_for_filename (model_name : string) : string :=
  let normalized := replace_char "." "_" (replace_char "-" "_" model_name) in
  if has_char "/" normalized
  then nth 1 (split_char "/" normalized) ""
  else normalized.

(** [ModelNameResolver.build_image_filename(item_id, model_name, extension)]. *)
Definition build_image_filename (item_id model_name extension : string) : string :=
  item_id +:+ "_" +:+ normalize_for_filename model_name +:+ extension.

(** [PathResolver.resolve_image_path(item_id, model_name, output_dir)] for
    a [str] id. *)
Definition resolve_image_path (item_id model_name output_dir : string) : string :=
  let filename := build_image_filename item_id model_name ".png" in
  joinpath (joinpath (Path output_dir) item_id) filename.

(** The same called with [item.id], which [Path.__truediv__] accepts only
    if it is a [str]. *)
Definition resolve_image_path_of (item : VISItem) (model_name output_dir : string)
  : result string :=
  match item_id item with
  | VStr id => Ok (resolve_image_path id model_name output_dir)
  | _ => Raise TypeError
  end.

(** ** The state store ([utils/state_manager.py]) *)

(** [output_dir / id / f"{id}.json"]. *)
Definition item_json_path (output_dir id : string) : string :=
  joinpath (joinpath (Path output_dir) id) (id +:+ ".json").

(** [ItemStateManager(output_dir).load_item(source_path, resume)]. *)
Definition load_item (output_dir : string) (fs : filesystem)
    (source_path : string) (resume : bool) : result VISItem :=
  if negb resume then VISItem_from_dict fs source_path
  else
    try! item_temp := VISItem_from_dict fs source_path in
    match item_id item_temp with
    | VStr id =>
        let output_path := item_json_path output_dir id in
        try! found := exists_ fs output_path in
        if found
        then VISItem_from_dict fs output_path
        else Ok item_temp
    | _ => Raise TypeError
    end.

(** [ItemStateManager(output_dir).save_item(item)]. *)
Definition ItemStateManager_save_item (output_dir : string) (item : VISItem)
  : prog filesystem unit :=
  match item_id item with
  | VStr id =>
      let save_path := item_json_path output_dir id in
      do! _ := mkdir (parent save_path) in
      VISItem_save_item item save_path
  | _ => throw TypeError
  end.

(** [not method] for an [Optional[str]]. *)
Definition no_method (method : option string) : bool :=
  match method with
  | Some m => String.eqb m ""
  | None => true
  end.

(** [not configured_dimensions] for an [Optional[list]]. *)
Definition no_dimensions (dims : option (list string)) : bool :=
  match dims with
  | Some (_ :: _) => false
  | _ => true
  end.

(** [bool(x and x.strip())]: only a [str] has [strip]. *)
Definition nonblank (x : value) : result bool :=
  if truthy x then
    match x with
    | VStr s => Ok (strip_nonempty s)
    | _ => Raise AttributeError
    end
  else Ok false.

(** The inner loop of [_validate_questions_completion]. *)
Fixpoint questions_ok (entries : list value) : result bool :=
  match entries with
  | [] => Ok true
  | entry :: rest =>
      try! question := get entry "question" (VStr "") in
      try! ok := nonblank question in
      if ok then questions_ok rest else Ok false
  end.

(** The loop of [_validate_questions_completion] over the dimensions. *)
Fixpoint questions_dimensions (evaluation : value) (dims : list string) : result bool :=
  match dims with
  | [] => Ok true
  | dimension :: rest =>
      try! entries := get evaluation dimension (VList []) in
      if negb (truthy entries) then Ok false
      else
        try! es := iter entries in
        try! ok := questions_ok es in
        if ok then questions_dimensions evaluation rest else Ok false
  end.

(** [_validate_questions_completion(data, configured_dimensions)]. *)
Definition _validate_questions_completion (data : value) (dims : list string)
  : result bool :=
  try! evaluation := get data "evaluation" (VDict []) in
  questions_dimensions evaluation dims.

(** [any(j.get("eval_model") == eval_model and j.get("gen_model") == gen_model
    for j in judgments)]: stops at the first match, raises at the first
    element without [get] met before one. *)
Fixpoint any_judgment (js : list value) (eval gen : string) : result bool :=
  match js with
  | [] => Ok false
  | j :: rest =>
      try! e := get j "eval_model" VNone in
      if eq_str e eval then
        try! g := get j "gen_model" VNone in
        if eq_str g gen then Ok true else any_judgment rest eval gen
      else any_judgment rest eval gen
  end.

(** The inner loop of [_validate_evaluation_completion]. *)
Fixpoint entries_judged (entries : list value) (eval gen : string) : result bool :=
  match entries with
  | [] => Ok true
  | entry :: rest =>
      try! judgments := get entry "judgments" (VList []) in
      try! js := iter judgments in
      try! found := any_judgment js eval gen in
      if found then entries_judged rest eval gen else Ok false
  end.

(** The loop of [_validate_evaluation_completion] over the dimensions. *)
Fixpoint evaluation_dimensions (evaluation : value) (dims : list string)
    (eval gen : string) : result bool :=
  match dims with
  | [] => Ok true
  | dimension :: rest =>
      try! entries := get evaluation dimension (VList []) in
      if negb (truthy entries) then Ok false
      else
        try! es := iter entries in
        try! ok := entries_judged es eval gen in
        if ok then evaluation_dimensions evaluation rest eval gen else Ok false
  end.

(** [_validate_evaluation_completion(data, method, configured_dimensions)]. *)
Definition _validate_evaluation_completion (data : value) (method : string)
    (dims : list string) : result bool :=
  if negb (has_char "_" method) then Ok false
  else
    match split_once "_" method with
    | [eval; gen] =>
        try! evaluation := get data "evaluation" (VDict []) in
        if negb (truthy evaluation) then Ok false
        else evaluation_dimensions evaluation dims eval gen
    | _ => Ok false
    end.

(** The [generate] branch of [is_stage_completed]. *)
Definition generate_completed (fs : filesystem) (data : value) (method : option string)
  : result bool :=
  match method with
  | Some m =>
      if String.eqb m "" then Ok false
      else
        try! generation := get data "generation" (VDict []) in
        try! present := contains m generation in
        if present then
          try! p := getitem generation m in
          if truthy p then
            match p with
            | VStr file_path => exists_ fs (Path file_path)
            | _ => Raise TypeError
            end
          else Ok false
        else Ok false
  | None => Ok false
  end.

(** The body of the [try] block of [is_stage_completed], once the record
    has been read. *)
Definition stage_completed (fs : filesystem) (data : value) (stage : string)
    (method : option string) (dims : option (list string)) : result bool :=
  if String.eqb stage "draft" then
    try! design_space := get data "design_space" (VDict []) in
    try! t2i := get design_space "t2i_prompt" (VStr "") in
    nonblank t2i
  else if String.eqb stage "generate" then
    generate_completed fs data method
  else if String.eqb stage "generate_questions" then
    match dims with
    | Some (d :: ds) => _validate_questions_completion data (d :: ds)
    | _ => Ok false
    end
  else if String.eqb stage "evaluate" then
    match method, dims with
    | Some m, Some (d :: ds) =>
        if String.eqb m "" then Ok false
        else _validate_evaluation_completion data m (d :: ds)
    | _, _ => Ok false
    end
  else Ok false.

(** [ItemStateManager(output_dir).is_stage_completed(item_id, stage, method,
    configured_dimensions)]: the test [item_json.exists()] comes before the
    [try] block; every exception of the block is caught and answered with
    [False]. *)
Definition is_stage_completed (output_dir : string) (fs : filesystem)
    (item_id stage : string) (method : option string)
    (dims : option (list string)) : result bool :=
  let item_json := item_json_path output_dir item_id in
  try! found := exists_ fs item_json in
  if negb found then Ok false
  else
    match (try! data := json_load fs item_json in
           stage_completed fs data stage method dims) with
    | Ok b => Ok b
    | Raise _ => Ok false
    end.

End Paths.

(** ** Engines and workflows ([engine/*.py], [workflow/*.py]) *)

(** A call made to the LLM client. *)
Inductive call : Type :=
| ImageGeneration (model : string) (prompt : value)
| ImageUnderstanding (model image_path prompt : string).

(** The external collaborators: the LLM client ([igenbench.utils.llm.client],
    outside the core) and the prompt template of
    [prompts/eval_judge_factual_qa.py], a constant text around the question.
    The client's answer may depend on the calls made before. *)
Class Capabilities : Type := {
  call_image_generation : list call -> string -> value -> result string;
  call_image_understanding : list call -> string -> string -> string -> result value;
  build_factual_qa_judgment_prompt : value -> string
}.

(** What a workflow run acts on: the item object it was handed (mutated in
    place and returned), the file system, and the calls made so far. *)
Record world : Type := mkWorld {
  w_item : VISItem;
  w_fs : filesystem;
  w_calls : list call
}.

Definition get_item : prog world VISItem := fun w => (Ok (w_item w), w).

Definition set_item (item : VISItem) : prog world unit :=
  fun w => (Ok tt, {| w_item := item; w_fs := w_fs w; w_calls := w_calls w |}).

Definition get_fs : prog world filesystem := fun w => (Ok (w_fs w), w).

(** A file-system statement run in the world. *)
Definition on_fs {A} (m : prog filesystem A) : prog world A :=
  fun w =>
    let (r, fs') := m (w_fs w) in
    (r, {| w_item := w_item w; w_fs := fs'; w_calls := w_calls w |}).

(** A client call: recorded, then answered by the capability. *)
Definition client_call {A} (c : call) (answer : list call -> result A) : prog world A :=
  fun w =>
    (answer (w_calls w),
     {| w_item := w_item w; w_fs := w_fs w; w_calls := w_calls w ++ [c] |}).

(** The constructor arguments a workflow keeps ([self.model] or
    [self.eval_model], [self.output_dir], [self.resume]). *)
Record config : Type := mkConfig {
  cfg_model : string;
  cfg_output_dir : string;
  cfg_resume : bool
}.

Definition set_judgments (js : list Judgment) (e : EvalEntry) : EvalEntry :=
  {| source := source e; ground := ground e; question := question e;
     question_type := question_type e; judgments := js |}.

Definition set_evaluation (l : list eval_elem) (item : VISItem) : VISItem :=
  {| item_id := item_id item;
     reference_image_url := reference_image_url item;
     t2i_prompt := t2i_prompt item;
     chart_type := chart_type item;
     generation := generation item;
     evaluation := l |}.

Section Workflows.
Context `{PathLib} `{Capabilities}.

(** [GenEngine.text2image(item)]. *)
Definition text2image (model : string) : prog world string :=
  do! item := get_item in
  if negb (truthy (t2i_prompt item))
  then throw (ValueError t2i_prompt_required)
  else
    let prompt := t2i_prompt item in
    client_call (ImageGeneration model prompt)
                (fun past => call_image_generation past model prompt).

(** The test at the head of [GenWorkflow.run]: under resume, the model has
    a generation entry and the file it names exists. *)
Definition already_generated (cfg : config) (item : VISItem) (fs : filesystem)
  : result bool :=
  if cfg_resume cfg then
    try! recorded := check_generation_exists item (cfg_model cfg) in
    if recorded then
      try! p := getitem (generation item) (cfg_model cfg) in
      match p with
      | VStr existing_path => exists_ fs (Path existing_path)
      | _ => Raise TypeError
      end
    else Ok false
  else Ok false.

(** [GenWorkflow.run(item)]. *)
Definition GenWorkflow_run (cfg : config) : prog world unit :=
  do! item := get_item in
  do! fs := get_fs in
  do! done := lift (already_generated cfg item fs) in
  if done then ret tt
  else
    do! image := text2image (cfg_model cfg) in
    do! image_path :=
      lift (resolve_image_path_of item (cfg_model cfg) (cfg_output_dir cfg)) in
    do! _ := on_fs (mkdir (parent image_path)) in
    do! _ := on_fs (write_file image_path (FBlob image)) in
    do! item' := lift (update_generation item (cfg_model cfg) image_path) in
    do! _ := set_item item' in
    on_fs (ItemStateManager_save_item (cfg_output_dir cfg) item').

(** [EvalEngine.judge_entry(eval_entry, gen_model, eval_model, image_path)]. *)
Definition judge_entry (eval_entry : EvalEntry) (gen eval image_path : string)
  : prog world Judgment :=
  let question := question eval_entry in
  if negb (truthy question) then throw (ValueError question_required)
  else
    let prompt := build_factual_qa_judgment_prompt question in
    do! response :=
      client_call (ImageUnderstanding eval image_path prompt)
                  (fun past => call_image_understanding past eval image_path prompt) in
    do! ana := lift (get response "analysis" (VStr "")) in
    do! ans := lift (get response "answer" (VStr "")) in
    ret {| eval_model := VStr eval; gen_model := VStr gen;
           analysis := ana; answer := ans |}.

(** The loop body of [_evaluate_all] at index [i]. *)
Definition evaluate_entry (cfg : config) (image_path gen : string) (i : nat)
  : prog world unit :=
  do! item := get_item in
  match evaluation item !! i with
  | Some (Entry eval_entry) =>
      if cfg_resume cfg && has_judgment eval_entry gen (cfg_model cfg)
      then ret tt
      else
        do! judgment := judge_entry eval_entry gen (cfg_model cfg) image_path in
        let eval_entry' :=
          set_judgments (judgments eval_entry ++ [judgment]) eval_entry in
        let item' :=
          set_evaluation (<[i := Entry eval_entry']> (evaluation item)) item in
        do! _ := set_item item' in
        on_fs (ItemStateManager_save_item (cfg_output_dir cfg) item')
  | Some (Raw _) => throw AttributeError
  | None => ret tt
  end.

(** [for i, eval_entry in enumerate(item.evaluation)], [n] entries from
    index [i] on. *)
Fixpoint evaluate_from (cfg : config) (image_path gen : string) (n i : nat)
  : prog world unit :=
  match n with
  | O => ret tt
  | S n' =>
      do! _ := evaluate_entry cfg image_path gen i in
      evaluate_from cfg image_path gen n' (S i)
  end.

(** [EvalWorkflow._evaluate_all(item, image_path, gen_model_name)]. *)
Definition _evaluate_all (cfg : config) (image_path gen : string) : prog world unit :=
  do! item := get_item in
  match evaluation item with
  | [] => throw (ValueError (no_questions_found (item_id item)))
  | l => evaluate_from cfg image_path gen (length l) 0
  end.

(** [EvalWorkflow.run(item, gen_model_name, image_path)]. *)
Definition EvalWorkflow_run (cfg : config) (gen : string) (image_path : option string)
  : prog world unit :=
  do! item := get_item in
  do! image_path :=
    match image_path with
    | Some p => ret p
    | None => lift (resolve_image_path_of item gen (cfg_output_dir cfg))
    end in
  do! done :=
    (if cfg_resume cfg
     then lift (check_evaluation_complete item gen (cfg_model cfg))
     else ret false) in
  if done then ret tt
  else _evaluate_all cfg image_path gen.

End Workflows.

(** ** Notions used to state the properties *)

(** The key set of a generation map (empty for a value that is no dict). *)
Definition key_set (v : value) : gset string :=
  match v with
  | VDict d => list_to_set (dict_keys d)
  | _ => ∅
  end.

(** [e'] is [e] with judgments appended at the end of its list. *)
Definition entry_extends (e e' : EvalEntry) : Prop :=
  source e' = source e /\ ground e' = ground e /\ question e' = question e /\
  question_type e' = question_type e /\
  exists appended, judgments e' = judgments e ++ appended.

Definition elem_extends (x y : eval_elem) : Prop :=
  match x, y with
  | Entry e, Entry e' => entry_extends e e'
  | Raw v, Raw v' => v = v'
  | _, _ => False
  end.

(** The record only grew: no generation key was lost, and the evaluation
    sequence has the same entries in the same order, each with its former
    judgments as a prefix of its present ones. *)
Definition grows (item item' : VISItem) : Prop :=
  key_set (generation item) ⊆ key_set (generation item') /\
  Forall2 elem_extends (evaluation item) (evaluation item').

(** The entry holds a judgment for exactly this pair of model names. *)
Definition judged (gen eval : string) (x : eval_elem) : Prop :=
  exists e j, x = Entry e /\ j ∈ judgments e /\
              gen_model j = VStr gen /\ eval_model j = VStr eval.

Definition is_entry (x : eval_elem) : Prop :=
  match x with
  | Entry _ => True
  | Raw _ => False
  end.

(** What [VISItem.from_dict] can produce: a dict in the evaluation list has
    always been turned into an [EvalEntry]. *)
Definition loadable_elem (x : eval_elem) : Prop :=
  match x with
  | Raw (VDict _) => False
  | _ => True
  end.

(** The normalisation as the specification words it: [-] and [.] become
    [_], and of a name with slashes only what follows the last one is kept. *)
Definition normalized_as_specified (model_name : string) : string :=
  let replaced := replace_char "." "_" (replace_char "-" "_" model_name) in
  List.last (split_char "/" replaced) "".

(** The number of slashes in a name. *)
Fixpoint count_char (c : ascii) (s : string) : nat :=
  match s with
  | EmptyString => 0
  | String c' s' => (if Ascii.eqb c' c then 1 else 0) + count_char c s'
  end.

(** The generate-stage rule as the specification words it, for a persisted
    record whose generation map is [g]: complete exactly when [g] has the
    model key and the file its path names exists. *)
Definition generate_complete_as_specified : Prop :=
  forall (P : PathLib) (output_dir : string) (fs : filesystem) (id m : string)
         (d g : list (string * value)),
    fs !! item_json_path output_dir id = Some (FJson (VDict d)) ->
    dict_lookup "generation" d = Some (VDict g) ->
    (is_stage_completed output_dir fs id "generate" (Some m) None = Ok true <->
     exists p, dict_lookup m g = Some (VStr p) /\ exists_ fs (Path p) = Ok true).


(** ** A sample platform, to run the definitions on concrete inputs *)

Module Sample.

Definition starts_with_slash (s : string) : bool := String.prefix "/" s.

(** Joining as [posixpath.join] does, without normalisation. *)
Definition join (a b : string) : string :=
  if starts_with_slash b then b
  else if String.eqb a "" || endswith a "/" then a +:+ b
  else a +:+ "/" +:+ b.

Fixpoint drop_slashes (l : list ascii) : list ascii :=
  match l with
  | c :: l' => if Ascii.eqb c "/" then drop_slashes l' else l
  | [] => []
  end.

Fixpoint drop_name (l : list ascii) : list ascii :=
  match l with
  | c :: l' => if Ascii.eqb c "/" then l else drop_name l'
  | [] => []
  end.

(** [posixpath.dirname]: what precedes the last slash, without trailing
    slashes unless it consists of slashes only. *)
Definition dirname (s : string) : string :=
  let head := drop_name (rev (list_ascii_of_string s)) in
  match drop_slashes head with
  | [] => string_of_list_ascii (rev head)
  | stripped => string_of_list_ascii (rev stripped)
  end.

#[export] Instance posix : PathLib := {|
  Path := fun s => s;
  joinpath := join;
  parent := dirname;
  os_path_join := join;
  os_path_dirname := dirname
|}.

(** A client that always answers the same. *)
#[export] Instance canned : Capabilities := {|
  call_image_generation := fun _ _ _ => Ok "png-bytes";
  call_image_understanding := fun _ _ _ _ =>
    Ok (VDict [("analysis", VStr "a title is visible"); ("answer", VStr "1")]);
  build_factual_qa_judgment_prompt := fun q =>
    match q with
    | VStr s => "FACTUAL QUESTION: " +:+ s
    | _ => "FACTUAL QUESTION:"
    end
|}.

(** The seed record of the specification's example scenario. *)
Definition seed42 : value :=
  VDict [("id", VStr "42"); ("t2i_prompt", VStr "draw a chart")].

Definition item42 : VISItem :=
  {| item_id := VStr "42"; reference_image_url := VNone;
     t2i_prompt := VStr "draw a chart"; chart_type := VNone;
     generation := VDict []; evaluation := [] |}.

Definition title_entry : EvalEntry :=
  {| source := VStr "seed"; ground := VStr ""; question := VStr "Is there a title?";
     question_type := VStr "text"; judgments := [] |}.

(** A persisted record with one generation entry. *)
Definition record42 (model image : string) : value :=
  VDict [("id", VStr "42"); ("t2i_prompt", VStr "draw a chart");
         ("generation", VDict [(model, VStr image)])].

(** An output directory holding that record and the image it names. *)
Definition outputs42 (model image : string) : filesystem :=
  {[ "outputs/42/42.json" := FJson (record42 model image);
     image := FBlob "png-bytes" ]}.

(** The seed next to an output directory left by an earlier run. *)
Definition resumed42 : filesystem :=
  <["datasets/42.json" := FJson seed42]>
    (outputs42 "gemini-2.0" "outputs/42/42_gemini_2_0.png").

(** A record with one question and one judgment by [m2] on [m1]. *)
Definition judged_item : VISItem :=
  {| item_id := VStr "7"; reference_image_url := VNone;
     t2i_prompt := VNone; chart_type := VNone; generation := VDict [];
     evaluation :=
       [Entry (set_judgments
                 [ {| eval_model := VStr "m2"; gen_model := VStr "m1";
                      analysis := VStr "a title is visible";
                      answer := VStr "1" |} ]
                 title_entry)] |}.

Definition question_item : VISItem :=
  {| item_id := VStr "7"; reference_image_url := VNone;
     t2i_prompt := VNone; chart_type := VNone; generation := VDict [];
     evaluation := [Entry title_entry] |}.

(** An entry as it is found in a record file: one judgment lacks three of
    its fields, and one element of the list is no judgment at all. *)
Definition sparse_entry : list (string * value) :=
  [("question", VStr "Is there a title?");
   ("judgments", VList [VDict [("eval_model", VStr "m2")]; VNum 3])].




Definition run_config (model : string) (resume : bool) : config :=
  {| cfg_model := model; cfg_output_dir := "outputs"; cfg_resume := resume |}.

Definition fresh_world (item : VISItem) : world :=
  {| w_item := item; w_fs := ∅; w_calls := [] |}.

End Sample.

(** ** Further code of the repository *)

(** *** Questions and entries by source ([igenbench/vis_item.py]) *)

Module Question.

(** [Question]. *)
Record t : Type := mk {
  item_id : value;
  q_id : value;
  q_ground : value;
  q : value;
  q_type : value
}.

(** [question.to_dict()]. *)
Definition to_dict (x : t) : value :=
  VDict [("item_id", item_id x); ("q_id", q_id x); ("q_ground", q_ground x);
         ("q", q x); ("q_type", q_type x)].

(** [Question.from_dict(data)]: the five subscripts, in the order of the
    keyword arguments. *)
Definition from_dict (data : value) : result t :=
  try! a := getitem data "item_id" in
  try! b := getitem data "q_id" in
  try! c := getitem data "q_ground" in
  try! d := getitem data "q" in
  try! e := getitem data "q_type" in
  Ok {| item_id := a; q_id := b; q_ground := c; q := d; q_type := e |}.

(** A line of a JSONL file: white space only, a JSON document, or text
    that is not JSON. *)
Inductive line : Type :=
| Blank
| Json (doc : value)
| Malformed.

(** [Question.from_jsonl_line(line)]. *)
Definition from_jsonl_line (l : line) : result t :=
  match l with
  | Json doc => from_dict doc
  | _ => Raise JSONDecodeError
  end.

(** [question.to_jsonl_line()]. *)
Definition to_jsonl_line (x : t) : line := Json (to_dict x).

(** [item_id is None or question.item_id == item_id]. *)
Definition wanted (filter : option string) (x : t) : bool :=
  match filter with
  | None => true
  | Some id => eq_str (item_id x) id
  end.

(** The loop of [load_from_jsonl] over the lines of the file. *)
Fixpoint read_lines (lines : list line) (filter : option string) : result (list t) :=
  match lines with
  | [] => Ok []
  | Blank :: rest => read_lines rest filter
  | l :: rest =>
      try! question := from_jsonl_line l in
      try! questions := read_lines rest filter in
      Ok (if wanted filter question then question :: questions else questions)
  end.

(** [Question.load_from_jsonl(file_path, item_id)], given what opening the
    file yields: its lines, or nothing when [open] raises
    [FileNotFoundError]. *)
Definition load_from_jsonl (file : option (list line)) (filter : option string)
  : result (list t) :=
  match file with
  | Some lines => read_lines lines filter
  | None => Ok []
  end.

End Question.

(** [item.get_evaluation_by_source(source)]: an element without a [source]
    attribute is passed over. *)
Definition get_evaluation_by_source (item : VISItem) (src : string) : list EvalEntry :=
  omap (fun x => match x with
                 | Entry e => if eq_str (source e) src then Some e else None
                 | Raw _ => None
                 end)
       (evaluation item).

(** *** The model name read back from an image path ([utils/io.py]) *)

Section ImagePathModel.
(** [Path(p).stem], of [pathlib]. *)
Variable stem : string -> string.

(** [get_model_name_from_image_path(image_path)]: the last [_]-separated
    part of the stem. *)
Definition get_model_name_from_image_path (image_path : string) : string :=
  List.last (split_char "_" (stem image_path)) "".

End ImagePathModel.

(** *** Error classification ([utils/error_handler.py]) *)

Module ErrorHandler.

(** [ErrorCategory] and the [value] of each member. *)
Inductive ErrorCategory : Type := RECOVERABLE | PERMANENT | SYSTEM.

Definition category_value (c : ErrorCategory) : string :=
  match c with
  | RECOVERABLE => "recoverable"
  | PERMANENT => "permanent"
  | SYSTEM => "system"
  end.

(** What the classification reads of an exception: [type(error).__name__]
    and [str(error)]. *)
Record error : Type := mkError {
  type_name : string;
  error_text : string
}.

(** [c.lower()] for a code point below 256: the ASCII capitals and the
    Latin-1 capitals other than the multiplication sign. *)
Definition lower_char (c : ascii) : ascii :=
  let n := nat_of_ascii c in
  if ((65 <=? n) && (n <=? 90) || (192 <=? n) && (n <=? 214)
      || (216 <=? n) && (n <=? 222))%nat
  then ascii_of_nat (n + 32)
  else c.

(** [s.lower()]. *)
Fixpoint lower (s : string) : string :=
  match s with
  | EmptyString => EmptyString
  | String c s' => String (lower_char c) (lower s')
  end.

Definition SYSTEM_KEYWORDS : list string :=
  ["out of memory"; "disk full"; "no space left"; "memory error";
   "permission denied"; "access denied"].

Definition RECOVERABLE_KEYWORDS : list string :=
  ["rate limit"; "timeout"; "connection"; "network"; "temporary"; "503"; "502";
   "429"; "quota exceeded"; "service unavailable";
   "generated questions are invalid or empty"].

Definition PERMANENT_KEYWORDS : list string :=
  ["not found"; "invalid"; "malformed"; "bad request"; "404"; "401"; "403"; "400"].

(** [any(keyword in error_str for keyword in keywords)]. *)
Definition any_keyword (keywords : list string) (error_str : string) : bool :=
  existsb (fun keyword => is_substring keyword error_str) keywords.

(** [error_type in names]. *)
Definition type_in (error_type : string) (names : list string) : bool :=
  existsb (String.eqb error_type) names.

(** [ErrorHandler.classify_error(error)]. *)
Definition classify_error (e : error) : ErrorCategory :=
  let error_str := lower (error_text e) in
  let error_type := lower (type_name e) in
  if any_keyword SYSTEM_KEYWORDS error_str then SYSTEM
  else if type_in error_type ["memoryerror"; "oserror"; "permissionerror"] then SYSTEM
  else if any_keyword RECOVERABLE_KEYWORDS error_str then RECOVERABLE
  else if type_in error_type ["connectionerror"; "timeout"; "httperror"]
  then RECOVERABLE
  else if any_keyword PERMANENT_KEYWORDS error_str then PERMANENT
  else if type_in error_type ["valueerror"; "typeerror"; "keyerror";
                              "filenotfounderror"]
  then PERMANENT
  else RECOVERABLE.

(** [ErrorHandler.should_retry(error)]. *)
Definition should_retry (e : error) : bool :=
  match classify_error e with
  | RECOVERABLE => true
  | _ => false
  end.

(** [ErrorHandler.get_error_summary(errors)]: a dict from category names to
    counts. *)
Definition get_error_summary (errors : list error) : gmap string nat :=
  fold_left
    (fun summary e =>
       let category_name := category_value (classify_error e) in
       <[category_name := default 0 (summary !! category_name) + 1]> summary)
    errors ∅.

(** [", ".join(parts)]. *)
Fixpoint join_comma (parts : list string) : string :=
  match parts with
  | [] => ""
  | [x] => x
  | x :: rest => x +:+ ", " +:+ join_comma rest
  end.

(** [if x:] for an optional string argument. *)
Definition given (x : option string) : option string :=
  match x with
  | Some s => if String.eqb s "" then None else Some s
  | None => None
  end.

(** [ErrorHandler.get_error_message_with_context(error, stage, item_id,
    method)]. *)
Definition get_error_message_with_context (e : error) (stage : string)
    (item_id method : option string) : string :=
  let base_msg := error_text e in
  let context_parts :=
    match given item_id with Some i => ["item " +:+ i] | None => [] end
    ++ match given method with Some m => ["method " +:+ m] | None => [] end in
  let context :=
    match context_parts with
    | [] => ""
    | _ => " (" +:+ join_comma context_parts +:+ ")"
    end in
  "Error in " +:+ stage +:+ " stage" +:+ context +:+ ": " +:+ base_msg.

Definition category_eqb (a b : ErrorCategory) : bool :=
  match a, b with
  | RECOVERABLE, RECOVERABLE | PERMANENT, PERMANENT | SYSTEM, SYSTEM => true
  | _, _ => false
  end.

(** How many errors of a list fall in a category. *)
Fixpoint count_category (c : ErrorCategory) (errors : list error) : nat :=
  match errors with
  | [] => 0
  | e :: rest =>
      (if category_eqb (classify_error e) c then 1 else 0) + count_category c rest
  end.

End ErrorHandler.

(** *** Notions for the drivers *)

(** What one run of the evaluation driver does to an element: an entry
    already judged is skipped under resume, any other entry gets exactly one
    judgment, with the two model names, after those it had. *)
Definition judged_once (resume : bool) (gen eval : string) (x y : eval_elem) : Prop :=
  exists e, x = Entry e /\
    if resume && has_judgment e gen eval then y = x
    else exists j, y = Entry (set_judgments (judgments e ++ [j]) e) /\
                   gen_model j = VStr gen /\ eval_model j = VStr eval.

(** The client calls a run of the evaluation driver makes for a list of
    elements: one for each entry it does not skip, in order. *)
Definition judgment_calls `{Capabilities} (resume : bool) (gen eval image_path : string)
    (l : list eval_elem) : list call :=
  omap (fun x =>
          match x with
          | Entry e =>
              if resume && has_judgment e gen eval then None
              else Some (ImageUnderstanding eval image_path
                           (build_factual_qa_judgment_prompt (question e)))
          | Raw _ => None
          end) l.

(** The record file of the item in memory holds the item as it is now. *)
Definition persisted `{PathLib} (output_dir : string) (w : world) : Prop :=
  exists X save_path,
    item_id (w_item w) = VStr X /\
    resolve_save_path (w_item w) (item_json_path output_dir X) = Ok save_path /\
    w_fs w !! save_path = Some (FJson (VISItem_asdict (w_item w))).

(** *** The commands ([cli/gen_cli.py], [cli/eval_cli.py]) and the
        configuration check ([workflow/workflow_config.py]) *)

(** The three handlers of a command tell exceptions apart by class:
    [FileNotFoundError], [ValueError] (which [json.JSONDecodeError] and
    [UnicodeDecodeError] derive from), and all the rest. *)
Inductive exn_class : Type := FileNotFoundClass | ValueErrorClass | OtherClass.

(** Creating the client of a provider ([LLMClient(provider)]) and the class
    of the exceptions the client raises belong to the client library. *)
Class ClientLibrary : Type := {
  LLMClient_init : string -> result unit;
  capability_class : string -> exn_class
}.

Section Commands.
Context `{PathLib} `{Capabilities} `{ClientLibrary}.

Definition class_of (e : exn) : exn_class :=
  match e with
  | FileNotFoundError _ => FileNotFoundClass
  | ValueError _ | JSONDecodeError => ValueErrorClass
  | CapabilityError msg => capability_class msg
  | KeyError _ | TypeError | AttributeError
  | FileExistsError _ | IsADirectoryError _
  | NotADirectoryError _ | PermissionError _ | OSError _ _ => OtherClass
  end.

(** The code of the [typer.Exit] raised by the handler of each class. *)
Definition exit_code (c : exn_class) : nat :=
  match c with
  | FileNotFoundClass => 2
  | ValueErrorClass => 3
  | OtherClass => 1
  end.

(** [WorkflowConfig.validate()], run by the constructor of a workflow: the
    class of the exception it raises, if any.  A [ValueError] of the client
    constructor is raised again as a [ValueError]; any other exception of it
    passes through. *)
Definition validate (provider model output_dir : string) : option exn_class :=
  if String.eqb provider "" then Some ValueErrorClass
  else if String.eqb model "" then Some ValueErrorClass
  else if String.eqb output_dir "" then Some ValueErrorClass
  else match LLMClient_init provider with
       | Ok _ => None
       | Raise e => Some (class_of e)
       end.

(** What a command sees and changes: the files and the client calls. *)
Definition outside : Type := filesystem * list call.

(** The item a command works on: [state_manager.load_item(info_path,
    resume=True)] under resume, [VISItem.from_dict(info_path)] otherwise. *)
Definition command_item (output_dir info_path : string) (resume : bool)
    (fs : filesystem) : result VISItem :=
  if resume then load_item output_dir fs info_path true
  else VISItem_from_dict fs info_path.

(** The end of both commands: [item.save_item(output_path=output_dir)] and
    [item.build_save_path(output_dir)] for the log line. *)
Definition save_result (output_dir : string) (w : world) : nat * outside :=
  match VISItem_save_item (w_item w) output_dir (w_fs w) with
  | (Raise e, fs') => (exit_code (class_of e), (fs', w_calls w))
  | (Ok _, fs') =>
      match build_save_path (w_item w) output_dir with
      | Raise e => (exit_code (class_of e), (fs', w_calls w))
      | Ok _ => (0, (fs', w_calls w))
      end
  end.

(** [cmd_gen(info_path, provider, model, output_dir, resume)]: the exit code
    ([0] when the command returns) and what it leaves outside. *)
Definition cmd_gen (info_path provider model output_dir : string) (resume : bool)
    (o : outside) : nat * outside :=
  match validate provider model output_dir with
  | Some c => (exit_code c, o)
  | None =>
      match command_item output_dir info_path resume (fst o) with
      | Raise e => (exit_code (class_of e), o)
      | Ok item =>
          let cfg := {| cfg_model := model; cfg_output_dir := output_dir;
                        cfg_resume := resume |} in
          match GenWorkflow_run cfg
                  {| w_item := item; w_fs := fst o; w_calls := snd o |} with
          | (Raise e, w') => (exit_code (class_of e), (w_fs w', w_calls w'))
          | (Ok _, w') => save_result output_dir w'
          end
      end
  end.

(** [cmd_run_evaluation(info_path, gen_model, provider, model, output_dir,
    image_path, resume)]. *)
Definition cmd_run_evaluation (info_path gen_model provider model output_dir : string)
    (image_path : option string) (resume : bool) (o : outside) : nat * outside :=
  match validate provider model output_dir with
  | Some c => (exit_code c, o)
  | None =>
      match command_item output_dir info_path resume (fst o) with
      | Raise e => (exit_code (class_of e), o)
      | Ok item =>
          let cfg := {| cfg_model := model; cfg_output_dir := output_dir;
                        cfg_resume := resume |} in
          match EvalWorkflow_run cfg gen_model image_path
                  {| w_item := item; w_fs := fst o; w_calls := snd o |} with
          | (Raise e, w') => (exit_code (class_of e), (w_fs w', w_calls w'))
          | (Ok _, w') => save_result output_dir w'
          end
      end
  end.

End Commands.

(** *** Looking for an image ([utils/path_resolver.py]) *)

Section FindImage.
(** [base_path.with_suffix(ext)], of [pathlib]; it raises [ValueError] on a
    suffix or a base it does not accept. *)
Variable with_suffix : string -> string -> result string.

(** [PathResolver.find_image_with_extensions(base_path, extensions)]. *)
Fixpoint find_image_with_extensions (fs : filesystem) (base_path : string)
    (extensions : list string) : result (option string) :=
  match extensions with
  | [] => Ok None
  | ext :: rest =>
      try! candidate := with_suffix base_path ext in
      try! found := exists_ fs candidate in
      if found then Ok (Some candidate)
      else find_image_with_extensions fs base_path rest
  end.

(** [PathResolver.find_source_image(item_id, datasets_dir)]. *)
Definition find_source_image `{PathLib} (fs : filesystem) (item_id datasets_dir : string)
  : result (option string) :=
  find_image_with_extensions fs (joinpath (Path datasets_dir) item_id)
    [".png"; ".jpg"; ".jpeg"; ".webp"].

(** The candidate of an extension is there to be tried and does not exist. *)
Definition candidate_missing (fs : filesystem) (base_path ext : string) : Prop :=
  exists candidate,
    with_suffix base_path ext = Ok candidate /\ exists_ fs candidate = Ok false.

End FindImage.

(** *** Notions for the legacy record format of [is_stage_completed] *)

(** A judgment dict of the two models. *)
Definition judgment_matches (eval gen : string) (j : value) : Prop :=
  exists d, j = VDict d /\ dict_get "eval_model" VNone d = VStr eval /\
            dict_get "gen_model" VNone d = VStr gen.

(** An entry dict whose judgments can be iterated and hold one of the two
    models. *)
Definition entry_judged (eval gen : string) (entry : value) : Prop :=
  exists d js, entry = VDict d /\
               iter (dict_get "judgments" (VList []) d) = Ok js /\
               Exists (judgment_matches eval gen) js.

(** A dimension with at least one entry, all of them judged. *)
Definition dimension_judged (evaluation : value) (eval gen dimension : string) : Prop :=
  exists entries es,
    get evaluation dimension (VList []) = Ok entries /\ truthy entries = true /\
    iter entries = Ok es /\ Forall (entry_judged eval gen) es.

(** ** More sample data *)

Module MoreSamples.
Import Sample.

(** A client library that knows one provider. *)
#[export] Instance one_provider : ClientLibrary := {|
  LLMClient_init := fun provider =>
    if String.eqb provider "google" then Ok tt
    else Raise (CapabilityError "unknown provider");
  capability_class := fun _ => ValueErrorClass
|}.

(** The world after a first run of each driver. *)
Definition evaluated : world :=
  snd (EvalWorkflow_run (run_config "m2" true) "m1" None (fresh_world question_item)).

Definition generated : world :=
  snd (GenWorkflow_run (run_config "gemini-2.0" true) (fresh_world item42)).

(** A seed with one question, one with nothing but an id, and the files
    that hold them. *)
Definition seed7 : value :=
  VDict [("id", VStr "7");
         ("evaluation",
          VList [VDict [("source", VStr "seed");
                        ("question", VStr "Is there a title?");
                        ("question_type", VStr "text")]])].

Definition seed9 : value := VDict [("id", VStr "9")].

Definition item9 : VISItem :=
  {| item_id := VStr "9"; reference_image_url := VNone; t2i_prompt := VNone;
     chart_type := VNone; generation := VDict []; evaluation := [] |}.

Definition datasets : outside :=
  ({[ "datasets/42.json" := FJson seed42;
      "datasets/7.json" := FJson seed7;
      "datasets/9.json" := FJson seed9 ]}, []).

(** A record of the legacy format, with its evaluation by dimension. *)
Definition legacy_record : value :=
  VDict [("evaluation",
          VDict [("layout",
                  VList [VDict [("question", VStr "Is there a legend?");
                                ("judgments",
                                 VList [VDict [("eval_model", VStr "m2");
                                               ("gen_model", VStr "m1")]])]])])].

Definition legacy_outputs : filesystem :=
  {[ "outputs/5/5.json" := FJson legacy_record ]}.

(** A record file written for an item that is fully judged. *)
Definition judged_outputs : filesystem :=
  {[ "outputs/7/7.json" := FJson (VISItem_asdict judged_item) ]}.

(** A seed path that runs through a regular file: the lookup of
    [datasets/42.json/seed.json] answers [ENOTDIR]. *)
Definition under_file : outside :=
  ({[ "datasets/42.json" := FJson seed42;
      "datasets/42.json/seed.json" := FError ENOTDIR ]}, []).

Definition denied : ErrorHandler.error :=
  {| ErrorHandler.type_name := "ValueError";
     ErrorHandler.error_text := "Permission DENIED: outputs/42/42.json" |}.

End MoreSamples.

(** * Properties *)

(** ** Basic facts about the dynamic operations *)

Lemma bind_Ok {A B} (m : result A) (k : A -> result B) (b : B) :
  bind m k = Ok b -> exists a, m = Ok a /\ k a = Ok b.
Proof. destruct m as [a|e]; simpl; [eauto | discriminate]. Qed.

Lemma eq_str_spec (v : value) (s : string) : eq_str v s = true <-> v = VStr s.
Proof.
  destruct v; simpl; try (split; [discriminate | intros [=]]).
  rewrite String.eqb_eq. split; [intros -> | intros [= ->]]; reflexivity.
Qed.

Lemma dict_mem_lookup (k : string) (d : list (string * value)) :
  dict_mem k d = true <-> exists v, dict_lookup k d = Some v.
Proof.
  unfold dict_mem. destruct (dict_lookup k d) as [v|].
  - split; eauto.
  - split; [discriminate | intros [v [=]]].
Qed.

(** ** The resume policy of the state store *)

(** C1. For a seed record with id [X]: without resume [load_item] returns
    the seed record; with resume it returns the seed record when nothing
    exists at [output_dir/X/X.json], and otherwise what loading that file
    gives, which is the parse of the stored document alone: no field of the
    seed enters the result.  An error of the existence test itself is the
    outcome of the resumed load. *)
Theorem C1_load_item_resume `{PathLib} (output_dir : string) (fs : filesystem)
    (source_path : string) (seed : VISItem) (X : string) :
  VISItem_from_dict fs source_path = Ok seed ->
  item_id seed = VStr X ->
  load_item output_dir fs source_path false = Ok seed
  /\ (exists_ fs (item_json_path output_dir X) = Ok false ->
      load_item output_dir fs source_path true = Ok seed)
  /\ (exists_ fs (item_json_path output_dir X) = Ok true ->
      load_item output_dir fs source_path true
      = VISItem_from_dict fs (item_json_path output_dir X))
  /\ (forall doc, fs !! item_json_path output_dir X = Some (FJson doc) ->
      load_item output_dir fs source_path true = VISItem_of_json doc)
  /\ (forall e, exists_ fs (item_json_path output_dir X) = Raise e ->
      load_item output_dir fs source_path true = Raise e).
Proof.
  intros Hseed Hid. unfold load_item. simpl. rewrite Hseed. simpl. rewrite Hid.
  repeat split.
  - intros ->. reflexivity.
  - intros ->. reflexivity.
  - intros doc Hdoc. unfold exists_, VISItem_from_dict, json_load.
    rewrite Hdoc. reflexivity.
  - intros e ->. reflexivity.
Qed.

(** ** The completion oracle *)

Lemma has_judgment_spec (e : EvalEntry) (gen eval : string) :
  has_judgment e gen eval = true <-> judged gen eval (Entry e).
Proof.
  unfold has_judgment, judged. rewrite existsb_exists. split.
  - intros (j & Hin & Hj). apply andb_true_iff in Hj as [Hg He].
    apply eq_str_spec in Hg, He. exists e, j.
    rewrite list_elem_of_In. auto.
  - intros (e' & j & [= <-] & Hin & Hg & He). exists j.
    rewrite <- list_elem_of_In. split; [assumption|].
    apply andb_true_iff. split; apply eq_str_spec; assumption.
Qed.

Lemma all_judged_true (l : list eval_elem) (gen eval : string) :
  all_judged l gen eval = Ok true <-> Forall (judged gen eval) l.
Proof.
  induction l as [|x l IH]; simpl.
  - split; [constructor | reflexivity].
  - destruct x as [e|v].
    + destruct (has_judgment e gen eval) eqn:Hj.
      * rewrite IH, Forall_cons. apply has_judgment_spec in Hj. tauto.
      * split; [discriminate|]. intros Hall. apply Forall_cons in Hall as [Hx _].
        apply has_judgment_spec in Hx. congruence.
    + split; [discriminate|]. intros Hall. apply Forall_cons in Hall as [Hx _].
      destruct Hx as (e & j & [=] & _).
Qed.

Lemma all_judged_total (l : list eval_elem) (gen eval : string) :
  Forall is_entry l -> exists b, all_judged l gen eval = Ok b.
Proof.
  induction 1 as [|x l Hx _ IH]; simpl; [eauto|].
  destruct x as [e|v]; [|destruct Hx].
  destruct (has_judgment e gen eval); eauto.
Qed.

(** C2. [check_evaluation_complete] answers true exactly when the
    evaluation sequence is not empty and every entry holds a judgment whose
    [gen_model] and [eval_model] are the requested strings; it answers false
    on an empty sequence, and on a sequence of entries it always answers. *)
Theorem C2_check_evaluation_complete (item : VISItem) (gen eval : string) :
  (check_evaluation_complete item gen eval = Ok true <->
     evaluation item <> [] /\ Forall (judged gen eval) (evaluation item))
  /\ (evaluation item = [] -> check_evaluation_complete item gen eval = Ok false)
  /\ (Forall is_entry (evaluation item) ->
      exists b, check_evaluation_complete item gen eval = Ok b).
Proof.
  unfold check_evaluation_complete.
  destruct (evaluation item) as [|x l] eqn:Hev.
  - repeat split; try discriminate; eauto.
    intros [Hne _]. congruence.
  - split; [|split].
    + rewrite all_judged_true. split; [intros Hall; split; [discriminate | exact Hall] | tauto].
    + discriminate.
    + apply all_judged_total.
Qed.

Section GenerateStage.
Context `{PathLib}.

Lemma generate_completed_true (fs : filesystem) (data : value) (m : string) :
  generate_completed fs data (Some m) = Ok true <->
  m <> "" /\
  exists d g p, data = VDict d /\ dict_lookup "generation" d = Some (VDict g) /\
                dict_lookup m g = Some (VStr p) /\ p <> "" /\
                exists_ fs (Path p) = Ok true.
Proof.
  unfold generate_completed.
  destruct (String.eqb_spec m "") as [->|Hm].
  { split; [discriminate | intros [Hne _]; congruence]. }
  split.
  - intros Hrun. split; [assumption|].
    destruct data as [| | | | |d]; try discriminate. simpl in Hrun.
    unfold dict_get in Hrun.
    destruct (dict_lookup "generation" d) as [gv|] eqn:Hg; [|discriminate].
    destruct gv as [| | |s|l|g]; simpl in Hrun; try discriminate.
    + destruct (is_substring m s); discriminate.
    + destruct (existsb _ l); discriminate.
    + unfold dict_mem in Hrun.
      destruct (dict_lookup m g) as [pv|] eqn:Hp; [|discriminate].
      simpl in Hrun. destruct (truthy pv) eqn:Ht; [|discriminate].
      destruct pv as [| | |p| |]; try discriminate.
      exists d, g, p. simpl in Ht. apply negb_true_iff, String.eqb_neq in Ht.
      repeat split; try assumption.
  - intros (_ & d & g & p & -> & Hg & Hp & Hne & Hex). simpl.
    unfold dict_get. rewrite Hg. simpl. unfold dict_mem. rewrite Hp. simpl.
    apply String.eqb_neq in Hne. rewrite Hne. simpl. exact Hex.
Qed.

(** With the record file in place the generate check answers what the
    [generate] branch computes, an exception of the branch counting as
    [False]. *)
Lemma is_stage_completed_generate_eq (output_dir : string) (fs : filesystem)
    (id : string) (method : option string) (dims : option (list string))
    (data : value) :
  fs !! item_json_path output_dir id = Some (FJson data) ->
  is_stage_completed output_dir fs id "generate" method dims
  = Ok match generate_completed fs data method with
       | Ok b => b
       | Raise _ => false
       end.
Proof.
  intros Hfile. unfold is_stage_completed, exists_, json_load. rewrite Hfile.
  simpl. change (stage_completed fs data "generate" method dims)
    with (generate_completed fs data method).
  destruct (generate_completed fs data method) as [b|e]; reflexivity.
Qed.

Lemma is_stage_completed_generate (output_dir : string) (fs : filesystem)
    (id : string) (method : option string) (dims : option (list string))
    (data : value) :
  fs !! item_json_path output_dir id = Some (FJson data) ->
  is_stage_completed output_dir fs id "generate" method dims = Ok true <->
  generate_completed fs data method = Ok true.
Proof.
  intros Hfile. rewrite (is_stage_completed_generate_eq _ _ _ _ _ _ Hfile).
  destruct (generate_completed fs data method) as [[|]|e];
    split; congruence.
Qed.

(** Without a record file the check answers [False] for every stage. *)
Lemma is_stage_completed_absent (output_dir : string) (fs : filesystem)
    (id stage : string) (method : option string) (dims : option (list string)) :
  exists_ fs (item_json_path output_dir id) = Ok false ->
  is_stage_completed output_dir fs id stage method dims = Ok false.
Proof. intros Hex. unfold is_stage_completed. rewrite Hex. reflexivity. Qed.

Lemma exists_delete (fs : filesystem) (p : string) :
  exists_ (delete p fs) p = Ok false.
Proof. unfold exists_. rewrite lookup_delete_eq. reflexivity. Qed.

Lemma already_generated_true (cfg : config) (item : VISItem) (fs : filesystem) :
  already_generated cfg item fs = Ok true <->
  cfg_resume cfg = true /\
  exists g p, generation item = VDict g /\
              dict_lookup (cfg_model cfg) g = Some (VStr p) /\
              exists_ fs (Path p) = Ok true.
Proof.
  unfold already_generated, check_generation_exists.
  destruct (cfg_resume cfg); [|split; [discriminate | intros [[=] _]]].
  split.
  - intros Hrun. split; [reflexivity|].
    destruct (generation item) as [| | |s|l|g]; simpl in Hrun; try discriminate.
    + destruct (is_substring _ s); discriminate.
    + destruct (existsb _ l); discriminate.
    + unfold dict_mem in Hrun.
      destruct (dict_lookup (cfg_model cfg) g) as [pv|] eqn:Hp; [|discriminate].
      simpl in Hrun.
      destruct pv as [| | |p| |]; try discriminate.
      exists g, p. split; [reflexivity|]. split; [exact Hp|]. exact Hrun.
  - intros (_ & g & p & -> & Hp & Hex). simpl. unfold dict_mem.
    rewrite Hp. simpl. exact Hex.
Qed.

(** C3, amended. For a persisted record and a model name [m], the generate
    stage is complete exactly when [m] is not empty and the generation map
    holds, under key [m], a non-empty path string naming a file that exists;
    for a missing or an empty model name the check answers false whatever the
    record holds, and so it does for an empty stored path; removing the file
    makes the stage incomplete again while the record is untouched.  The test
    the generation driver makes on the record in memory is, under resume,
    true exactly when the generation map holds under the model key a path
    string naming a file that exists. *)
Theorem C3_generate_stage_complete (output_dir : string) (fs : filesystem)
    (id m : string) (dims : option (list string)) (data : value) :
  fs !! item_json_path output_dir id = Some (FJson data) ->
  (is_stage_completed output_dir fs id "generate" (Some m) dims = Ok true <->
     m <> "" /\
     exists d g p, data = VDict d /\ dict_lookup "generation" d = Some (VDict g) /\
                   dict_lookup m g = Some (VStr p) /\ p <> "" /\
                   exists_ fs (Path p) = Ok true)
  /\ (exists b, is_stage_completed output_dir fs id "generate" (Some m) dims = Ok b)
  /\ is_stage_completed output_dir fs id "generate" None dims = Ok false
  /\ is_stage_completed output_dir fs id "generate" (Some "") dims = Ok false
  /\ (forall d g, data = VDict d -> dict_lookup "generation" d = Some (VDict g) ->
        dict_lookup m g = Some (VStr "") ->
        is_stage_completed output_dir fs id "generate" (Some m) dims = Ok false)
  /\ (forall d g p, data = VDict d -> dict_lookup "generation" d = Some (VDict g) ->
        dict_lookup m g = Some (VStr p) ->
        is_stage_completed output_dir (delete (Path p) fs) id "generate" (Some m) dims
        = Ok false)
  /\ (forall cfg item,
        already_generated cfg item fs = Ok true <->
        cfg_resume cfg = true /\
        exists g p, generation item = VDict g /\
                    dict_lookup (cfg_model cfg) g = Some (VStr p) /\
                    exists_ fs (Path p) = Ok true).
Proof.
  intros Hfile. split; [|split; [|split; [|split; [|split; [|split]]]]].
  - rewrite (is_stage_completed_generate _ _ _ _ _ _ Hfile).
    apply generate_completed_true.
  - rewrite (is_stage_completed_generate_eq _ _ _ _ _ _ Hfile). eauto.
  - rewrite (is_stage_completed_generate_eq _ _ _ _ _ _ Hfile). reflexivity.
  - rewrite (is_stage_completed_generate_eq _ _ _ _ _ _ Hfile). reflexivity.
  - intros d g -> Hg Hp.
    rewrite (is_stage_completed_generate_eq _ _ _ _ _ _ Hfile).
    destruct (generate_completed fs (VDict d) (Some m)) as [[|]|e] eqn:Hgen;
      try reflexivity.
    apply generate_completed_true in Hgen
      as (_ & d' & g' & p' & [= <-] & Hg' & Hp' & Hne & _).
    rewrite Hg in Hg'. injection Hg' as <-. rewrite Hp in Hp'.
    injection Hp' as <-. congruence.
  - intros d g p -> Hg Hp.
    destruct (decide (Path p = item_json_path output_dir id)) as [Heq|Hne].
    + apply is_stage_completed_absent. rewrite <- Heq. apply exists_delete.
    + assert (Hfile' : delete (Path p) fs !! item_json_path output_dir id
                       = Some (FJson (VDict d)))
        by (rewrite lookup_delete_ne; [exact Hfile | exact Hne]).
      rewrite (is_stage_completed_generate_eq _ _ _ _ _ _ Hfile').
      destruct (generate_completed (delete (Path p) fs) (VDict d) (Some m))
        as [[|]|e] eqn:Hgen; try reflexivity.
      apply generate_completed_true in Hgen
        as (_ & d' & g' & p' & [= <-] & Hg' & Hp' & _ & Hex).
      rewrite Hg in Hg'. injection Hg' as <-. rewrite Hp in Hp'.
      injection Hp' as <-. rewrite exists_delete in Hex. discriminate.
  - intros cfg item. apply already_generated_true.
Qed.

End GenerateStage.

(** ** Saving and loading *)

Lemma judgment_roundtrip (j : Judgment) :
  parse_judgment (judgment_asdict j) = Some j.
Proof. destruct j. reflexivity. Qed.

Lemma judgments_roundtrip (js : list Judgment) :
  omap parse_judgment (map judgment_asdict js) = js.
Proof.
  induction js as [|j js IH]; [reflexivity|].
  destruct j. simpl. f_equal. exact IH.
Qed.

Lemma entry_roundtrip (e : EvalEntry) :
  parse_eval_elem (EvalEntry_to_dict e) = Ok (Entry e).
Proof.
  destruct e as [s g q t js]. unfold EvalEntry_to_dict, parse_eval_elem.
  unfold EvalEntry_from_dict. cbn -[omap map].
  rewrite judgments_roundtrip. reflexivity.
Qed.

Lemma elem_roundtrip (x : eval_elem) :
  loadable_elem x -> parse_eval_elem (elem_asdict x) = Ok x.
Proof.
  destruct x as [e|v]; simpl.
  - intros _. apply entry_roundtrip.
  - destruct v; simpl; intros Hv; [reflexivity.. | destruct Hv].
Qed.

Lemma evaluation_roundtrip (l : list eval_elem) :
  Forall loadable_elem l -> mapM parse_eval_elem (map elem_asdict l) = Ok l.
Proof.
  induction 1 as [|x l Hx _ IH]; [reflexivity|].
  cbn [map mapM]. rewrite (elem_roundtrip x Hx). cbn [bind]. rewrite IH.
  reflexivity.
Qed.

Lemma of_json_asdict (item : VISItem) :
  Forall loadable_elem (evaluation item) ->
  VISItem_of_json (VISItem_asdict item) = Ok item.
Proof.
  intros Hl. destruct item as [i r t c g ev]. simpl in Hl.
  unfold VISItem_of_json, VISItem_asdict. cbn -[mapM map].
  rewrite (evaluation_roundtrip ev Hl). reflexivity.
Qed.

Lemma parse_eval_elem_loadable (v : value) (x : eval_elem) :
  parse_eval_elem v = Ok x -> loadable_elem x.
Proof.
  destruct v as [| | | | |d]; simpl; try (intros [= <-]; exact I).
  destruct (EvalEntry_from_dict d); simpl; [intros [= <-]; exact I | discriminate].
Qed.

Lemma mapM_loadable (vs : list value) (l : list eval_elem) :
  mapM parse_eval_elem vs = Ok l -> Forall loadable_elem l.
Proof.
  revert l. induction vs as [|v vs IH]; simpl; intros l Hl.
  - injection Hl as <-. constructor.
  - apply bind_Ok in Hl as (x & Hx & Hl).
    apply bind_Ok in Hl as (l' & Hl' & [= <-]).
    constructor; [eapply parse_eval_elem_loadable; eassumption | auto].
Qed.

Lemma of_json_loadable (data : value) (item : VISItem) :
  VISItem_of_json data = Ok item -> Forall loadable_elem (evaluation item).
Proof.
  unfold VISItem_of_json. intros Hload.
  apply bind_Ok in Hload as (i & _ & Hload).
  destruct data as [| | | | |d]; try discriminate.
  apply bind_Ok in Hload as (ev & Hev & [= <-]). simpl.
  destruct (dict_lookup "evaluation" d) as [v|].
  - apply bind_Ok in Hev as (vs & _ & Hev). eapply mapM_loadable; eassumption.
  - injection Hev as <-. constructor.
Qed.

Lemma from_dict_loadable (fs : filesystem) (path : string) (item : VISItem) :
  VISItem_from_dict fs path = Ok item -> Forall loadable_elem (evaluation item).
Proof.
  unfold VISItem_from_dict. intros Hload.
  apply bind_Ok in Hload as (data & _ & Hload).
  eapply of_json_loadable; eassumption.
Qed.

Lemma pbind_Ok {S A B} (m : prog S A) (k : A -> prog S B) (s s' : S) (b : B) :
  pbind m k s = (Ok b, s') -> exists a s1, m s = (Ok a, s1) /\ k a s1 = (Ok b, s').
Proof.
  unfold pbind. destruct (m s) as [[a|e] s1]; [eauto | discriminate].
Qed.

Lemma pbind_ret {S A B} (a : A) (k : A -> prog S B) (s : S) :
  pbind (ret a) k s = k a s.
Proof. reflexivity. Qed.

Lemma pbind_lift_Ok {S A B} (a : A) (k : A -> prog S B) (s : S) :
  pbind (lift (Ok a)) k s = k a s.
Proof. reflexivity. Qed.

Lemma pbind_lift_Raise {S A B} (e : exn) (k : A -> prog S B) (s : S) :
  pbind (lift (Raise e)) k s = (Raise e, s).
Proof. reflexivity. Qed.

Lemma pbind_get_item {B} (k : VISItem -> prog world B) (w : world) :
  pbind get_item k w = k (w_item w) w.
Proof. reflexivity. Qed.

Lemma write_file_Ok (p : string) (n : fnode) (fs fs' : filesystem) :
  write_file p n fs = (Ok tt, fs') -> fs' !! p = Some n.
Proof.
  unfold write_file. destruct (fs !! p) as [[| | |e]|]; intros [= <-];
    apply lookup_insert_eq.
Qed.

Section SaveLoad.
Context `{PathLib}.

Lemma save_item_written (item : VISItem) (output_path : string)
    (fs fs' : filesystem) :
  VISItem_save_item item output_path fs = (Ok tt, fs') ->
  exists save_path,
    resolve_save_path item output_path = Ok save_path /\
    fs' !! save_path = Some (FJson (VISItem_asdict item)).
Proof.
  unfold VISItem_save_item. intros Hsave.
  apply pbind_Ok in Hsave as (save_path & fs0 & Hpath & Hsave).
  apply pbind_Ok in Hsave as ([] & fs1 & _ & Hsave).
  unfold lift in Hpath. injection Hpath as Hpath _.
  exists save_path. split; [assumption|].
  eapply write_file_Ok; eassumption.
Qed.

(** C4. A record that [VISItem.from_dict] has loaded, once saved with
    [save_item] (or persisted by the state manager), is loaded again from the
    file that was written as the very same record: same id and descriptive
    fields, same generation map, same evaluation entries with their
    judgments in the same order. *)
Theorem C4_save_load_roundtrip (fs : filesystem) (path : string) (item : VISItem) :
  VISItem_from_dict fs path = Ok item ->
  (forall output_path fs',
     VISItem_save_item item output_path fs = (Ok tt, fs') ->
     exists save_path,
       resolve_save_path item output_path = Ok save_path /\
       VISItem_from_dict fs' save_path = Ok item)
  /\ (forall output_dir fs',
       ItemStateManager_save_item output_dir item fs = (Ok tt, fs') ->
       exists save_path, VISItem_from_dict fs' save_path = Ok item).
Proof.
  intros Hload. apply from_dict_loadable in Hload.
  assert (Hsaved : forall output_path fs0 fs',
    VISItem_save_item item output_path fs0 = (Ok tt, fs') ->
    exists save_path,
      resolve_save_path item output_path = Ok save_path /\
      VISItem_from_dict fs' save_path = Ok item).
  { intros output_path fs0 fs' Hsave.
    apply save_item_written in Hsave as (save_path & Hpath & Hfile).
    exists save_path. split; [assumption|].
    unfold VISItem_from_dict, json_load. rewrite Hfile. simpl.
    apply of_json_asdict. assumption. }
  split.
  - intros output_path fs'. apply Hsaved.
  - intros output_dir fs'. unfold ItemStateManager_save_item.
    destruct (item_id item); try discriminate.
    intros Hsave. apply pbind_Ok in Hsave as ([] & fs1 & _ & Hsave).
    apply Hsaved in Hsave as (save_path & _ & Hsave). eauto.
Qed.

End SaveLoad.

(** ** Parsing a record *)

(** C6. Loading a JSON object without [id] fails with the [KeyError] of
    the missing key.  With [id] present every other top-level field may be
    missing: a record loaded from the object has the default in each missing
    field (unset descriptive strings, empty generation map, empty evaluation
    sequence), and when [evaluation] is missing the load succeeds. *)
Theorem C6_from_dict_only_id_required (fs : filesystem) (path : string)
    (d : list (string * value)) :
  fs !! path = Some (FJson (VDict d)) ->
  (dict_lookup "id" d = None -> VISItem_from_dict fs path = Raise (KeyError "id"))
  /\ (forall i, dict_lookup "id" d = Some i ->
       (dict_lookup "evaluation" d = None ->
          exists item, VISItem_from_dict fs path = Ok item)
       /\ (forall item, VISItem_from_dict fs path = Ok item ->
            item_id item = i
            /\ (dict_lookup "reference_image_url" d = None ->
                reference_image_url item = VNone)
            /\ (dict_lookup "t2i_prompt" d = None -> t2i_prompt item = VNone)
            /\ (dict_lookup "chart_type" d = None -> chart_type item = VNone)
            /\ (dict_lookup "generation" d = None -> generation item = VDict [])
            /\ (dict_lookup "evaluation" d = None -> evaluation item = []))).
Proof.
  intros Hfile. unfold VISItem_from_dict, json_load. rewrite Hfile.
  unfold VISItem_of_json. cbn [bind getitem]. split.
  - intros ->. reflexivity.
  - intros i ->. cbn [bind]. split.
    + intros ->. cbn [bind]. eauto.
    + intros item Hload. apply bind_Ok in Hload as (ev & Hev & [= <-]).
      cbn. unfold dict_get.
      repeat split; try (intros ->; reflexivity).
      intros Hnone. rewrite Hnone in Hev. injection Hev as <-. reflexivity.
Qed.

(** C7. When the [judgments] of an entry being parsed is a list (or is
    missing), [EvalEntry.from_dict] returns: every dict in the list becomes a
    [Judgment], in order, in the entry's judgments, each of its four fields
    being the dict's value for the key, or the empty string when the key is
    missing.  The entry keeps these judgments when parsed as part of a
    record. *)
Theorem C7_judgments_parsed_with_defaults (data : list (string * value))
    (js : list value) :
  dict_get "judgments" (VList []) data = VList js ->
  exists e,
    EvalEntry_from_dict data = Ok e
    /\ judgments e = omap parse_judgment js
    /\ (exists e', parse_eval_elem (VDict data) = Ok (Entry e')
                  /\ judgments e' = judgments e)
    /\ forall j, VDict j ∈ js ->
         judgment_of_dict j ∈ judgments e
         /\ eval_model (judgment_of_dict j) = dict_get "eval_model" (VStr "") j
         /\ gen_model (judgment_of_dict j) = dict_get "gen_model" (VStr "") j
         /\ analysis (judgment_of_dict j) = dict_get "analysis" (VStr "") j
         /\ answer (judgment_of_dict j) = dict_get "answer" (VStr "") j
         /\ (forall k, dict_lookup k j = None -> dict_get k (VStr "") j = VStr "").
Proof.
  intros Hjs. unfold parse_eval_elem, EvalEntry_from_dict. rewrite Hjs.
  cbn [iter bind]. eexists. split; [reflexivity|]. split; [reflexivity|]. split.
  - destruct (dict_lookup "source" data); eexists; split; reflexivity.
  - intros j Hin. cbn [judgments]. split.
    + apply list_elem_of_omap. exists (VDict j). split; [assumption | reflexivity].
    + repeat split. intros k Hk. unfold dict_get. rewrite Hk. reflexivity.
Qed.

(** ** The persisted-record check and exceptions *)


(** ** The evaluation driver on an item without questions *)

Section EmptyEvaluation.
Context `{PathLib} `{Capabilities}.

(** C8. On an item whose evaluation sequence is empty [EvalWorkflow.run]
    raises, whatever the resume flag and the models, and leaves the world as
    it found it: same record, same files, no client call.  Unless the image
    path has to be resolved from an id that is no string, the exception is the
    [ValueError] of [_evaluate_all]. *)
Theorem C8_evaluate_without_questions_raises (cfg : config) (gen : string)
    (image_path : option string) (w : world) :
  evaluation (w_item w) = [] ->
  (exists e, EvalWorkflow_run cfg gen image_path w = (Raise e, w))
  /\ (image_path <> None \/ (exists X, item_id (w_item w) = VStr X) ->
      EvalWorkflow_run cfg gen image_path w
      = (Raise (ValueError (no_questions_found (item_id (w_item w)))), w)).
Proof.
  intros Hempty.
  assert (Hall : forall p, _evaluate_all cfg p gen w
                 = (Raise (ValueError (no_questions_found (item_id (w_item w)))), w)).
  { intros p. unfold _evaluate_all. rewrite pbind_get_item, Hempty.
    reflexivity. }
  assert (Hcheck : forall p,
    pbind (if cfg_resume cfg
           then lift (check_evaluation_complete (w_item w) gen (cfg_model cfg))
           else ret false)
          (fun done => if done then ret tt else _evaluate_all cfg p gen) w
    = (Raise (ValueError (no_questions_found (item_id (w_item w)))), w)).
  { intros p. unfold check_evaluation_complete. rewrite Hempty.
    destruct (cfg_resume cfg); [rewrite pbind_lift_Ok | rewrite pbind_ret];
      apply Hall. }
  assert (Hgiven : forall p, EvalWorkflow_run cfg gen (Some p) w
                   = (Raise (ValueError (no_questions_found (item_id (w_item w)))), w)).
  { intros p. unfold EvalWorkflow_run.
    rewrite pbind_get_item, pbind_ret. apply Hcheck. }
  destruct image_path as [p|].
  - rewrite Hgiven. split; [eauto | reflexivity].
  - unfold EvalWorkflow_run, resolve_image_path_of. rewrite pbind_get_item.
    destruct (item_id (w_item w)) as [| | |X| |] eqn:Hid;
      try (rewrite pbind_lift_Raise;
           split; [eexists; reflexivity | intros [Hp | [X [=]]]; congruence]).
    rewrite pbind_lift_Ok, Hcheck. split; [eauto | reflexivity].
Qed.

End EmptyEvaluation.

(** ** The record only grows *)

Lemma entry_extends_refl (e : EvalEntry) : entry_extends e e.
Proof.
  unfold entry_extends. repeat split. exists []. symmetry. apply app_nil_r.
Qed.

Lemma entry_extends_trans (e1 e2 e3 : EvalEntry) :
  entry_extends e1 e2 -> entry_extends e2 e3 -> entry_extends e1 e3.
Proof.
  intros (Hs & Hg & Hq & Ht & a & Ha) (Hs' & Hg' & Hq' & Ht' & b & Hb).
  unfold entry_extends. repeat split; try congruence.
  exists (a ++ b). rewrite Hb, Ha. symmetry. apply app_assoc.
Qed.

Lemma elem_extends_refl (x : eval_elem) : elem_extends x x.
Proof. destruct x; simpl; [apply entry_extends_refl | reflexivity]. Qed.

Lemma elem_extends_trans (x y z : eval_elem) :
  elem_extends x y -> elem_extends y z -> elem_extends x z.
Proof.
  destruct x, y, z; simpl; try tauto; try congruence.
  apply entry_extends_trans.
Qed.

Lemma evaluation_extends_refl (l : list eval_elem) : Forall2 elem_extends l l.
Proof.
  apply Forall_Forall2_diag, Forall_forall. intros x _. apply elem_extends_refl.
Qed.

Lemma evaluation_extends_trans (l1 l2 l3 : list eval_elem) :
  Forall2 elem_extends l1 l2 -> Forall2 elem_extends l2 l3 ->
  Forall2 elem_extends l1 l3.
Proof.
  intros H12. revert l3. induction H12 as [|x y l1 l2 Hxy _ IH]; intros l3 H23.
  - inversion H23. constructor.
  - inversion H23 as [|? z ? l3' Hyz Hrest]; subst. constructor.
    + eapply elem_extends_trans; eassumption.
    + apply IH. assumption.
Qed.

Lemma grows_refl (item : VISItem) : grows item item.
Proof. split; [reflexivity | apply evaluation_extends_refl]. Qed.

Lemma grows_trans (a b c : VISItem) : grows a b -> grows b c -> grows a c.
Proof.
  intros [Hk He] [Hk' He']. split.
  - etransitivity; eassumption.
  - eapply evaluation_extends_trans; eassumption.
Qed.

Lemma dict_set_keeps_keys (k : string) (v : value) (d : list (string * value))
    (x : string) :
  x ∈ dict_keys d -> x ∈ dict_keys (dict_set k v d).
Proof.
  unfold dict_keys. induction d as [|[k' v'] d IH]; simpl.
  - intros Hx. inversion Hx.
  - destruct (String.eqb k k'); simpl; [tauto|].
    rewrite !elem_of_cons. intros [->|Hx]; [left; reflexivity | right; auto].
Qed.

Lemma update_generation_grows (item : VISItem) (model image_path : string)
    (item' : VISItem) :
  update_generation item model image_path = Ok item' -> grows item item'.
Proof.
  unfold update_generation.
  destruct (generation item) as [| | | | |g] eqn:Hg; try discriminate.
  intros [= <-]. split; simpl.
  - rewrite Hg. simpl. intros x. rewrite !elem_of_list_to_set.
    apply dict_set_keeps_keys.
  - apply evaluation_extends_refl.
Qed.

Lemma append_judgment_grows (item : VISItem) (i : nat) (e : EvalEntry)
    (j : Judgment) :
  evaluation item !! i = Some (Entry e) ->
  grows item
    (set_evaluation
       (<[i := Entry (set_judgments (judgments e ++ [j]) e)]> (evaluation item))
       item).
Proof.
  intros Hi. split; simpl; [reflexivity|].
  rewrite <- (list_insert_id _ _ _ Hi) at 1.
  apply Forall2_insert; [apply evaluation_extends_refl|].
  simpl. unfold entry_extends. simpl. repeat split. eauto.
Qed.

Lemma pbind_inv {S A B} (m : prog S A) (k : A -> prog S B) (s s' : S)
    (r : result B) :
  pbind m k s = (r, s') ->
  (exists a s1, m s = (Ok a, s1) /\ k a s1 = (r, s'))
  \/ (exists e, m s = (Raise e, s') /\ r = Raise e).
Proof.
  unfold pbind. destruct (m s) as [[a|e] s1].
  - left. eauto.
  - intros [= <- <-]. right. eauto.
Qed.

Lemma on_fs_item {A} (m : prog filesystem A) (w w' : world) (r : result A) :
  on_fs m w = (r, w') -> w_item w' = w_item w.
Proof. unfold on_fs. destruct (m (w_fs w)). intros [= _ <-]. reflexivity. Qed.

Lemma client_call_item {A} (c : call) (f : list call -> result A)
    (w w' : world) (r : result A) :
  client_call c f w = (r, w') -> w_item w' = w_item w.
Proof. unfold client_call. intros [= _ <-]. reflexivity. Qed.

Lemma lift_inv {S A} (x : result A) (s s' : S) (r : result A) :
  lift x s = (r, s') -> r = x /\ s' = s.
Proof. unfold lift. intros [= <- <-]. auto. Qed.

Lemma pbind_get_fs {B} (k : filesystem -> prog world B) (w : world) :
  pbind get_fs k w = k (w_fs w) w.
Proof. reflexivity. Qed.

Lemma pbind_set_item {B} (item : VISItem) (k : unit -> prog world B) (w : world) :
  pbind (set_item item) k w
  = k tt {| w_item := item; w_fs := w_fs w; w_calls := w_calls w |}.
Proof. reflexivity. Qed.

Lemma ret_inv {S A} (a : A) (s s' : S) (r : result A) :
  ret a s = (r, s') -> r = Ok a /\ s' = s.
Proof. unfold ret. intros [= <- <-]. auto. Qed.

Lemma throw_inv {S A} (e : exn) (s s' : S) (r : result A) :
  throw e s = (r, s') -> r = Raise e /\ s' = s.
Proof. unfold throw. intros [= <- <-]. auto. Qed.

Section Growth.
Context `{PathLib} `{Capabilities}.

Lemma text2image_item (model : string) (w w' : world) (r : result string) :
  text2image model w = (r, w') -> w_item w' = w_item w.
Proof.
  unfold text2image. rewrite pbind_get_item.
  destruct (negb (truthy (t2i_prompt (w_item w)))).
  - intros Hr. apply throw_inv in Hr as [_ ->]. reflexivity.
  - apply client_call_item.
Qed.

Lemma judge_entry_item (e : EvalEntry) (gen eval image_path : string)
    (w w' : world) (r : result Judgment) :
  judge_entry e gen eval image_path w = (r, w') -> w_item w' = w_item w.
Proof.
  unfold judge_entry. destruct (negb (truthy (question e))).
  { intros Hr. apply throw_inv in Hr as [_ ->]. reflexivity. }
  intros Hrun.
  apply pbind_inv in Hrun as [(resp & w1 & Hcall & Hrun) | (x & Hcall & _)];
    apply client_call_item in Hcall; [|assumption].
  rewrite <- Hcall.
  apply pbind_inv in Hrun as [(ana & w2 & Hana & Hrun) | (x & Hana & _)];
    apply lift_inv in Hana as [_ ->]; [|reflexivity].
  apply pbind_inv in Hrun as [(ans & w3 & Hans & Hrun) | (x & Hans & _)];
    apply lift_inv in Hans as [_ ->]; [|reflexivity].
  apply ret_inv in Hrun as [_ ->]. reflexivity.
Qed.

Lemma GenWorkflow_run_grows (cfg : config) (w w' : world) (r : result unit) :
  GenWorkflow_run cfg w = (r, w') -> grows (w_item w) (w_item w').
Proof.
  unfold GenWorkflow_run. rewrite pbind_get_item, pbind_get_fs. intros Hrun.
  apply pbind_inv in Hrun as [(done & w1 & Hdone & Hrun) | (x & Hdone & _)];
    apply lift_inv in Hdone as [_ ->]; [|apply grows_refl].
  destruct done.
  { apply ret_inv in Hrun as [_ ->]. apply grows_refl. }
  apply pbind_inv in Hrun as [(image & w1 & Himg & Hrun) | (x & Himg & _)];
    apply text2image_item in Himg; [|rewrite Himg; apply grows_refl].
  apply pbind_inv in Hrun as [(image_path & w2 & Hpath & Hrun) | (x & Hpath & _)];
    apply lift_inv in Hpath as [_ ->]; [|rewrite Himg; apply grows_refl].
  apply pbind_inv in Hrun as [([] & w3 & Hmk & Hrun) | (x & Hmk & _)];
    apply on_fs_item in Hmk; [|rewrite Hmk, Himg; apply grows_refl].
  apply pbind_inv in Hrun as [([] & w4 & Hwr & Hrun) | (x & Hwr & _)];
    apply on_fs_item in Hwr; [|rewrite Hwr, Hmk, Himg; apply grows_refl].
  apply pbind_inv in Hrun as [(item' & w5 & Hup & Hrun) | (x & Hup & _)];
    apply lift_inv in Hup as [Hup ->];
    [|rewrite Hwr, Hmk, Himg; apply grows_refl].
  rewrite pbind_set_item in Hrun. apply on_fs_item in Hrun. rewrite Hrun.
  simpl. apply update_generation_grows with (cfg_model cfg) image_path.
  symmetry. exact Hup.
Qed.

Lemma evaluate_entry_grows (cfg : config) (image_path gen : string) (i : nat)
    (w w' : world) (r : result unit) :
  evaluate_entry cfg image_path gen i w = (r, w') ->
  grows (w_item w) (w_item w').
Proof.
  unfold evaluate_entry. rewrite pbind_get_item.
  destruct (evaluation (w_item w) !! i) as [[e|v]|] eqn:Hi.
  - destruct (cfg_resume cfg && has_judgment e gen (cfg_model cfg)).
    { intros Hr. apply ret_inv in Hr as [_ ->]. apply grows_refl. }
    intros Hrun.
    apply pbind_inv in Hrun as [(j & w1 & Hj & Hrun) | (x & Hj & _)];
      apply judge_entry_item in Hj; [|rewrite Hj; apply grows_refl].
    rewrite pbind_set_item in Hrun. apply on_fs_item in Hrun. rewrite Hrun.
    simpl. apply append_judgment_grows. exact Hi.
  - intros Hr. apply throw_inv in Hr as [_ ->]. apply grows_refl.
  - intros Hr. apply ret_inv in Hr as [_ ->]. apply grows_refl.
Qed.

Lemma evaluate_from_grows (cfg : config) (image_path gen : string) (n i : nat)
    (w w' : world) (r : result unit) :
  evaluate_from cfg image_path gen n i w = (r, w') ->
  grows (w_item w) (w_item w').
Proof.
  revert i w. induction n as [|n IH]; intros i w; simpl.
  - intros Hr. apply ret_inv in Hr as [_ ->]. apply grows_refl.
  - intros Hrun.
    apply pbind_inv in Hrun as [([] & w1 & Hone & Hrun) | (x & Hone & _)];
      apply evaluate_entry_grows in Hone; [|assumption].
    eapply grows_trans; [exact Hone | eapply IH; exact Hrun].
Qed.

Lemma EvalWorkflow_run_grows (cfg : config) (gen : string)
    (image_path : option string) (w w' : world) (r : result unit) :
  EvalWorkflow_run cfg gen image_path w = (r, w') ->
  grows (w_item w) (w_item w').
Proof.
  unfold EvalWorkflow_run. rewrite pbind_get_item. intros Hrun.
  apply pbind_inv in Hrun as [(p & w1 & Hp & Hrun) | (x & Hp & _)].
  2: { destruct image_path; [apply ret_inv in Hp as [[=] _]|].
       apply lift_inv in Hp as [_ ->]. apply grows_refl. }
  assert (w1 = w) as ->.
  { destruct image_path; [apply ret_inv in Hp | apply lift_inv in Hp]; tauto. }
  apply pbind_inv in Hrun as [(done & w2 & Hdone & Hrun) | (x & Hdone & _)].
  2: { destruct (cfg_resume cfg); [apply lift_inv in Hdone as [_ ->]
                                 | apply ret_inv in Hdone as [[=] _]].
       apply grows_refl. }
  assert (w2 = w) as ->.
  { destruct (cfg_resume cfg); [apply lift_inv in Hdone | apply ret_inv in Hdone];
      tauto. }
  destruct done.
  { apply ret_inv in Hrun as [_ ->]. apply grows_refl. }
  unfold _evaluate_all in Hrun. rewrite pbind_get_item in Hrun.
  destruct (evaluation (w_item w)) eqn:Hev.
  - apply throw_inv in Hrun as [_ ->]. apply grows_refl.
  - eapply evaluate_from_grows. exact Hrun.
Qed.

(** C9. Every operation that changes a record in memory only grows it:
    [update_generation] keeps every key of the generation map, [add_judgment]
    puts one judgment after the entry's former ones, and a run of the
    generation or of the evaluation driver, whether it returns or raises,
    leaves a record with all the former generation keys and the same
    evaluation entries in the same order, each with its former judgments
    followed by the appended ones. *)
Theorem C9_record_only_grows :
  (forall item model image_path item',
     update_generation item model image_path = Ok item' -> grows item item')
  /\ (forall e gen eval ana ans,
       entry_extends e (add_judgment e gen eval ana ans))
  /\ (forall cfg w r w',
       GenWorkflow_run cfg w = (r, w') -> grows (w_item w) (w_item w'))
  /\ (forall cfg gen image_path w r w',
       EvalWorkflow_run cfg gen image_path w = (r, w') ->
       grows (w_item w) (w_item w')).
Proof.
  split; [|split; [|split]].
  - apply update_generation_grows.
  - intros e gen eval ana ans. unfold entry_extends, add_judgment. simpl.
    repeat split. eauto.
  - intros cfg w r w'. apply GenWorkflow_run_grows.
  - intros cfg gen image_path w r w'. apply EvalWorkflow_run_grows.
Qed.

End Growth.

(** ** Image file names *)

Lemma split_char_has_char (c : ascii) (s : string) :
  has_char c s = true -> 2 <= length (split_char c s).
Proof.
  induction s as [|a s IH]; simpl; [discriminate|].
  destruct (Ascii.eqb a c); simpl.
  - intros _. destruct s; simpl; [lia|]. destruct (Ascii.eqb _ c); [simpl; lia|].
    destruct (split_char c s); simpl; lia.
  - intros Hs. specialize (IH Hs).
    destruct (split_char c s); simpl in *; lia.
Qed.

Lemma count_char_replace (c : ascii) (s : string) :
  Ascii.eqb c "/" = false ->
  count_char "/" (replace_char c "_" s) = count_char "/" s.
Proof.
  intros Hc. induction s as [|a s IH]; [reflexivity|]. simpl.
  destruct (Ascii.eqb a c) eqn:Hac.
  - apply Ascii.eqb_eq in Hac. subst a. rewrite Hc. simpl. exact IH.
  - simpl. rewrite IH. reflexivity.
Qed.

Lemma has_char_count (c : ascii) (s : string) :
  has_char c s = negb (Nat.eqb (count_char c s) 0).
Proof.
  induction s as [|a s IH]; [reflexivity|]. simpl.
  destruct (Ascii.eqb a c); simpl; [reflexivity | exact IH].
Qed.

Lemma split_char_no_sep (c : ascii) (s : string) :
  count_char c s = 0 -> split_char c s = [s].
Proof.
  induction s as [|a s IH]; [reflexivity|]. simpl.
  destruct (Ascii.eqb a c); simpl; [discriminate|].
  intros Hs. rewrite (IH Hs). reflexivity.
Qed.

Lemma split_char_one_sep (c : ascii) (s : string) :
  count_char c s = 1 -> exists a b, split_char c s = [a; b].
Proof.
  induction s as [|x s IH]; [discriminate|]. simpl.
  destruct (Ascii.eqb x c); simpl.
  - intros [= Hs]. rewrite (split_char_no_sep c s Hs). eauto.
  - intros Hs. destruct (IH Hs) as (a & b & ->). eauto.
Qed.

(** On a name with at most one slash (a plain name or [provider/model])
    the code computes the normalisation the specification describes. *)
Lemma normalize_for_filename_one_slash (model_name : string) :
  count_char "/" model_name <= 1 ->
  normalize_for_filename model_name = normalized_as_specified model_name.
Proof.
  intros Hcount. unfold normalize_for_filename, normalized_as_specified.
  set (replaced := replace_char "." "_" (replace_char "-" "_" model_name)).
  assert (Hrep : count_char "/" replaced = count_char "/" model_name).
  { unfold replaced. rewrite !count_char_replace; reflexivity. }
  rewrite has_char_count, Hrep.
  destruct (count_char "/" model_name) as [|[|n]] eqn:Hn; [| |lia]; simpl.
  - rewrite (split_char_no_sep _ _ Hrep). reflexivity.
  - destruct (split_char_one_sep _ _ Hrep) as (a & b & ->). reflexivity.
Qed.

(** The file name of the specification's example. *)
Lemma build_image_filename_example :
  build_image_filename "42" "gemini-2.0" ".png" = "42_gemini_2_0.png"
  /\ resolve_image_path (H := Sample.posix) "42" "gemini-2.0" "outputs"
     = "outputs/42/42_gemini_2_0.png".
Proof. split; reflexivity. Qed.

(** C5. On the model name [provider/org/model-1.0] the code keeps the
    middle segment [org], where the specification's normalisation keeps what
    follows the last slash, [model_1_0]: the image of item [42] is named
    [42_org.png] and not [42_model_1_0.png]. *)
Theorem C5_normalize_keeps_second_segment :
  normalize_for_filename "provider/org/model-1.0" = "org"
  /\ normalized_as_specified "provider/org/model-1.0" = "model_1_0"
  /\ build_image_filename "42" "provider/org/model-1.0" ".png" = "42_org.png".
Proof. repeat split; reflexivity. Qed.

Lemma dict_lookup_set (k : string) (v : value) (d : list (string * value)) :
  dict_lookup k (dict_set k v d) = Some v.
Proof.
  induction d as [|[k' v'] d IH]; simpl.
  - rewrite String.eqb_refl. reflexivity.
  - destruct (String.eqb k k') eqn:Hk; simpl; rewrite Hk; [reflexivity | exact IH].
Qed.

Lemma on_fs_inv {A} (m : prog filesystem A) (w w' : world) (r : result A) :
  on_fs m w = (r, w') ->
  m (w_fs w) = (r, w_fs w') /\ w_item w' = w_item w /\ w_calls w' = w_calls w.
Proof.
  unfold on_fs. destruct (m (w_fs w)) as [r0 fs']. intros [= <- <-]. auto.
Qed.

Lemma mkdir_keeps (d p : string) (fs fs' : filesystem) :
  mkdir d fs = (Ok tt, fs') -> exists_ fs p = Ok true -> fs' !! p = fs !! p.
Proof.
  unfold mkdir, exists_. destruct (fs !! d) as [[| | |e]|] eqn:Hd; intros [= <-];
    try reflexivity.
  intros Hp. destruct (decide (d = p)) as [->|Hne].
  - rewrite Hd in Hp. discriminate.
  - apply lookup_insert_ne. exact Hne.
Qed.

Lemma exists_file (fs : filesystem) (p : string) (n : fnode) :
  fs !! p = Some n -> is_file n -> exists_ fs p = Ok true.
Proof.
  unfold exists_. intros -> Hn. destruct n; simpl in Hn; [destruct Hn | | | destruct Hn];
    reflexivity.
Qed.

Lemma write_file_exists (q : string) (n : fnode) (p : string) (fs fs' : filesystem) :
  is_file n ->
  write_file q n fs = (Ok tt, fs') -> exists_ fs p = Ok true -> exists_ fs' p = Ok true.
Proof.
  unfold write_file. intros Hn Hw Hp.
  assert (fs' = <[q := n]> fs) as ->
    by (destruct (fs !! q) as [[| | |e]|]; congruence).
  destruct (decide (q = p)) as [->|Hne].
  - apply exists_file with n; [apply lookup_insert_eq | exact Hn].
  - unfold exists_ in *. rewrite lookup_insert_ne by exact Hne. exact Hp.
Qed.

Section GenerationDriver.
Context `{PathLib} `{Capabilities}.

Lemma save_item_keeps_existing (output_dir : string) (item : VISItem) (p : string)
    (fs fs' : filesystem) :
  ItemStateManager_save_item output_dir item fs = (Ok tt, fs') ->
  exists_ fs p = Ok true -> exists_ fs' p = Ok true.
Proof.
  unfold ItemStateManager_save_item, VISItem_save_item.
  destruct (item_id item) as [| | |id| |]; try discriminate.
  intros Hsave Hp.
  apply pbind_Ok in Hsave as ([] & fs1 & Hmk & Hsave).
  apply pbind_Ok in Hsave as (save_path & fs2 & Hpath & Hsave).
  apply lift_inv in Hpath as [_ ->].
  apply pbind_Ok in Hsave as ([] & fs3 & Hmk' & Hsave).
  assert (Hp1 : exists_ fs1 p = Ok true).
  { unfold exists_. rewrite (mkdir_keeps _ _ _ _ Hmk Hp). exact Hp. }
  assert (Hp3 : exists_ fs3 p = Ok true).
  { unfold makedirs in Hmk'. destruct (String.eqb _ ""); [discriminate|].
    unfold exists_. rewrite (mkdir_keeps _ _ _ _ Hmk' Hp1). exact Hp1. }
  exact (write_file_exists _ (FJson _) _ _ _ I Hsave Hp3).
Qed.

(** A run of the generation driver that generates and returns has made
    exactly one client call, has recorded under the model name the path
    [output_dir/id/id_normalized.png], and leaves a file at that path. *)
Lemma GenWorkflow_run_records_image_path (cfg : config) (w w' : world) (X : string) :
  item_id (w_item w) = VStr X ->
  already_generated cfg (w_item w) (w_fs w) = Ok false ->
  GenWorkflow_run cfg w = (Ok tt, w') ->
  let image_path := resolve_image_path X (cfg_model cfg) (cfg_output_dir cfg) in
  getitem (generation (w_item w')) (cfg_model cfg) = Ok (VStr image_path)
  /\ exists_ (w_fs w') image_path = Ok true
  /\ w_calls w'
     = w_calls w ++ [ImageGeneration (cfg_model cfg) (t2i_prompt (w_item w))].
Proof.
  intros Hid Hnot. unfold GenWorkflow_run.
  rewrite pbind_get_item, pbind_get_fs, Hnot, pbind_lift_Ok.
  unfold resolve_image_path_of. rewrite Hid. intros Hrun.
  apply pbind_Ok in Hrun as (image & w1 & Himg & Hrun).
  unfold text2image in Himg. rewrite pbind_get_item in Himg.
  destruct (negb (truthy (t2i_prompt (w_item w)))); [discriminate|].
  unfold client_call in Himg. injection Himg as Himg <-.
  rewrite pbind_lift_Ok in Hrun.
  apply pbind_Ok in Hrun as ([] & w2 & Hmk & Hrun).
  apply on_fs_inv in Hmk as (Hmk & Hi2 & Hc2).
  apply pbind_Ok in Hrun as ([] & w3 & Hwr & Hrun).
  apply on_fs_inv in Hwr as (Hwr & Hi3 & Hc3).
  apply pbind_Ok in Hrun as (item' & w4 & Hup & Hrun).
  apply lift_inv in Hup as [Hup ->].
  rewrite pbind_set_item in Hrun.
  apply on_fs_inv in Hrun as (Hsave & Hi5 & Hc5). simpl in Hsave, Hi5, Hc5.
  unfold update_generation in Hup.
  destruct (generation (w_item w)) as [| | | | |g]; try discriminate.
  injection Hup as ->. rewrite Hi5, Hc5, Hc3, Hc2. simpl.
  rewrite dict_lookup_set. repeat split.
  eapply save_item_keeps_existing; [exact Hsave|].
  unfold exists_. rewrite (write_file_Ok _ _ _ _ Hwr). reflexivity.
Qed.

End GenerationDriver.

(** ** The properties on concrete inputs *)

Import Sample.

Lemma C1_load_item_resume_witness :
  VISItem_from_dict resumed42 "datasets/42.json" = Ok item42
  /\ item_id item42 = VStr "42"
  /\ load_item "outputs" resumed42 "datasets/42.json" true
     = VISItem_of_json (record42 "gemini-2.0" "outputs/42/42_gemini_2_0.png")
  /\ load_item "outputs" resumed42 "datasets/42.json" false = Ok item42.
Proof.
  assert (Hseed : VISItem_from_dict resumed42 "datasets/42.json" = Ok item42)
    by reflexivity.
  assert (Hid : item_id item42 = VStr "42") by reflexivity.
  destruct (C1_load_item_resume "outputs" resumed42 "datasets/42.json"
              item42 "42" Hseed Hid) as (Hfresh & _ & _ & Hdoc & _).
  split; [exact Hseed|]. split; [exact Hid|].
  split; [exact (Hdoc _ eq_refl) | exact Hfresh].
Defined.

Lemma C2_check_evaluation_complete_witness :
  check_evaluation_complete judged_item "m1" "m2" = Ok true
  /\ check_evaluation_complete item42 "m1" "m2" = Ok false.
Proof.
  destruct (C2_check_evaluation_complete judged_item "m1" "m2") as ([_ Hyes] & _).
  destruct (C2_check_evaluation_complete item42 "m1" "m2") as (_ & Hno & _).
  split; [|apply Hno; reflexivity].
  apply Hyes. split; [discriminate|].
  repeat constructor. eexists _, _. split; [reflexivity|].
  split; [apply list_elem_of_here | split; reflexivity].
Defined.

(** C3 as the specification words it fails on the empty model name: the
    record holds a generation entry under the key [""] whose file exists, and
    the check answers false. *)
Lemma C3_empty_model_name_counterexample : ~ generate_complete_as_specified.
Proof.
  intros Hspec.
  pose proof (Hspec posix "outputs" (outputs42 "" "outputs/42/42_.png") "42" ""
                _ _ eq_refl eq_refl) as [_ Hback].
  assert (Hdone : is_stage_completed "outputs"
                    (outputs42 "" "outputs/42/42_.png") "42" "generate"
                    (Some "") None = Ok true).
  { apply Hback. exists "outputs/42/42_.png". split; reflexivity. }
  vm_compute in Hdone. discriminate Hdone.
Qed.

Lemma C3_generate_stage_complete_witness :
  outputs42 "gemini-2.0" "outputs/42/42_gemini_2_0.png"
    !! item_json_path "outputs" "42"
  = Some (FJson (record42 "gemini-2.0" "outputs/42/42_gemini_2_0.png"))
  /\ is_stage_completed "outputs"
       (outputs42 "gemini-2.0" "outputs/42/42_gemini_2_0.png")
       "42" "generate" (Some "gemini-2.0") None = Ok true
  /\ is_stage_completed "outputs"
       (delete "outputs/42/42_gemini_2_0.png"
          (outputs42 "gemini-2.0" "outputs/42/42_gemini_2_0.png"))
       "42" "generate" (Some "gemini-2.0") None = Ok false
  /\ is_stage_completed "outputs"
       (outputs42 "gemini-2.0" "outputs/42/42_gemini_2_0.png")
       "42" "generate" None None = Ok false
  /\ is_stage_completed "outputs"
       (outputs42 "gemini-2.0" "outputs/42/42_gemini_2_0.png")
       "42" "generate" (Some "") None = Ok false.
Proof.
  assert (Hfile :
    outputs42 "gemini-2.0" "outputs/42/42_gemini_2_0.png"
      !! item_json_path "outputs" "42"
    = Some (FJson (record42 "gemini-2.0" "outputs/42/42_gemini_2_0.png")))
    by reflexivity.
  destruct (C3_generate_stage_complete "outputs" _ "42" "gemini-2.0" None _ Hfile)
    as ([_ Hdone] & _ & Hmissing & Hempty & _ & Hdeleted & _).
  split; [exact Hfile | split; [|split; [|split]]].
  - apply Hdone. split; [discriminate|].
    eexists _, _, "outputs/42/42_gemini_2_0.png".
    repeat split; try reflexivity. discriminate.
  - apply (Hdeleted _ _ "outputs/42/42_gemini_2_0.png" eq_refl eq_refl eq_refl).
  - exact Hmissing.
  - exact Hempty.
Defined.

Lemma C4_save_load_roundtrip_witness :
  VISItem_from_dict resumed42 "datasets/42.json" = Ok item42
  /\ exists fs',
       VISItem_save_item item42 "outputs/42/42.json" resumed42 = (Ok tt, fs')
       /\ exists save_path,
            resolve_save_path item42 "outputs/42/42.json" = Ok save_path
            /\ VISItem_from_dict fs' save_path = Ok item42.
Proof.
  assert (Hload : VISItem_from_dict resumed42 "datasets/42.json" = Ok item42)
    by reflexivity.
  destruct (C4_save_load_roundtrip resumed42 "datasets/42.json" item42 Hload)
    as [Hsaved _].
  split; [exact Hload|].
  exists (snd (VISItem_save_item item42 "outputs/42/42.json" resumed42)).
  assert (Hsave : VISItem_save_item item42 "outputs/42/42.json" resumed42
                  = (Ok tt, snd (VISItem_save_item item42 "outputs/42/42.json"
                                   resumed42)))
    by (vm_compute; reflexivity).
  split; [exact Hsave | exact (Hsaved _ _ Hsave)].
Defined.

Lemma C6_from_dict_only_id_required_witness :
  resumed42 !! "datasets/42.json" = Some (FJson seed42)
  /\ (exists item, VISItem_from_dict resumed42 "datasets/42.json" = Ok item)
  /\ VISItem_from_dict (<["noid.json" := FJson (VDict [("chart_type", VStr "bar")])]> ∅)
       "noid.json" = Raise (KeyError "id").
Proof.
  assert (Hfile : resumed42 !! "datasets/42.json" = Some (FJson seed42))
    by reflexivity.
  destruct (C6_from_dict_only_id_required resumed42 "datasets/42.json" _ Hfile)
    as [_ Hid].
  destruct (Hid (VStr "42") eq_refl) as [Hok _].
  split; [exact Hfile | split; [exact (Hok eq_refl)|]].
  refine (proj1 (C6_from_dict_only_id_required _ "noid.json"
                   [("chart_type", VStr "bar")] _) eq_refl).
  reflexivity.
Defined.

Lemma C7_judgments_parsed_with_defaults_witness :
  dict_get "judgments" (VList []) sparse_entry
  = VList [VDict [("eval_model", VStr "m2")]; VNum 3]
  /\ exists e,
       EvalEntry_from_dict sparse_entry = Ok e
       /\ judgments e = [ {| eval_model := VStr "m2"; gen_model := VStr "";
                             analysis := VStr ""; answer := VStr "" |} ].
Proof.
  assert (Hjs : dict_get "judgments" (VList []) sparse_entry
                = VList [VDict [("eval_model", VStr "m2")]; VNum 3])
    by reflexivity.
  destruct (C7_judgments_parsed_with_defaults sparse_entry _ Hjs)
    as (e & Hparse & Hjudgments & _).
  split; [exact Hjs|]. exists e. split; [exact Hparse | exact Hjudgments].
Defined.

Lemma C8_evaluate_without_questions_raises_witness :
  evaluation (w_item (fresh_world item42)) = []
  /\ EvalWorkflow_run (run_config "m2" true) "m1" None (fresh_world item42)
     = (Raise (ValueError (no_questions_found (VStr "42"))), fresh_world item42).
Proof.
  split; [reflexivity|].
  apply (C8_evaluate_without_questions_raises (run_config "m2" true) "m1" None
           (fresh_world item42) eq_refl).
  right. exists "42". reflexivity.
Defined.

Lemma C9_record_only_grows_witness :
  grows question_item
    (w_item (snd (EvalWorkflow_run (run_config "m2" false) "m1" None
                    (fresh_world question_item))))
  /\ grows item42
       (w_item (snd (GenWorkflow_run (run_config "gemini-2.0" true)
                       (fresh_world item42)))).
Proof.
  destruct (C9_record_only_grows (H := posix) (H0 := canned))
    as (_ & _ & Hgen & Heval).
  split.
  - apply (Heval (run_config "m2" false) "m1" None (fresh_world question_item)
             (fst (EvalWorkflow_run (run_config "m2" false) "m1" None
                     (fresh_world question_item)))).
    apply surjective_pairing.
  - apply (Hgen (run_config "gemini-2.0" true) (fresh_world item42)
             (fst (GenWorkflow_run (run_config "gemini-2.0" true)
                     (fresh_world item42)))).
    apply surjective_pairing.
Defined.



(** ** The example scenarios of the specification *)

(** A first generation run for the seed record [42] with model
    [gemini-2.0] makes one client call and records the image path; a second
    run under resume makes no further call and changes nothing. *)
Example generation_scenario :
  let w0 := fresh_world item42 in
  let cfg := run_config "gemini-2.0" true in
  let w1 := snd (GenWorkflow_run cfg w0) in
  fst (GenWorkflow_run cfg w0) = Ok tt
  /\ generation (w_item w1)
     = VDict [("gemini-2.0", VStr "outputs/42/42_gemini_2_0.png")]
  /\ w_fs w1 !! "outputs/42/42_gemini_2_0.png" = Some (FBlob "png-bytes")
  /\ VISItem_from_dict (w_fs w1) "outputs/42/42.json" = Ok (w_item w1)
  /\ length (w_calls w1) = 1
  /\ GenWorkflow_run cfg w1 = (Ok tt, w1).
Proof. vm_compute. repeat split; reflexivity. Qed.

(** An evaluation run on an item with one question appends exactly one
    judgment with the two model names; a second run under resume appends
    none and makes no call. *)
Example evaluation_scenario :
  let w0 := fresh_world question_item in
  let cfg := run_config "m2" true in
  let w1 := snd (EvalWorkflow_run cfg "m1" None w0) in
  fst (EvalWorkflow_run cfg "m1" None w0) = Ok tt
  /\ w_item w1 = judged_item
  /\ length (w_calls w1) = 1
  /\ EvalWorkflow_run cfg "m1" None w1 = (Ok tt, w1).
Proof. vm_compute. repeat split; reflexivity. Qed.

(** * Further properties *)

(** ** Judgments and generation entries *)

(** X2. After [add_judgment] the entry has a judgment for exactly the
    pairs of model names it had one for before and for the pair just added,
    compared as exact strings. *)
Theorem has_judgment_add_judgment (e : EvalEntry) (gen eval ana ans gen' eval' : string) :
  has_judgment (add_judgment e gen eval ana ans) gen' eval'
  = has_judgment e gen' eval' || (String.eqb gen gen' && String.eqb eval eval').
Proof.
  unfold has_judgment, add_judgment. simpl.
  rewrite existsb_app. simpl. rewrite orb_false_r. reflexivity.
Qed.

Lemma dict_lookup_set_ne (k k' : string) (v : value) (d : list (string * value)) :
  k <> k' -> dict_lookup k' (dict_set k v d) = dict_lookup k' d.
Proof.
  intros Hne. induction d as [|[k0 v0] d IH]; simpl.
  - apply String.eqb_neq in Hne. rewrite String.eqb_sym, Hne. reflexivity.
  - destruct (String.eqb k k0) eqn:Hk; simpl.
    + apply String.eqb_eq in Hk. subst k0.
      apply String.eqb_neq in Hne. rewrite String.eqb_sym, Hne. reflexivity.
    + rewrite IH. reflexivity.
Qed.

Lemma dict_set_NoDup (k : string) (v : value) (d : list (string * value)) :
  NoDup (dict_keys d) -> NoDup (dict_keys (dict_set k v d)).
Proof.
  unfold dict_keys. induction d as [|[k0 v0] d IH]; simpl; intros Hd.
  - repeat constructor. intros Hin. inversion Hin.
  - apply NoDup_cons in Hd as [Hk0 Hd].
    destruct (String.eqb k k0) eqn:Hk; simpl.
    + apply NoDup_cons. auto.
    + apply NoDup_cons. split; [|auto].
      intros Hin. apply Hk0. clear IH Hk0 Hd.
      induction d as [|[k1 v1] d IH]; simpl in *.
      * apply list_elem_of_singleton in Hin. subst k0.
        rewrite String.eqb_refl in Hk. discriminate.
      * destruct (String.eqb k k1); simpl in *; [exact Hin|].
        apply elem_of_cons in Hin as [->|Hin]; [left | right; auto].
Qed.

(** X1. After [update_generation(m, p)] the generation map holds [p] under
    [m] (the last write wins), [check_generation_exists(m)] is true, the
    entries of all other models are as before, and distinct keys stay
    distinct. *)
Theorem update_generation_then_lookup (item item' : VISItem) (m p : string) :
  update_generation item m p = Ok item' ->
  getitem (generation item') m = Ok (VStr p)
  /\ check_generation_exists item' m = Ok true
  /\ (forall m', m <> m' ->
        getitem (generation item') m' = getitem (generation item) m'
        /\ check_generation_exists item' m' = check_generation_exists item m')
  /\ (forall g g', generation item = VDict g -> generation item' = VDict g' ->
        NoDup (dict_keys g) -> NoDup (dict_keys g')).
Proof.
  unfold update_generation.
  destruct (generation item) as [| | | | |g] eqn:Hg; try discriminate.
  intros [= <-]. unfold check_generation_exists. simpl.
  unfold dict_mem. rewrite dict_lookup_set. simpl.
  split; [reflexivity|]. split; [reflexivity|]. split.
  - intros m' Hne. rewrite Hg. simpl. unfold dict_mem.
    rewrite (dict_lookup_set_ne _ _ _ _ Hne). split; reflexivity.
  - intros g0 g' [= <-] [= <-]. apply dict_set_NoDup.
Qed.

(** ** The evaluation driver, entry by entry *)

Lemma has_judgment_extends (e e' : EvalEntry) (gen eval : string) :
  entry_extends e e' -> has_judgment e gen eval = true ->
  has_judgment e' gen eval = true.
Proof.
  intros (_ & _ & _ & _ & extra & Hj). unfold has_judgment. rewrite Hj.
  rewrite existsb_app. intros ->. reflexivity.
Qed.

Lemma all_judged_extends (l l' : list eval_elem) (gen eval : string) :
  Forall2 elem_extends l l' -> all_judged l gen eval = Ok true ->
  all_judged l' gen eval = Ok true.
Proof.
  induction 1 as [|x y l l' Hxy _ IH]; [auto|]. simpl.
  destruct x as [e|v]; [|discriminate]. destruct y as [e'|v']; [|destruct Hxy].
  destruct (has_judgment e gen eval) eqn:He; [|discriminate].
  rewrite (has_judgment_extends e e' gen eval Hxy He). exact IH.
Qed.

Lemma completion_grows (item item' : VISItem) (gen eval : string) :
  grows item item' ->
  check_evaluation_complete item gen eval = Ok true ->
  check_evaluation_complete item' gen eval = Ok true.
Proof.
  intros [_ Hev]. unfold check_evaluation_complete.
  destruct Hev as [|x y l l' Hxy Hrest]; [discriminate|].
  apply (all_judged_extends (x :: l) (y :: l')). constructor; assumption.
Qed.

Lemma set_evaluation_same (item : VISItem) :
  set_evaluation (evaluation item) item = item.
Proof. destruct item. reflexivity. Qed.

Lemma state_save_written `{PathLib} (output_dir : string) (item : VISItem)
    (fs fs' : filesystem) :
  ItemStateManager_save_item output_dir item fs = (Ok tt, fs') ->
  exists X save_path,
    item_id item = VStr X /\
    resolve_save_path item (item_json_path output_dir X) = Ok save_path /\
    fs' !! save_path = Some (FJson (VISItem_asdict item)).
Proof.
  unfold ItemStateManager_save_item.
  destruct (item_id item) as [| | |X| |]; try discriminate.
  intros Hsave. apply pbind_Ok in Hsave as ([] & fs1 & _ & Hsave).
  apply save_item_written in Hsave as (save_path & Hpath & Hfile).
  exists X, save_path. auto.
Qed.

Section EvaluationDriver.
Context `{PathLib} `{Capabilities}.

(** One step of the loop that returns: a skip leaves the world alone; a
    judgment is one client call, one append and one save. *)
Lemma evaluate_entry_Ok (cfg : config) (image_path gen : string) (i : nat)
    (w w' : world) (x : eval_elem) :
  evaluate_entry cfg image_path gen i w = (Ok tt, w') ->
  evaluation (w_item w) !! i = Some x ->
  exists e, x = Entry e /\
    ((cfg_resume cfg && has_judgment e gen (cfg_model cfg) = true /\ w' = w)
     \/ (cfg_resume cfg && has_judgment e gen (cfg_model cfg) = false /\
         exists j,
           gen_model j = VStr gen /\ eval_model j = VStr (cfg_model cfg) /\
           w_item w'
           = set_evaluation
               (<[i := Entry (set_judgments (judgments e ++ [j]) e)]>
                  (evaluation (w_item w)))
               (w_item w) /\
           w_calls w'
           = w_calls w ++ [ImageUnderstanding (cfg_model cfg) image_path
                             (build_factual_qa_judgment_prompt (question e))] /\
           persisted (cfg_output_dir cfg) w')).
Proof.
  unfold evaluate_entry. rewrite pbind_get_item. intros Hrun Hx. rewrite Hx in Hrun.
  destruct x as [e|v]; [|discriminate]. exists e. split; [reflexivity|].
  destruct (cfg_resume cfg && has_judgment e gen (cfg_model cfg)).
  { left. apply ret_inv in Hrun as [_ ->]. auto. }
  right. split; [reflexivity|].
  apply pbind_Ok in Hrun as (j & w1 & Hj & Hrun).
  unfold judge_entry in Hj.
  destruct (negb (truthy (question e))); [discriminate|].
  apply pbind_Ok in Hj as (resp & w2 & Hcall & Hj).
  unfold client_call in Hcall. injection Hcall as _ <-.
  apply pbind_Ok in Hj as (ana & w3 & Hana & Hj). apply lift_inv in Hana as [_ ->].
  apply pbind_Ok in Hj as (ans & w4 & Hans & Hj). apply lift_inv in Hans as [_ ->].
  apply ret_inv in Hj as [[= ->] ->].
  rewrite pbind_set_item in Hrun. simpl in Hrun.
  apply on_fs_inv in Hrun as (Hsave & Hitem & Hcalls). simpl in Hsave, Hitem, Hcalls.
  exists {| eval_model := VStr (cfg_model cfg); gen_model := VStr gen;
            analysis := ana; answer := ans |}.
  split; [reflexivity|]. split; [reflexivity|].
  split; [exact Hitem|]. split; [exact Hcalls|].
  apply state_save_written in Hsave as (X & save_path & Hid & Hpath & Hfile).
  exists X, save_path. rewrite Hitem. auto.
Qed.

Lemma evaluate_from_Ok (cfg : config) (image_path gen : string) (n i : nat)
    (w w' : world) :
  evaluate_from cfg image_path gen n i w = (Ok tt, w') ->
  i + n = length (evaluation (w_item w)) ->
  w_item w' = set_evaluation (evaluation (w_item w')) (w_item w)
  /\ length (evaluation (w_item w')) = length (evaluation (w_item w))
  /\ (forall k, k < i -> evaluation (w_item w') !! k = evaluation (w_item w) !! k)
  /\ (forall k x, i <= k -> evaluation (w_item w) !! k = Some x ->
        exists y, evaluation (w_item w') !! k = Some y /\
                  judged_once (cfg_resume cfg) gen (cfg_model cfg) x y)
  /\ w_calls w'
     = w_calls w ++ judgment_calls (cfg_resume cfg) gen (cfg_model cfg) image_path
                      (drop i (evaluation (w_item w)))
  /\ (judgment_calls (cfg_resume cfg) gen (cfg_model cfg) image_path
        (drop i (evaluation (w_item w))) = [] -> w' = w)
  /\ (judgment_calls (cfg_resume cfg) gen (cfg_model cfg) image_path
        (drop i (evaluation (w_item w))) <> [] ->
      persisted (cfg_output_dir cfg) w').
Proof.
  revert i w. induction n as [|n IH]; intros i w Hrun Hlen.
  - apply ret_inv in Hrun as [_ ->].
    rewrite drop_ge by lia. simpl. rewrite app_nil_r, set_evaluation_same.
    repeat split; try congruence.
    intros k x Hk Hx. apply lookup_lt_Some in Hx. lia.
  - simpl in Hrun. apply pbind_Ok in Hrun as ([] & w1 & Hone & Hrun).
    destruct (lookup_lt_is_Some_2 (evaluation (w_item w)) i) as [x Hx]; [lia|].
    destruct (evaluate_entry_Ok _ _ _ _ _ _ _ Hone Hx) as (e & -> & Hstep).
    rewrite (drop_S _ _ _ Hx). unfold judgment_calls at 1 2 3. cbn [omap list_omap].
    fold (judgment_calls (cfg_resume cfg) gen (cfg_model cfg) image_path
            (drop (S i) (evaluation (w_item w)))).
    destruct Hstep as [[Hskip ->] | (Hdo & j & Hg & He & Hitem & Hcalls & Hsaved)].
    + rewrite Hskip.
      destruct (IH (S i) w Hrun ltac:(lia)) as (Hi & Hl & Hlt & Hge & Hc & Hnone & Hsome).
      split; [exact Hi|]. split; [exact Hl|]. split; [intros k Hk; apply Hlt; lia|].
      split; [|auto].
      intros k x Hk Hkx. destruct (decide (k = i)) as [->|Hne].
      * rewrite Hx in Hkx. injection Hkx as <-.
        exists (Entry e). split; [rewrite Hlt by lia; exact Hx|].
        exists e. split; [reflexivity|]. rewrite Hskip. reflexivity.
      * apply Hge; [lia | exact Hkx].
    + rewrite Hdo.
      assert (Hlen1 : length (evaluation (w_item w1)) = length (evaluation (w_item w))).
      { rewrite Hitem. simpl. apply length_insert. }
      destruct (IH (S i) w1 Hrun ltac:(lia)) as (Hi & Hl & Hlt & Hge & Hc & Hnone & Hsome).
      assert (Hdrop : drop (S i) (evaluation (w_item w1))
                      = drop (S i) (evaluation (w_item w))).
      { rewrite Hitem. simpl. apply drop_insert_lt. lia. }
      rewrite Hdrop in Hc, Hnone, Hsome.
      split; [rewrite Hi, Hitem; reflexivity|].
      split; [congruence|].
      split.
      { intros k Hk. rewrite Hlt by lia. rewrite Hitem. simpl.
        apply list_lookup_insert_ne. lia. }
      split.
      { intros k x Hk Hkx. destruct (decide (k = i)) as [->|Hne].
        - rewrite Hx in Hkx. injection Hkx as <-.
          eexists. split.
          + rewrite Hlt by lia. rewrite Hitem. simpl.
            apply list_lookup_insert_eq. eapply lookup_lt_Some. exact Hx.
          + exists e. split; [reflexivity|]. rewrite Hdo. eauto.
        - apply Hge; [lia|]. rewrite Hitem. simpl.
          rewrite list_lookup_insert_ne by lia. exact Hkx. }
      split.
      { rewrite Hc, Hcalls, <- app_assoc. reflexivity. }
      split; [discriminate|].
      intros _.
      destruct (judgment_calls (cfg_resume cfg) gen (cfg_model cfg) image_path
                  (drop (S i) (evaluation (w_item w)))) eqn:Hrest.
      * rewrite (Hnone eq_refl). exact Hsaved.
      * apply Hsome. discriminate.
Qed.

End EvaluationDriver.

Lemma all_judged_skipped `{Capabilities} (l : list eval_elem)
    (gen eval image_path : string) :
  all_judged l gen eval = Ok true ->
  Forall2 (judged_once true gen eval) l l
  /\ judgment_calls true gen eval image_path l = [].
Proof.
  induction l as [|x l IH]; simpl; [intros _; split; [constructor | reflexivity]|].
  destruct x as [e|v]; [|discriminate].
  destruct (has_judgment e gen eval) eqn:He; [|discriminate].
  intros Hall. destruct (IH Hall) as [Hl Hc]. split.
  - constructor; [|exact Hl]. exists e. split; [reflexivity|].
    simpl. rewrite ?He. reflexivity.
  - unfold judgment_calls in *. cbn [omap list_omap]. simpl. rewrite ?He. exact Hc.
Qed.

Lemma judged_once_has_judgment (resume : bool) (gen eval : string)
    (l l' : list eval_elem) :
  Forall2 (judged_once resume gen eval) l l' -> all_judged l' gen eval = Ok true.
Proof.
  induction 1 as [|x y l l' (e & -> & Hstep) _ IH]; [reflexivity|].
  destruct (resume && has_judgment e gen eval) eqn:Hskip.
  - subst y. simpl. apply andb_true_iff in Hskip as [_ ->]. exact IH.
  - destruct Hstep as (j & -> & Hg & He). simpl.
    replace (has_judgment (set_judgments (judgments e ++ [j]) e) gen eval)
      with true; [exact IH|].
    symmetry. unfold has_judgment. simpl. rewrite existsb_app. simpl.
    rewrite Hg, He. simpl. rewrite !String.eqb_refl. simpl.
    apply orb_true_r.
Qed.

Section EvaluationRuns.
Context `{PathLib} `{Capabilities}.

(** What a run of the evaluation driver that returns has done. *)
Lemma EvalWorkflow_run_Ok (cfg : config) (gen : string) (image_path : option string)
    (w w' : world) :
  EvalWorkflow_run cfg gen image_path w = (Ok tt, w') ->
  exists p,
    match image_path with
    | Some p' => p = p'
    | None => resolve_image_path_of (w_item w) gen (cfg_output_dir cfg) = Ok p
    end
    /\ evaluation (w_item w) <> []
    /\ w_item w' = set_evaluation (evaluation (w_item w')) (w_item w)
    /\ Forall2 (judged_once (cfg_resume cfg) gen (cfg_model cfg))
         (evaluation (w_item w)) (evaluation (w_item w'))
    /\ w_calls w'
       = w_calls w ++ judgment_calls (cfg_resume cfg) gen (cfg_model cfg) p
                        (evaluation (w_item w))
    /\ (judgment_calls (cfg_resume cfg) gen (cfg_model cfg) p
          (evaluation (w_item w)) = [] -> w' = w)
    /\ (judgment_calls (cfg_resume cfg) gen (cfg_model cfg) p
          (evaluation (w_item w)) <> [] -> persisted (cfg_output_dir cfg) w').
Proof.
  unfold EvalWorkflow_run. rewrite pbind_get_item. intros Hrun.
  apply pbind_Ok in Hrun as (p & w1 & Hp & Hrun). exists p.
  assert (Hpath : match image_path with
                  | Some p' => p = p'
                  | None => resolve_image_path_of (w_item w) gen (cfg_output_dir cfg)
                            = Ok p
                  end /\ w1 = w).
  { destruct image_path.
    - apply ret_inv in Hp as [[= ->] ->]. auto.
    - apply lift_inv in Hp as [-> ->]. auto. }
  destruct Hpath as [Hpath ->]. split; [exact Hpath|]. clear Hp Hpath.
  apply pbind_Ok in Hrun as (done & w2 & Hdone & Hrun).
  assert (Hcheck : w2 = w /\
    (done = true ->
     cfg_resume cfg = true /\
     check_evaluation_complete (w_item w) gen (cfg_model cfg) = Ok true)).
  { destruct (cfg_resume cfg).
    - apply lift_inv in Hdone as [Hdone ->]. split; [reflexivity|].
      intros ->. auto.
    - apply ret_inv in Hdone as [[= ->] ->]. split; [reflexivity | discriminate]. }
  destruct Hcheck as [-> Hcheck]. clear Hdone. destruct done.
  - apply ret_inv in Hrun as [_ ->]. destruct (Hcheck eq_refl) as [Hres Hall].
    rewrite Hres. unfold check_evaluation_complete in Hall.
    destruct (evaluation (w_item w)) as [|x l] eqn:Hev; [discriminate|].
    destruct (all_judged_skipped (x :: l) gen (cfg_model cfg) p Hall) as [Hsame Hnone].
    rewrite <- Hev in *. rewrite Hnone, app_nil_r, set_evaluation_same.
    repeat split; congruence.
  - unfold _evaluate_all in Hrun. rewrite pbind_get_item in Hrun.
    destruct (evaluation (w_item w)) as [|x l] eqn:Hev; [discriminate|].
    rewrite <- Hev in *.
    destruct (evaluate_from_Ok cfg p gen _ 0 w w' Hrun eq_refl)
      as (Hitem & Hlen & _ & Hstep & Hcalls & Hnone & Hsome).
    rewrite drop_0 in Hcalls, Hnone, Hsome.
    split; [rewrite Hev; discriminate|]. split; [exact Hitem|].
    split; [|auto].
    apply Forall2_same_length_lookup. split; [congruence|].
    intros i a b Ha Hb. destruct (Hstep i a ltac:(lia) Ha) as (y & Hy & Hab).
    congruence.
Qed.

(** X3. A run of the evaluation driver that returns has kept the
    evaluation sequence entry for entry and in order: under resume an entry
    that already had a judgment for the two models is untouched, every other
    entry has exactly one new judgment, carrying the two model names, after
    its former ones.  Without resume every entry gets one more judgment, also
    when it had one.  No other field of the record has changed. *)
Theorem evaluation_run_appends_once (cfg : config) (gen : string)
    (image_path : option string) (w w' : world) :
  EvalWorkflow_run cfg gen image_path w = (Ok tt, w') ->
  Forall2 (judged_once (cfg_resume cfg) gen (cfg_model cfg))
    (evaluation (w_item w)) (evaluation (w_item w'))
  /\ w_item w' = set_evaluation (evaluation (w_item w')) (w_item w).
Proof.
  intros Hrun.
  destruct (EvalWorkflow_run_Ok _ _ _ _ _ Hrun) as (p & _ & _ & Hitem & Hstep & _).
  auto.
Qed.

(** X4. A run of the evaluation driver that returns has made one client
    call for each entry it did not skip, in the order of the entries, each
    with the evaluation model, the image path (the one given, or the one
    resolved from the item id and the generation model) and the prompt built
    from the entry's question; when there was nothing to judge the world is
    exactly as before. *)
Theorem evaluation_run_calls (cfg : config) (gen : string)
    (image_path : option string) (w w' : world) :
  EvalWorkflow_run cfg gen image_path w = (Ok tt, w') ->
  exists p,
    match image_path with
    | Some p' => p = p'
    | None => resolve_image_path_of (w_item w) gen (cfg_output_dir cfg) = Ok p
    end
    /\ w_calls w'
       = w_calls w ++ judgment_calls (cfg_resume cfg) gen (cfg_model cfg) p
                        (evaluation (w_item w))
    /\ (judgment_calls (cfg_resume cfg) gen (cfg_model cfg) p
          (evaluation (w_item w)) = [] -> w' = w).
Proof.
  intros Hrun.
  destruct (EvalWorkflow_run_Ok _ _ _ _ _ Hrun)
    as (p & Hp & _ & _ & _ & Hcalls & Hnone & _).
  exists p. auto.
Qed.

Lemma EvalWorkflow_run_Ok_complete (cfg : config) (gen : string)
    (image_path : option string) (w w' : world) :
  EvalWorkflow_run cfg gen image_path w = (Ok tt, w') ->
  check_evaluation_complete (w_item w') gen (cfg_model cfg) = Ok true.
Proof.
  intros Hrun.
  destruct (EvalWorkflow_run_Ok _ _ _ _ _ Hrun) as (p & _ & Hne & _ & Hstep & _).
  unfold check_evaluation_complete.
  pose proof (judged_once_has_judgment _ _ _ _ _ Hstep) as Hall.
  destruct (evaluation (w_item w')) eqn:Hev'; [|exact Hall].
  inversion Hstep; congruence.
Qed.

(** X5. When the evaluation driver returns, the item is evaluation
    complete for the two models, whatever the resume flag was. *)
Theorem evaluation_run_completes (cfg : config) (gen : string)
    (image_path : option string) (w w' : world) :
  EvalWorkflow_run cfg gen image_path w = (Ok tt, w') ->
  check_evaluation_complete (w_item w') gen (cfg_model cfg) = Ok true.
Proof. apply EvalWorkflow_run_Ok_complete. Qed.

(** X6. After a run of the evaluation driver that returned, a run under
    resume for the same models and image path returns at once: no client
    call, no write, the record untouched. *)
Theorem evaluation_rerun_is_noop (cfg cfg' : config) (gen : string)
    (image_path : option string) (w w' : world) :
  EvalWorkflow_run cfg gen image_path w = (Ok tt, w') ->
  cfg_resume cfg' = true ->
  cfg_model cfg' = cfg_model cfg ->
  cfg_output_dir cfg' = cfg_output_dir cfg ->
  EvalWorkflow_run cfg' gen image_path w' = (Ok tt, w').
Proof.
  intros Hrun Hres Hmodel Hdir.
  pose proof (EvalWorkflow_run_Ok_complete _ _ _ _ _ Hrun) as Hdone.
  destruct (EvalWorkflow_run_Ok _ _ _ _ _ Hrun) as (p & Hp & _ & Hitem & _).
  unfold EvalWorkflow_run. rewrite pbind_get_item, Hres, Hmodel, Hdir, Hdone.
  destruct image_path as [p'|].
  - rewrite pbind_ret, pbind_lift_Ok. reflexivity.
  - assert (Hid : resolve_image_path_of (w_item w') gen (cfg_output_dir cfg) = Ok p).
    { rewrite <- Hp. unfold resolve_image_path_of. rewrite Hitem. reflexivity. }
    rewrite Hid, !pbind_lift_Ok. reflexivity.
Qed.

(** X7. When the evaluation driver returns after at least one client call,
    the record file of the item holds the record as it is in memory, and
    loading that file gives the record back. *)
Theorem evaluation_run_persisted (cfg : config) (gen : string)
    (image_path : option string) (w w' : world) :
  EvalWorkflow_run cfg gen image_path w = (Ok tt, w') ->
  w_calls w' <> w_calls w ->
  persisted (cfg_output_dir cfg) w'
  /\ exists save_path, VISItem_from_dict (w_fs w') save_path = Ok (w_item w').
Proof.
  intros Hrun Hcalled.
  destruct (EvalWorkflow_run_Ok _ _ _ _ _ Hrun)
    as (p & _ & _ & _ & Hstep & Hcalls & Hnone & Hsome).
  assert (Hsaved : persisted (cfg_output_dir cfg) w').
  { apply Hsome. intros Hno. apply Hcalled. rewrite (Hnone Hno). reflexivity. }
  split; [exact Hsaved|].
  destruct Hsaved as (X & save_path & _ & _ & Hfile). exists save_path.
  unfold VISItem_from_dict, json_load. rewrite Hfile. simpl.
  apply of_json_asdict. apply Forall_forall. intros y Hy.
  apply list_elem_of_lookup in Hy as [i Hi].
  destruct (Forall2_lookup_r _ _ _ _ _ Hstep Hi) as (x & _ & e & -> & Hxy).
  destruct (cfg_resume cfg && has_judgment e gen (cfg_model cfg)).
  - subst. exact I.
  - destruct Hxy as (j & -> & _). exact I.
Qed.

(** X8. Evaluation completeness is never lost: if an item is evaluation
    complete for a pair of models, it still is after any run of the
    generation driver or of the evaluation driver, for any models and whether
    the run returns or raises. *)
Theorem completion_survives_runs (w : world) (gen eval : string) :
  check_evaluation_complete (w_item w) gen eval = Ok true ->
  (forall cfg r w', GenWorkflow_run cfg w = (r, w') ->
     check_evaluation_complete (w_item w') gen eval = Ok true)
  /\ (forall cfg gen' image_path r w',
       EvalWorkflow_run cfg gen' image_path w = (r, w') ->
       check_evaluation_complete (w_item w') gen eval = Ok true).
Proof.
  intros Hdone. split.
  - intros cfg r w' Hrun. eapply completion_grows; [|exact Hdone].
    eapply GenWorkflow_run_grows. exact Hrun.
  - intros cfg gen' image_path r w' Hrun. eapply completion_grows; [|exact Hdone].
    eapply EvalWorkflow_run_grows. exact Hrun.
Qed.

End EvaluationRuns.

(** ** The generation driver *)

Lemma getitem_Ok (v : value) (k : string) (x : value) :
  getitem v k = Ok x -> exists d, v = VDict d /\ dict_lookup k d = Some x.
Proof.
  destruct v as [| | | | |d]; try discriminate. simpl.
  destruct (dict_lookup k d) eqn:Hk; [|discriminate].
  intros [= <-]. eauto.
Qed.

Section GenerationRuns.
Context `{PathLib} `{Capabilities}.

Lemma pbind_text2image {B} (model : string) (k : string -> prog world B) (w : world) :
  pbind (text2image model) k w
  = if truthy (t2i_prompt (w_item w))
    then pbind (client_call (ImageGeneration model (t2i_prompt (w_item w)))
                  (fun past => call_image_generation past model
                                 (t2i_prompt (w_item w)))) k w
    else (Raise (ValueError t2i_prompt_required), w).
Proof.
  unfold text2image, pbind, get_item.
  destruct (truthy (t2i_prompt (w_item w))); reflexivity.
Qed.

Lemma GenWorkflow_run_cases (cfg : config) (w w' : world) (r : result unit) :
  GenWorkflow_run cfg w = (r, w') ->
  (w' = w /\
   (r = Ok tt /\ already_generated cfg (w_item w) (w_fs w) = Ok true
    \/ (exists e, r = Raise e /\
                  already_generated cfg (w_item w) (w_fs w) = Raise e)
    \/ (r = Raise (ValueError t2i_prompt_required) /\
        already_generated cfg (w_item w) (w_fs w) = Ok false /\
        truthy (t2i_prompt (w_item w)) = false)))
  \/ (w_calls w'
      = w_calls w ++ [ImageGeneration (cfg_model cfg) (t2i_prompt (w_item w))]
      /\ already_generated cfg (w_item w) (w_fs w) = Ok false
      /\ truthy (t2i_prompt (w_item w)) = true).
Proof.
  unfold GenWorkflow_run. rewrite pbind_get_item, pbind_get_fs.
  destruct (already_generated cfg (w_item w) (w_fs w)) as [[|]|e] eqn:Hdone.
  - rewrite pbind_lift_Ok. intros Hr. apply ret_inv in Hr as [-> ->]. left. auto.
  - rewrite pbind_lift_Ok, pbind_text2image.
    destruct (truthy (t2i_prompt (w_item w))) eqn:Hprompt.
    + intros Hrun. right. split; [|auto].
      apply pbind_inv in Hrun as [(image & w1 & Hcall & Hrun) | (x & Hcall & _)];
        unfold client_call in Hcall; injection Hcall as _ <-;
        [|reflexivity].
      apply pbind_inv in Hrun as [(ip & w2 & Hp & Hrun) | (x & Hp & _)];
        apply lift_inv in Hp as [_ ->]; [|reflexivity].
      apply pbind_inv in Hrun as [([] & w3 & Hmk & Hrun) | (x & Hmk & _)];
        apply on_fs_inv in Hmk as (_ & _ & Hc3); [|exact Hc3]; simpl in Hc3.
      apply pbind_inv in Hrun as [([] & w4 & Hwr & Hrun) | (x & Hwr & _)];
        apply on_fs_inv in Hwr as (_ & _ & Hc4); [|simpl in *; congruence].
      apply pbind_inv in Hrun as [(item' & w5 & Hup & Hrun) | (x & Hup & _)];
        apply lift_inv in Hup as [_ ->]; [|simpl in *; congruence].
      rewrite pbind_set_item in Hrun.
      apply on_fs_inv in Hrun as (_ & _ & Hc5). simpl in *. congruence.
    + intros [= <- <-]. left. split; [reflexivity|]. right. right. auto.
  - rewrite pbind_lift_Raise. intros [= <- <-]. left.
    split; [reflexivity|]. right. left. eauto.
Qed.

(** X9. A run of the generation driver makes at most one client call.  It
    makes none exactly when the image was already generated (under resume),
    in which case it returns and changes nothing, or when the test for it or
    the missing prompt makes it raise, again changing nothing; otherwise the
    one call carries the model and the item's prompt. *)
Theorem generation_run_calls (cfg : config) (w w' : world) (r : result unit) :
  GenWorkflow_run cfg w = (r, w') ->
  (w' = w /\
   (r = Ok tt /\ already_generated cfg (w_item w) (w_fs w) = Ok true
    \/ (exists e, r = Raise e /\
                  already_generated cfg (w_item w) (w_fs w) = Raise e)
    \/ (r = Raise (ValueError t2i_prompt_required) /\
        already_generated cfg (w_item w) (w_fs w) = Ok false /\
        truthy (t2i_prompt (w_item w)) = false)))
  \/ (w_calls w'
      = w_calls w ++ [ImageGeneration (cfg_model cfg) (t2i_prompt (w_item w))]
      /\ already_generated cfg (w_item w) (w_fs w) = Ok false
      /\ truthy (t2i_prompt (w_item w)) = true).
Proof. apply GenWorkflow_run_cases. Qed.

Lemma GenWorkflow_run_Ok_id (cfg : config) (w w' : world) :
  GenWorkflow_run cfg w = (Ok tt, w') ->
  already_generated cfg (w_item w) (w_fs w) = Ok false ->
  exists X, item_id (w_item w) = VStr X.
Proof.
  intros Hrun Hnot. unfold GenWorkflow_run in Hrun.
  rewrite pbind_get_item, pbind_get_fs, Hnot, pbind_lift_Ok in Hrun.
  apply pbind_Ok in Hrun as (image & w1 & _ & Hrun).
  apply pbind_Ok in Hrun as (ip & w2 & Hip & _).
  apply lift_inv in Hip as [Hip _]. unfold resolve_image_path_of in Hip.
  destruct (item_id (w_item w)) as [| | |X| |]; try discriminate. eauto.
Qed.

(** X10. A run of the generation driver that generates and returns has
    recorded, under the model name, the path [output_dir/id/id_model.png]
    built from the item's string id and the normalised model name, and a file
    exists at that path when it returns. *)
Theorem generation_run_records_image (cfg : config) (w w' : world) :
  GenWorkflow_run cfg w = (Ok tt, w') ->
  already_generated cfg (w_item w) (w_fs w) = Ok false ->
  exists X,
    item_id (w_item w) = VStr X
    /\ getitem (generation (w_item w')) (cfg_model cfg)
       = Ok (VStr (resolve_image_path X (cfg_model cfg) (cfg_output_dir cfg)))
    /\ exists_ (w_fs w')
         (resolve_image_path X (cfg_model cfg) (cfg_output_dir cfg)) = Ok true.
Proof.
  intros Hrun Hnot. destruct (GenWorkflow_run_Ok_id _ _ _ Hrun Hnot) as [X Hid].
  exists X. split; [exact Hid|].
  destruct (GenWorkflow_run_records_image_path cfg w w' X Hid Hnot Hrun)
    as (Hrec & Hex & _). auto.
Qed.

(** X11. After a run of the generation driver that returned, a run under
    resume for the same model and output directory returns at once and
    changes nothing, provided [Path] gives back the image path it is built
    from (as [Path(str(p)) == p] in [pathlib]). *)
Theorem generation_rerun_is_noop (cfg cfg' : config) (w w' : world) :
  (forall X, Path (resolve_image_path X (cfg_model cfg) (cfg_output_dir cfg))
             = resolve_image_path X (cfg_model cfg) (cfg_output_dir cfg)) ->
  GenWorkflow_run cfg w = (Ok tt, w') ->
  cfg_resume cfg' = true ->
  cfg_model cfg' = cfg_model cfg ->
  cfg_output_dir cfg' = cfg_output_dir cfg ->
  GenWorkflow_run cfg' w' = (Ok tt, w').
Proof.
  intros Hpath Hrun Hres Hmodel Hdir.
  assert (Hdone : already_generated cfg' (w_item w') (w_fs w') = Ok true).
  { destruct (GenWorkflow_run_cases _ _ _ _ Hrun)
      as [[-> [[_ Hgen] | [(e & [=] & _) | ([=] & _)]]] | (_ & Hnot & _)].
    - apply already_generated_true in Hgen as (_ & g & p & Hg & Hp & Hex).
      apply already_generated_true. rewrite Hmodel. eauto 6.
    - destruct (GenWorkflow_run_Ok_id _ _ _ Hrun Hnot) as [X Hid].
      destruct (GenWorkflow_run_records_image_path cfg w w' X Hid Hnot Hrun)
        as (Hrec & Hex & _).
      apply getitem_Ok in Hrec as (g & Hg & Hp).
      apply already_generated_true. rewrite Hmodel.
      split; [exact Hres|]. eexists g, _. split; [exact Hg|]. split; [exact Hp|].
      rewrite Hpath. exact Hex. }
  unfold GenWorkflow_run. rewrite pbind_get_item, pbind_get_fs, Hdone.
  reflexivity.
Qed.

End GenerationRuns.

(** ** The state store and the persisted record *)

Section StateStore.
Context `{PathLib}.

(** X12. Resume returns what was persisted: after [save_item] of the state
    manager has written an item with string id [X], [load_item] under resume,
    from any seed with the same id, returns that very item.  The record path
    has to end in [.json] (as [output_dir / X / "X.json"] does in [pathlib])
    and the item must be one that loading can produce (no raw dict among its
    evaluation elements). *)
Theorem resume_loads_persisted_item (output_dir : string) (item seed : VISItem)
    (X source_path : string) (fs fs' : filesystem) :
  endswith (item_json_path output_dir X) ".json" = true ->
  Forall loadable_elem (evaluation item) ->
  item_id item = VStr X ->
  ItemStateManager_save_item output_dir item fs = (Ok tt, fs') ->
  VISItem_from_dict fs' source_path = Ok seed ->
  item_id seed = VStr X ->
  load_item output_dir fs' source_path true = Ok item.
Proof.
  intros Hjson Hload Hid Hsave Hseed Hsid.
  apply state_save_written in Hsave as (X' & save_path & Hid' & Hpath & Hfile).
  rewrite Hid in Hid'. injection Hid' as <-.
  unfold resolve_save_path in Hpath. rewrite Hjson in Hpath.
  injection Hpath as <-.
  unfold load_item. simpl. rewrite Hseed. simpl. rewrite Hsid.
  unfold exists_, VISItem_from_dict, json_load. rewrite Hfile. simpl.
  apply of_json_asdict. exact Hload.
Qed.

(** X13. Even under resume the seed is read first: when the seed cannot be
    loaded, [load_item] raises the same exception in both modes, whatever the
    output directory holds; and a seed whose id is not a string loads without
    resume but makes the resumed load raise [TypeError]. *)
Theorem load_item_needs_seed (output_dir : string) (fs : filesystem)
    (source_path : string) :
  (forall e, VISItem_from_dict fs source_path = Raise e ->
     forall resume, load_item output_dir fs source_path resume = Raise e)
  /\ (forall seed, VISItem_from_dict fs source_path = Ok seed ->
       (forall X, item_id seed <> VStr X) ->
       load_item output_dir fs source_path false = Ok seed
       /\ load_item output_dir fs source_path true = Raise TypeError).
Proof.
  unfold load_item. split.
  - intros e He [|]; simpl; rewrite He; reflexivity.
  - intros seed Hseed Hid. simpl. rewrite Hseed. simpl.
    split; [reflexivity|].
    destruct (item_id seed) as [| | |X| |]; try reflexivity.
    destruct (Hid X eq_refl).
Qed.

(** X14. The record format this code writes is never complete for the
    stages [draft], [generate_questions] and [evaluate] of
    [is_stage_completed], nor for any unknown stage: on a record file written
    by [save_item] the check answers false for every stage other than
    [generate], whatever the item, the method and the dimensions. *)
Theorem written_record_only_completes_generate (output_dir : string)
    (fs : filesystem) (id stage : string) (item : VISItem)
    (method : option string) (dims : option (list string)) :
  fs !! item_json_path output_dir id = Some (FJson (VISItem_asdict item)) ->
  stage <> "generate" ->
  is_stage_completed output_dir fs id stage method dims = Ok false.
Proof.
  intros Hfile Hstage.
  unfold is_stage_completed, exists_, json_load. rewrite Hfile.
  cbn [negb bind]. unfold stage_completed.
  destruct (String.eqb stage "draft"); [reflexivity|].
  destruct (String.eqb_spec stage "generate") as [->|_]; [congruence|].
  destruct (String.eqb stage "generate_questions").
  { destruct dims as [[|d ds]|]; reflexivity. }
  destruct (String.eqb stage "evaluate"); [|reflexivity].
  destruct method as [m|]; [|reflexivity].
  destruct dims as [[|d ds]|]; try reflexivity.
  destruct (String.eqb m ""); [reflexivity|].
  unfold _validate_evaluation_completion.
  destruct (negb (has_char "_" m)); [reflexivity|].
  destruct (split_once "_" m) as [|a [|b [|c l]]]; try reflexivity.
  unfold VISItem_asdict. cbn [get bind dict_get dict_lookup String.eqb Ascii.eqb
                               Bool.eqb].
  destruct (evaluation item); reflexivity.
Qed.

(** X15. On a record file that holds the item in memory, the persisted
    check for the [generate] stage and the test of the generation driver
    agree: when [is_stage_completed] answers true the driver under resume
    finds the image generated, and conversely when the model name and the
    recorded path are not empty. *)
Theorem persisted_and_memory_checks_agree (output_dir : string) (fs : filesystem)
    (id : string) (item : VISItem) (dims : option (list string)) (cfg : config) :
  fs !! item_json_path output_dir id = Some (FJson (VISItem_asdict item)) ->
  cfg_resume cfg = true ->
  (is_stage_completed output_dir fs id "generate" (Some (cfg_model cfg)) dims
   = Ok true ->
   already_generated cfg item fs = Ok true)
  /\ (already_generated cfg item fs = Ok true ->
      cfg_model cfg <> "" ->
      getitem (generation item) (cfg_model cfg) <> Ok (VStr "") ->
      is_stage_completed output_dir fs id "generate" (Some (cfg_model cfg)) dims
      = Ok true).
Proof.
  intros Hfile Hres.
  rewrite (is_stage_completed_generate _ _ _ _ _ _ Hfile).
  rewrite generate_completed_true, already_generated_true. split.
  - intros (_ & d & g & p & [= <-] & Hg & Hp & _ & Hex).
    cbn in Hg. injection Hg as Hg. split; [exact Hres|]. eauto.
  - intros (_ & g & p & Hg & Hp & Hex) Hm Hne. split; [exact Hm|].
    eexists _, g, p. split; [reflexivity|]. cbn. rewrite Hg.
    split; [reflexivity|]. split; [exact Hp|]. split; [|exact Hex].
    intros ->. apply Hne. rewrite Hg. simpl. rewrite Hp. reflexivity.
Qed.

End StateStore.

(** ** Normalised model names *)

Lemma underscore_app (s : string) : "_" +:+ s = String "_" s.
Proof. reflexivity. Qed.

Lemma has_char_replace_same (c : ascii) (s : string) :
  Ascii.eqb "_" c = false -> has_char c (replace_char c "_" s) = false.
Proof.
  intros Hc. induction s as [|a s IH]; [reflexivity|]. cbn -[Ascii.eqb].
  destruct (Ascii.eqb a c) eqn:Hac; rewrite ?underscore_app; cbn -[Ascii.eqb];
    rewrite ?Hc, ?Hac; exact IH.
Qed.

Lemma has_char_replace_other (d c : ascii) (s : string) :
  Ascii.eqb "_" d = false -> has_char d s = false ->
  has_char d (replace_char c "_" s) = false.
Proof.
  intros Hd. induction s as [|a s IH]; [reflexivity|]. cbn -[Ascii.eqb].
  intros Hs. apply orb_false_iff in Hs as [Ha Hs].
  destruct (Ascii.eqb a c); rewrite ?underscore_app; cbn -[Ascii.eqb];
    rewrite ?Hd, ?Ha; auto.
Qed.

Lemma replace_char_absent (c : ascii) (new s : string) :
  has_char c s = false -> replace_char c new s = s.
Proof.
  induction s as [|a s IH]; [reflexivity|]. simpl.
  intros Hs. apply orb_false_iff in Hs as [-> Hs]. rewrite (IH Hs). reflexivity.
Qed.

Lemma split_char_keeps_absent (c sep : ascii) (s : string) :
  has_char c s = false ->
  Forall (fun part => has_char c part = false) (split_char sep s).
Proof.
  induction s as [|a s IH]; simpl.
  - intros _. repeat constructor.
  - intros Hs. apply orb_false_iff in Hs as [Ha Hs]. specialize (IH Hs).
    destruct (Ascii.eqb a sep).
    + constructor; [reflexivity | exact IH].
    + destruct (split_char sep s) as [|part parts].
      * repeat constructor. simpl. rewrite Ha. reflexivity.
      * apply Forall_cons in IH as [Hpart Hparts].
        constructor; [|exact Hparts]. simpl. rewrite Ha. exact Hpart.
Qed.

Lemma split_char_parts_no_sep (sep : ascii) (s : string) :
  Forall (fun part => has_char sep part = false) (split_char sep s).
Proof.
  induction s as [|a s IH]; simpl.
  - repeat constructor.
  - destruct (Ascii.eqb a sep) eqn:Ha.
    + constructor; [reflexivity | exact IH].
    + destruct (split_char sep s) as [|part parts].
      * repeat constructor. simpl. rewrite Ha. reflexivity.
      * apply Forall_cons in IH as [Hpart Hparts].
        constructor; [|exact Hparts]. simpl. rewrite Ha. exact Hpart.
Qed.

Lemma Forall_nth_default {A} (P : A -> Prop) (l : list A) (i : nat) (d : A) :
  Forall P l -> P d -> P (nth i l d).
Proof.
  intros Hl Hd. revert i. induction Hl as [|x l Hx _ IH]; intros [|i]; simpl; auto.
Qed.

Lemma Forall_last_default {A} (P : A -> Prop) (l : list A) (d : A) :
  Forall P l -> P d -> P (List.last l d).
Proof.
  intros Hl Hd. induction Hl as [|x l Hx Hl IH]; [exact Hd|].
  simpl. destruct l; [exact Hx | exact IH].
Qed.

Lemma normalize_for_filename_keeps_absent (c : ascii) (model_name : string) :
  has_char c (replace_char "." "_" (replace_char "-" "_" model_name)) = false ->
  has_char c (normalize_for_filename model_name) = false.
Proof.
  intros Hc. unfold normalize_for_filename.
  destruct (has_char "/" _); [|exact Hc].
  apply Forall_nth_default; [|reflexivity].
  apply split_char_keeps_absent. exact Hc.
Qed.

Lemma normalize_no_dash (model_name : string) :
  has_char "-" (normalize_for_filename model_name) = false.
Proof.
  apply normalize_for_filename_keeps_absent.
  apply has_char_replace_other; [reflexivity|].
  apply has_char_replace_same. reflexivity.
Qed.

Lemma normalize_no_dot (model_name : string) :
  has_char "." (normalize_for_filename model_name) = false.
Proof.
  apply normalize_for_filename_keeps_absent.
  apply has_char_replace_same. reflexivity.
Qed.

Lemma normalize_no_slash (model_name : string) :
  has_char "/" (normalize_for_filename model_name) = false.
Proof.
  unfold normalize_for_filename.
  destruct (has_char "/" (replace_char "." "_" (replace_char "-" "_" model_name)))
    eqn:Hslash; [|exact Hslash].
  apply Forall_nth_default; [|reflexivity].
  apply split_char_parts_no_sep.
Qed.

(** X16. The normalised model name is safe for a file name: whatever the
    model name, it contains no [-], no [.] and no [/]. *)
Theorem normalize_for_filename_safe (model_name : string) :
  has_char "-" (normalize_for_filename model_name) = false
  /\ has_char "." (normalize_for_filename model_name) = false
  /\ has_char "/" (normalize_for_filename model_name) = false.
Proof.
  split; [apply normalize_no_dash | split; [apply normalize_no_dot
                                           | apply normalize_no_slash]].
Qed.

Lemma normalize_for_filename_fixed (s : string) :
  has_char "-" s = false -> has_char "." s = false -> has_char "/" s = false ->
  normalize_for_filename s = s.
Proof.
  intros Hd Hp Hs. unfold normalize_for_filename.
  rewrite (replace_char_absent "-" "_" s Hd), (replace_char_absent "." "_" s Hp), Hs.
  reflexivity.
Qed.

(** X17. Normalising is idempotent: a normalised model name is its own
    normalisation, so the file name of an image does not change when the
    normalised name is used in place of the model name. *)
Theorem normalize_for_filename_idempotent (model_name item_id extension : string) :
  normalize_for_filename (normalize_for_filename model_name)
  = normalize_for_filename model_name
  /\ build_image_filename item_id (normalize_for_filename model_name) extension
     = build_image_filename item_id model_name extension.
Proof.
  assert (Hfix : normalize_for_filename (normalize_for_filename model_name)
                 = normalize_for_filename model_name).
  { apply normalize_for_filename_fixed;
      [apply normalize_no_dash | apply normalize_no_dot | apply normalize_no_slash]. }
  split; [exact Hfix|]. unfold build_image_filename. rewrite Hfix. reflexivity.
Qed.

(** ** The model name read back from an image path *)

Lemma split_char_nonempty (sep : ascii) (s : string) : split_char sep s <> [].
Proof.
  destruct s as [|a s]; simpl; [discriminate|].
  destruct (Ascii.eqb a sep); [discriminate|].
  destruct (split_char sep s); discriminate.
Qed.

Lemma split_char_app (sep : ascii) (a b : string) :
  split_char sep (a +:+ String sep b) = split_char sep a ++ split_char sep b.
Proof.
  induction a as [|c a IH]; simpl.
  - rewrite Ascii.eqb_refl. reflexivity.
  - destruct (Ascii.eqb c sep); [rewrite IH; reflexivity|].
    rewrite IH. pose proof (split_char_nonempty sep a) as Hne.
    destruct (split_char sep a); [congruence | reflexivity].
Qed.

Lemma last_app_nonempty {A} (l1 l2 : list A) (d : A) :
  l2 <> [] -> List.last (l1 ++ l2) d = List.last l2 d.
Proof.
  intros Hne. induction l1 as [|x l1 IH]; [reflexivity|].
  simpl. destruct (l1 ++ l2) eqn:Happ; [|exact IH].
  apply app_eq_nil in Happ as [_ ->]. congruence.
Qed.

(** X18. The model name read back from an image path never contains [_]:
    for the image file of a model, whose stem is [id_normalized], it is the
    part of the normalised name after its last [_], hence different from the
    normalised name as soon as that contains [_] (as it does for every model
    name with [-] or [.]). *)
Theorem model_name_read_back (stem : string -> string) (image_path : string) :
  has_char "_" (get_model_name_from_image_path stem image_path) = false
  /\ (forall item_id model_name,
        stem image_path = item_id +:+ "_" +:+ normalize_for_filename model_name ->
        get_model_name_from_image_path stem image_path
        = List.last (split_char "_" (normalize_for_filename model_name)) ""
        /\ (has_char "_" (normalize_for_filename model_name) = true ->
            get_model_name_from_image_path stem image_path
            <> normalize_for_filename model_name)).
Proof.
  assert (Hno : has_char "_" (get_model_name_from_image_path stem image_path) = false).
  { unfold get_model_name_from_image_path.
    apply Forall_last_default; [apply split_char_parts_no_sep | reflexivity]. }
  split; [exact Hno|].
  intros item_id model_name Hstem. split.
  - unfold get_model_name_from_image_path. rewrite Hstem.
    change (item_id +:+ "_" +:+ normalize_for_filename model_name)
      with (item_id +:+ String "_" (normalize_for_filename model_name)).
    rewrite split_char_app. apply last_app_nonempty, split_char_nonempty.
  - intros Hunder Heq. rewrite Heq in Hno. congruence.
Qed.

(** ** Questions *)

(** X19. A [Question] survives [to_dict] followed by [from_dict], and
    [to_jsonl_line] followed by [from_jsonl_line]; and [from_dict] accepts a
    dict exactly when it holds the five keys, raising otherwise. *)
Theorem question_roundtrip (x : Question.t) (d : list (string * value)) :
  Question.from_dict (Question.to_dict x) = Ok x
  /\ Question.from_jsonl_line (Question.to_jsonl_line x) = Ok x
  /\ ((exists y, Question.from_dict (VDict d) = Ok y) <->
      Forall (fun k => dict_mem k d = true)
             ["item_id"; "q_id"; "q_ground"; "q"; "q_type"]).
Proof.
  split; [destruct x; reflexivity|]. split; [destruct x; reflexivity|].
  unfold Question.from_dict, getitem, dict_mem. split.
  - intros [y Hy].
    destruct (dict_lookup "item_id" d) eqn:H1; [|discriminate].
    destruct (dict_lookup "q_id" d) eqn:H2; [|discriminate].
    destruct (dict_lookup "q_ground" d) eqn:H3; [|discriminate].
    destruct (dict_lookup "q" d) eqn:H4; [|discriminate].
    destruct (dict_lookup "q_type" d) eqn:H5; [|discriminate].
    repeat (constructor; [rewrite ?H1, ?H2, ?H3, ?H4, ?H5; reflexivity|]).
    constructor.
  - intros Hall.
    repeat (apply Forall_cons in Hall as [Hk Hall]; cbv beta in Hk;
            match type of Hk with
            | match ?l with _ => _ end = true => destruct l; [clear Hk|discriminate]
            end).
    simpl. eauto.
Qed.

Lemma read_lines_filter (lines : list Question.line) (id : string)
    (all : list Question.t) :
  Question.read_lines lines None = Ok all ->
  Question.read_lines lines (Some id)
  = Ok (List.filter (Question.wanted (Some id)) all).
Proof.
  revert all. induction lines as [|l lines IH]; intros all; simpl.
  - intros [= <-]. reflexivity.
  - destruct l as [|doc|]; [apply IH | | discriminate].
    simpl. destruct (Question.from_dict doc) as [x|e]; [|discriminate]. simpl.
    destruct (Question.read_lines lines None) as [rest|e]; [|discriminate].
    intros [= <-]. rewrite (IH rest eq_refl). reflexivity.
Qed.

(** X20. Loading questions for one item id gives, in file order, exactly
    those questions of the unfiltered load whose [item_id] is that string;
    when the unfiltered load raises (a line that is not JSON, a missing key)
    the filtered load raises the same exception, also when the offending line
    belongs to another item; a file that does not exist gives the empty
    list. *)
Theorem load_from_jsonl_filters (file : option (list Question.line)) (id : string) :
  (forall all, Question.load_from_jsonl file None = Ok all ->
     Question.load_from_jsonl file (Some id)
     = Ok (List.filter (fun x => eq_str (Question.item_id x) id) all))
  /\ (forall e, Question.load_from_jsonl file None = Raise e ->
       Question.load_from_jsonl file (Some id) = Raise e)
  /\ (file = None -> Question.load_from_jsonl file (Some id) = Ok []).
Proof.
  split; [|split].
  - intros all. destruct file as [lines|]; simpl.
    + apply read_lines_filter.
    + intros [= <-]. reflexivity.
  - intros e. destruct file as [lines|]; simpl; [|discriminate].
    induction lines as [|l lines IH]; simpl; [discriminate|].
    destruct l as [|doc|]; [exact IH | | auto].
    simpl. destruct (Question.from_dict doc) as [x|e']; [|auto]. simpl.
    destruct (Question.read_lines lines None) as [rest|e'] eqn:Hrest;
      [discriminate|].
    intros [= ->]. rewrite (IH eq_refl). reflexivity.
  - intros ->. reflexivity.
Qed.

(** ** Entries by source *)

(** X21. [get_evaluation_by_source] never raises, also on a record with
    elements that are no entries, and the drivers never move a question
    between sources: when a record has only grown, the entries of each source
    are the same entries in the same order, each with its judgments
    extended. *)
Theorem evaluation_by_source_grows (item item' : VISItem) (src : string) :
  grows item item' ->
  Forall2 entry_extends (get_evaluation_by_source item src)
    (get_evaluation_by_source item' src).
Proof.
  intros [_ Hev]. unfold get_evaluation_by_source.
  induction Hev as [|x y l l' Hxy _ IH]; [constructor|].
  cbn [omap list_omap].
  destruct x as [e|v], y as [e'|v']; simpl in Hxy; try contradiction.
  - pose proof Hxy as (Hs & _). rewrite Hs.
    destruct (eq_str (source e) src); [constructor; assumption | exact IH].
  - exact IH.
Qed.

(** ** Error classification *)

Module ErrorHandlerFacts.
Import ErrorHandler.

Lemma lower_app (a b : string) : lower (a +:+ b) = lower a +:+ lower b.
Proof. induction a as [|c a IH]; simpl; [reflexivity | rewrite IH; reflexivity]. Qed.

Lemma is_substring_app_r (k p s : string) :
  is_substring k s = true -> is_substring k (p +:+ s) = true.
Proof.
  intros Hs. induction p as [|c p IH]; [exact Hs|].
  change (String c p +:+ s) with (String c (p +:+ s)).
  cbn [is_substring]. rewrite IH. apply orb_true_r.
Qed.

Lemma any_keyword_app_r (keywords : list string) (p s : string) :
  any_keyword keywords s = true -> any_keyword keywords (p +:+ s) = true.
Proof.
  unfold any_keyword. rewrite !existsb_exists.
  intros (k & Hin & Hk). exists k. split; [exact Hin|].
  apply is_substring_app_r. exact Hk.
Qed.

Lemma string_app_assoc (a b c : string) : (a +:+ b) +:+ c = a +:+ (b +:+ c).
Proof.
  induction a as [|x a IH]; [reflexivity|].
  change (String x ((a +:+ b) +:+ c) = String x (a +:+ (b +:+ c))).
  rewrite IH. reflexivity.
Qed.

Lemma context_message_ends_with_text (e : error) (stage : string)
    (item_id method : option string) :
  exists prefix,
    get_error_message_with_context e stage item_id method
    = prefix +:+ error_text e.
Proof.
  unfold get_error_message_with_context.
  set (context := match _ ++ _ with [] => "" | _ => _ end).
  exists ("Error in " +:+ stage +:+ " stage" +:+ context +:+ ": ").
  rewrite !string_app_assoc. reflexivity.
Qed.

End ErrorHandlerFacts.

(** X22. Putting an error message in context never hides a system error:
    when the text of an error contains a system keyword (in any letter case),
    the message built by [get_error_message_with_context], for any stage, item
    and method, is classified [SYSTEM] whatever the type of the exception that
    carries it, and is not retried. *)
Theorem context_keeps_system_errors (e : ErrorHandler.error) (stage : string)
    (item_id method : option string) (carrier : string) :
  ErrorHandler.any_keyword ErrorHandler.SYSTEM_KEYWORDS
    (ErrorHandler.lower (ErrorHandler.error_text e)) = true ->
  let wrapped :=
    {| ErrorHandler.type_name := carrier;
       ErrorHandler.error_text :=
         ErrorHandler.get_error_message_with_context e stage item_id method |} in
  ErrorHandler.classify_error e = ErrorHandler.SYSTEM
  /\ ErrorHandler.classify_error wrapped = ErrorHandler.SYSTEM
  /\ ErrorHandler.should_retry wrapped = false.
Proof.
  intros Hsys wrapped.
  assert (Hw : ErrorHandler.classify_error wrapped = ErrorHandler.SYSTEM).
  { unfold ErrorHandler.classify_error. subst wrapped. cbn [ErrorHandler.error_text].
    destruct (ErrorHandlerFacts.context_message_ends_with_text e stage item_id method)
      as [prefix ->].
    rewrite ErrorHandlerFacts.lower_app.
    rewrite (ErrorHandlerFacts.any_keyword_app_r _ _ _ Hsys). reflexivity. }
  split; [|split; [exact Hw|]].
  - unfold ErrorHandler.classify_error. rewrite Hsys. reflexivity.
  - unfold ErrorHandler.should_retry. rewrite Hw. reflexivity.
Qed.

Lemma summary_fold_count (errors : list ErrorHandler.error) (acc : gmap string nat)
    (c : ErrorHandler.ErrorCategory) :
  default 0
    (fold_left
       (fun summary e =>
          let category_name :=
            ErrorHandler.category_value (ErrorHandler.classify_error e) in
          <[category_name := default 0 (summary !! category_name) + 1]> summary)
       errors acc !! ErrorHandler.category_value c)
  = default 0 (acc !! ErrorHandler.category_value c)
    + ErrorHandler.count_category c errors.
Proof.
  revert acc. induction errors as [|e errors IH]; intros acc; simpl; [lia|].
  rewrite IH. clear IH.
  destruct (ErrorHandler.classify_error e), c; simpl;
    rewrite ?lookup_insert_eq; rewrite ?lookup_insert_ne by discriminate;
    simpl; lia.
Qed.

Lemma summary_fold_other (errors : list ErrorHandler.error) (acc : gmap string nat)
    (k : string) :
  (forall c, k <> ErrorHandler.category_value c) ->
  fold_left
    (fun summary e =>
       let category_name :=
         ErrorHandler.category_value (ErrorHandler.classify_error e) in
       <[category_name := default 0 (summary !! category_name) + 1]> summary)
    errors acc !! k
  = acc !! k.
Proof.
  intros Hk. revert acc. induction errors as [|e errors IH]; intros acc; simpl;
    [reflexivity|].
  rewrite IH. apply lookup_insert_ne. intros Heq. exact (Hk _ (eq_sym Heq)).
Qed.

Lemma summary_fold_positive (errors : list ErrorHandler.error)
    (acc : gmap string nat) :
  (forall k, acc !! k <> Some 0) ->
  forall k,
    fold_left
      (fun summary e =>
         let category_name :=
           ErrorHandler.category_value (ErrorHandler.classify_error e) in
         <[category_name := default 0 (summary !! category_name) + 1]> summary)
      errors acc !! k
    <> Some 0.
Proof.
  revert acc. induction errors as [|e errors IH]; intros acc Hacc; simpl;
    [exact Hacc|].
  apply IH. intros k.
  destruct (decide (ErrorHandler.category_value (ErrorHandler.classify_error e) = k))
    as [<-|Hne].
  - rewrite lookup_insert_eq. intros [= Hz]. lia.
  - rewrite lookup_insert_ne by exact Hne. apply Hacc.
Qed.

Lemma count_category_total (errors : list ErrorHandler.error) :
  ErrorHandler.count_category ErrorHandler.RECOVERABLE errors
  + ErrorHandler.count_category ErrorHandler.PERMANENT errors
  + ErrorHandler.count_category ErrorHandler.SYSTEM errors
  = length errors.
Proof.
  induction errors as [|e errors IH]; simpl; [reflexivity|].
  destruct (ErrorHandler.classify_error e); simpl; lia.
Qed.

(** X23. The summary of a list of errors counts every error once: under
    each category name it holds the number of errors classified in that
    category (no entry meaning none), it has no other key, and the three
    counts add up to the number of errors. *)
Theorem error_summary_counts (errors : list ErrorHandler.error) :
  let summary := ErrorHandler.get_error_summary errors in
  (forall c, default 0 (summary !! ErrorHandler.category_value c)
             = ErrorHandler.count_category c errors)
  /\ (forall c, summary !! ErrorHandler.category_value c <> Some 0)
  /\ (forall k, (forall c, k <> ErrorHandler.category_value c) ->
                summary !! k = None)
  /\ default 0 (summary !! "recoverable") + default 0 (summary !! "permanent")
     + default 0 (summary !! "system") = length errors.
Proof.
  intros summary. subst summary. unfold ErrorHandler.get_error_summary.
  assert (Hcount : forall c,
    default 0 (ErrorHandler.get_error_summary errors
                 !! ErrorHandler.category_value c)
    = ErrorHandler.count_category c errors).
  { intros c. unfold ErrorHandler.get_error_summary.
    rewrite summary_fold_count, lookup_empty. reflexivity. }
  unfold ErrorHandler.get_error_summary in Hcount.
  split; [exact Hcount|]. split; [|split].
  - intros c. apply summary_fold_positive. intros k. rewrite lookup_empty.
    discriminate.
  - intros k Hk. rewrite summary_fold_other by exact Hk. apply lookup_empty.
  - rewrite <- count_category_total.
    rewrite <- (Hcount ErrorHandler.RECOVERABLE), <- (Hcount ErrorHandler.PERMANENT),
      <- (Hcount ErrorHandler.SYSTEM). reflexivity.
Qed.

(** ** The commands *)

Lemma loadable_grows (item item' : VISItem) :
  grows item item' ->
  Forall loadable_elem (evaluation item) ->
  Forall loadable_elem (evaluation item').
Proof.
  intros [_ Hev]. induction Hev as [|x y l l' Hxy _ IH]; [auto|].
  intros Hl. apply Forall_cons in Hl as [Hx Hl]. constructor; [|auto].
  destruct x as [e|v], y as [e'|v']; simpl in Hxy; try contradiction.
  - exact I.
  - subst v'. exact Hx.
Qed.

Lemma command_item_loadable `{PathLib} (output_dir info_path : string)
    (resume : bool) (fs : filesystem) (item : VISItem) :
  command_item output_dir info_path resume fs = Ok item ->
  Forall loadable_elem (evaluation item).
Proof.
  unfold command_item, load_item. destruct resume; simpl.
  - intros Hload. apply bind_Ok in Hload as (seed & Hseed & Hload).
    destruct (item_id seed); try discriminate.
    destruct (exists_ fs _) as [[|]|e]; simpl in Hload; [| |discriminate].
    + eapply from_dict_loadable. exact Hload.
    + injection Hload as <-. eapply from_dict_loadable. exact Hseed.
  - apply from_dict_loadable.
Qed.

Lemma check_generation_exists_recorded (item : VISItem) (m p : string) :
  getitem (generation item) m = Ok (VStr p) ->
  check_generation_exists item m = Ok true.
Proof.
  intros Hget. unfold check_generation_exists. rewrite Hget.
  apply getitem_Ok in Hget as (g & -> & Hp). simpl. unfold dict_mem.
  rewrite Hp. reflexivity.
Qed.

Section CommandFacts.
Context `{PathLib} `{Capabilities} `{ClientLibrary}.

Lemma save_result_zero (output_dir : string) (w : world) (o' : outside) :
  save_result output_dir w = (0, o') ->
  Forall loadable_elem (evaluation (w_item w)) ->
  exists save_path,
    resolve_save_path (w_item w) output_dir = Ok save_path
    /\ fst o' !! save_path = Some (FJson (VISItem_asdict (w_item w)))
    /\ VISItem_from_dict (fst o') save_path = Ok (w_item w)
    /\ snd o' = w_calls w.
Proof.
  unfold save_result. intros Hsave Hload.
  destruct (VISItem_save_item (w_item w) output_dir (w_fs w)) as [[[]|e] fs'] eqn:Hs.
  2: { destruct (class_of e); discriminate. }
  destruct (build_save_path (w_item w) output_dir) as [sp|e].
  2: { destruct (class_of e); discriminate. }
  injection Hsave as <-.
  apply save_item_written in Hs as (save_path & Hpath & Hfile).
  exists save_path. simpl. repeat split; try assumption.
  unfold VISItem_from_dict, json_load. rewrite Hfile. simpl.
  apply of_json_asdict. exact Hload.
Qed.

Lemma exit_code_nonzero (c : exn_class) : exit_code c <> 0.
Proof. destruct c; discriminate. Qed.

(** X24. A command answers a bad configuration or a bad seed with its exit
    code and touches nothing: code 3 for an empty provider, model or output
    directory; with a valid configuration, code 2 when the lookup of the seed
    path finds nothing, code 1 when the lookup is refused with another error
    (the path runs through a regular file, a name is too long, a directory
    may not be searched) or finds a directory, code 3 when the seed is not
    JSON, code 1 when it is a JSON object without [id]; in both resume modes
    and for both commands. *)
Theorem commands_reject_bad_input (info_path gen_model provider model output_dir
    : string) (image_path : option string) (resume : bool) (o : outside) :
  let gen := cmd_gen info_path provider model output_dir resume o in
  let eval := cmd_run_evaluation info_path gen_model provider model output_dir
                image_path resume o in
  (provider = "" \/ model = "" \/ output_dir = "" -> gen = (3, o) /\ eval = (3, o))
  /\ (validate provider model output_dir = None ->
      (fst o !! info_path = None -> gen = (2, o) /\ eval = (2, o))
      /\ (forall e, fst o !! info_path = Some (FError e) ->
          gen = (1, o) /\ eval = (1, o))
      /\ (fst o !! info_path = Some FDir -> gen = (1, o) /\ eval = (1, o))
      /\ (forall content, fst o !! info_path = Some (FBlob content) ->
          gen = (3, o) /\ eval = (3, o))
      /\ (forall d, fst o !! info_path = Some (FJson (VDict d)) ->
          dict_lookup "id" d = None -> gen = (1, o) /\ eval = (1, o))).
Proof.
  intros gen eval. subst gen eval. unfold cmd_gen, cmd_run_evaluation. split.
  - intros Hempty.
    assert (Hv : validate provider model output_dir = Some ValueErrorClass).
    { unfold validate.
      destruct (String.eqb_spec provider ""); [reflexivity|].
      destruct (String.eqb_spec model ""); [reflexivity|].
      destruct (String.eqb_spec output_dir ""); [reflexivity|]. tauto. }
    rewrite Hv. auto.
  - intros ->.
    assert (Hseed : forall e, VISItem_from_dict (fst o) info_path = Raise e ->
              command_item output_dir info_path resume (fst o) = Raise e).
    { intros e He. unfold command_item, load_item. destruct resume; simpl;
        rewrite ?He; reflexivity. }
    split; [|split; [|split; [|split]]].
    + intros Hnone. rewrite (Hseed (FileNotFoundError info_path)); [auto|].
      unfold VISItem_from_dict, json_load. rewrite Hnone. reflexivity.
    + intros e Herr. rewrite (Hseed (os_error e info_path)).
      * destruct e; auto.
      * unfold VISItem_from_dict, json_load. rewrite Herr. reflexivity.
    + intros Hdir. rewrite (Hseed (IsADirectoryError info_path)); [auto|].
      unfold VISItem_from_dict, json_load. rewrite Hdir. reflexivity.
    + intros content Hblob. rewrite (Hseed JSONDecodeError); [auto|].
      unfold VISItem_from_dict, json_load. rewrite Hblob. reflexivity.
    + intros d Hfile Hid. rewrite (Hseed (KeyError "id")); [auto|].
      unfold VISItem_from_dict, json_load. rewrite Hfile. simpl.
      unfold VISItem_of_json. simpl. rewrite Hid. reflexivity.
Qed.

(** X25. When the evaluation command exits with code 0, the record file
    [save_item] wrote under the output directory holds a record that is
    evaluation complete for the generation model and the evaluation model,
    and loading the file gives that record. *)
Theorem evaluation_command_success (info_path gen_model provider model output_dir
    : string) (image_path : option string) (resume : bool) (o o' : outside) :
  cmd_run_evaluation info_path gen_model provider model output_dir image_path
    resume o = (0, o') ->
  exists item' save_path,
    resolve_save_path item' output_dir = Ok save_path
    /\ VISItem_from_dict (fst o') save_path = Ok item'
    /\ check_evaluation_complete item' gen_model model = Ok true.
Proof.
  unfold cmd_run_evaluation.
  destruct (validate provider model output_dir) as [c|].
  { intros [= Hc _]. destruct (exit_code_nonzero _ Hc). }
  destruct (command_item output_dir info_path resume (fst o)) as [item|e] eqn:Hitem.
  2: { intros [= Hc _]. destruct (exit_code_nonzero _ Hc). }
  destruct (EvalWorkflow_run _ gen_model image_path _) as [[[]|e] w'] eqn:Hrun.
  2: { intros [= Hc _]. destruct (exit_code_nonzero _ Hc). }
  intros Hsave.
  pose proof (EvalWorkflow_run_Ok_complete _ _ _ _ _ Hrun) as Hdone.
  pose proof (EvalWorkflow_run_grows _ _ _ _ _ _ Hrun) as Hgrows.
  apply command_item_loadable in Hitem.
  apply save_result_zero in Hsave as (save_path & Hpath & _ & Hload & _).
  - exists (w_item w'), save_path. auto.
  - exact (loadable_grows _ _ Hgrows Hitem).
Qed.

(** X26. When the generation command exits with code 0, the record file
    [save_item] wrote under the output directory holds a record with a
    generation entry for the model, and loading the file gives that record;
    the command has made at most one client call. *)
Theorem generation_command_success (info_path provider model output_dir : string)
    (resume : bool) (o o' : outside) :
  cmd_gen info_path provider model output_dir resume o = (0, o') ->
  (exists item' save_path,
     resolve_save_path item' output_dir = Ok save_path
     /\ VISItem_from_dict (fst o') save_path = Ok item'
     /\ check_generation_exists item' model = Ok true)
  /\ (snd o' = snd o \/ exists prompt, snd o' = snd o ++ [ImageGeneration model prompt]).
Proof.
  unfold cmd_gen.
  destruct (validate provider model output_dir) as [c|].
  { intros [= Hc _]. destruct (exit_code_nonzero _ Hc). }
  destruct (command_item output_dir info_path resume (fst o)) as [item|e] eqn:Hitem.
  2: { intros [= Hc _]. destruct (exit_code_nonzero _ Hc). }
  destruct (GenWorkflow_run _ _) as [[[]|e] w'] eqn:Hrun.
  2: { intros [= Hc _]. destruct (exit_code_nonzero _ Hc). }
  intros Hsave.
  pose proof (GenWorkflow_run_grows _ _ _ _ Hrun) as Hgrows.
  apply command_item_loadable in Hitem.
  apply save_result_zero in Hsave as (save_path & Hpath & _ & Hload & Hcalls);
    [|exact (loadable_grows _ _ Hgrows Hitem)].
  destruct (GenWorkflow_run_cases _ _ _ _ Hrun)
    as [[-> [[_ Hgen] | [(e & [=] & _) | ([=] & _)]]] | (Hc & Hnot & _)];
    simpl in *.
  - split; [|left; exact Hcalls].
    exists item, save_path. split; [exact Hpath|]. split; [exact Hload|].
    apply already_generated_true in Hgen as (_ & g & p & Hg & Hp & _).
    simpl in Hp. apply check_generation_exists_recorded with p.
    rewrite Hg. simpl. rewrite Hp. reflexivity.
  - split; [|right; eexists; rewrite Hcalls; exact Hc].
    exists (w_item w'), save_path. split; [exact Hpath|]. split; [exact Hload|].
    destruct (GenWorkflow_run_Ok_id _ _ _ Hrun Hnot) as [X Hid].
    destruct (GenWorkflow_run_records_image_path _ _ _ X Hid Hnot Hrun)
      as (Hrec & _).
    simpl in Hrec. eapply check_generation_exists_recorded. exact Hrec.
Qed.

End CommandFacts.

Section UnworkableItems.
Context `{PathLib} `{Capabilities} `{ClientLibrary}.

Lemma EvalWorkflow_run_empty (cfg : config) (gen : string)
    (image_path : option string) (w : world) :
  evaluation (w_item w) = [] ->
  image_path <> None \/ (exists X, item_id (w_item w) = VStr X) ->
  EvalWorkflow_run cfg gen image_path w
  = (Raise (ValueError (no_questions_found (item_id (w_item w)))), w).
Proof.
  intros Hempty Hpath.
  assert (Hall : forall p,
    pbind (if cfg_resume cfg
           then lift (check_evaluation_complete (w_item w) gen (cfg_model cfg))
           else ret false)
          (fun done => if done then ret tt else _evaluate_all cfg p gen) w
    = (Raise (ValueError (no_questions_found (item_id (w_item w)))), w)).
  { intros p. unfold check_evaluation_complete, _evaluate_all. rewrite Hempty.
    destruct (cfg_resume cfg); [rewrite pbind_lift_Ok | rewrite pbind_ret];
      rewrite pbind_get_item, Hempty; reflexivity. }
  unfold EvalWorkflow_run. rewrite pbind_get_item.
  destruct image_path as [p|].
  - rewrite pbind_ret. apply Hall.
  - destruct Hpath as [Hp | [X HX]]; [congruence|].
    unfold resolve_image_path_of. rewrite HX in Hall |- *.
    rewrite pbind_lift_Ok. apply Hall.
Qed.

(** X27. A command given an item it cannot work on exits with code 3 and
    touches nothing: the evaluation command when the item has no questions
    (and the image path is given or the item id is a string), the generation
    command when the item has no prompt and is not already generated. *)
Theorem commands_reject_unworkable_item (info_path gen_model provider model
    output_dir : string) (image_path : option string) (resume : bool)
    (o : outside) (item : VISItem) :
  validate provider model output_dir = None ->
  command_item output_dir info_path resume (fst o) = Ok item ->
  (evaluation item = [] ->
   image_path <> None \/ (exists X, item_id item = VStr X) ->
   cmd_run_evaluation info_path gen_model provider model output_dir image_path
     resume o = (3, o))
  /\ (truthy (t2i_prompt item) = false ->
      already_generated
        {| cfg_model := model; cfg_output_dir := output_dir; cfg_resume := resume |}
        item (fst o) = Ok false ->
      cmd_gen info_path provider model output_dir resume o = (3, o)).
Proof.
  intros Hv Hitem. unfold cmd_run_evaluation, cmd_gen. rewrite Hv, Hitem. split.
  - intros Hempty Hpath. rewrite EvalWorkflow_run_empty by assumption.
    simpl. destruct o. reflexivity.
  - intros Hprompt Hnot. unfold GenWorkflow_run.
    rewrite pbind_get_item, pbind_get_fs. simpl. rewrite Hnot, pbind_lift_Ok.
    rewrite pbind_text2image. simpl. rewrite Hprompt. simpl.
    destruct o. reflexivity.
Qed.

End UnworkableItems.

(** ** Looking for an image *)

(** X28. [find_image_with_extensions] returns the first candidate that
    exists, in the order of the extension list: it returns a path exactly
    when the list splits into extensions whose candidates do not exist, then
    the extension of that path, which exists; and it returns nothing exactly
    when no candidate exists. *)
Theorem find_image_first_existing (with_suffix : string -> string -> result string)
    (fs : filesystem) (base_path : string) (extensions : list string) :
  (forall found,
     find_image_with_extensions with_suffix fs base_path extensions = Ok (Some found)
     <-> exists before ext after,
           extensions = before ++ ext :: after
           /\ Forall (candidate_missing with_suffix fs base_path) before
           /\ with_suffix base_path ext = Ok found
           /\ exists_ fs found = Ok true)
  /\ (find_image_with_extensions with_suffix fs base_path extensions = Ok None
      <-> Forall (candidate_missing with_suffix fs base_path) extensions).
Proof.
  induction extensions as [|ext rest [IHsome IHnone]]; simpl.
  - split.
    + intros found. split; [discriminate|].
      intros (before & e & after & Heq & _). destruct before; discriminate.
    + split; [constructor | reflexivity].
  - destruct (with_suffix base_path ext) as [candidate|e] eqn:Hc; simpl.
    + destruct (exists_ fs candidate) as [[|]|e] eqn:Hex; simpl.
      * split.
        -- intros found. split.
           ++ intros [= <-]. exists [], ext, rest. repeat split; auto.
           ++ intros (before & e & after & Heq & Hmiss & Hfound & Hthere).
              destruct before as [|b before]; simpl in Heq; injection Heq as <- Hrest.
              ** congruence.
              ** apply Forall_cons in Hmiss as [(c & Hc' & Hno) _]. congruence.
        -- split; [discriminate|].
           intros Hall. apply Forall_cons in Hall as [(c & Hc' & Hno) _]. congruence.
      * split.
        -- intros found. rewrite IHsome. split.
           ++ intros (before & e & after & -> & Hmiss & Hfound & Hthere).
              exists (ext :: before), e, after. repeat split; auto.
              constructor; [exists candidate; auto | exact Hmiss].
           ++ intros (before & e & after & Heq & Hmiss & Hfound & Hthere).
              destruct before as [|b before]; simpl in Heq; injection Heq as <- Hrest.
              ** congruence.
              ** apply Forall_cons in Hmiss as [_ Hmiss].
                 exists before, e, after. auto.
        -- rewrite IHnone. split.
           ++ intros Hall. constructor; [exists candidate; auto | exact Hall].
           ++ intros Hall. apply Forall_cons in Hall as [_ Hall]. exact Hall.
      * split.
        -- intros found. split; [discriminate|].
           intros (before & e' & after & Heq & Hmiss & Hfound & Hthere).
           destruct before as [|b before]; simpl in Heq; injection Heq as <- Hrest.
           ++ congruence.
           ++ apply Forall_cons in Hmiss as [(c & Hc' & Hno) _]. congruence.
        -- split; [discriminate|].
           intros Hall. apply Forall_cons in Hall as [(c & Hc' & Hno) _]. congruence.
    + split.
      * intros found. split; [discriminate|].
        intros (before & e' & after & Heq & Hmiss & Hfound & Hthere).
        destruct before as [|b before]; simpl in Heq; injection Heq as <- Hrest.
        -- congruence.
        -- apply Forall_cons in Hmiss as [(c & Hc' & _) _]. congruence.
      * split; [discriminate|].
        intros Hall. apply Forall_cons in Hall as [(c & Hc' & _) _]. congruence.
Qed.

(** ** The legacy evaluate check *)

Lemma split_once_cut (sep : ascii) (s : string) :
  has_char sep s = true ->
  exists a b, split_once sep s = [a; b] /\ s = a +:+ String sep b /\
              has_char sep a = false.
Proof.
  induction s as [|c s IH]; simpl; [discriminate|].
  destruct (Ascii.eqb c sep) eqn:Hc; simpl.
  - intros _. apply Ascii.eqb_eq in Hc. subst c. exists "", s. auto.
  - intros Hs. destruct (IH Hs) as (a & b & -> & -> & Ha).
    exists (String c a), b. simpl. rewrite Hc. auto.
Qed.

Lemma any_judgment_true (js : list value) (eval gen : string) :
  any_judgment js eval gen = Ok true -> Exists (judgment_matches eval gen) js.
Proof.
  induction js as [|j js IH]; simpl; [discriminate|].
  destruct j as [| | | | |d]; try discriminate. simpl.
  destruct (eq_str (dict_get "eval_model" VNone d) eval) eqn:He;
    [|intros Hrest; apply Exists_cons_tl; auto].
  destruct (eq_str (dict_get "gen_model" VNone d) gen) eqn:Hg;
    [|intros Hrest; apply Exists_cons_tl; auto].
  intros _. apply Exists_cons_hd. exists d.
  apply eq_str_spec in He, Hg. auto.
Qed.

Lemma entries_judged_true (es : list value) (eval gen : string) :
  entries_judged es eval gen = Ok true -> Forall (entry_judged eval gen) es.
Proof.
  induction es as [|entry es IH]; simpl; [constructor|].
  destruct entry as [| | | | |d]; try discriminate. simpl.
  destruct (iter (dict_get "judgments" (VList []) d)) as [js|e] eqn:Hjs;
    [|discriminate]. simpl.
  destruct (any_judgment js eval gen) as [[|]|e] eqn:Hany; try discriminate.
  simpl. intros Hrest. constructor; [|auto].
  exists d, js. split; [reflexivity|]. split; [exact Hjs|].
  apply any_judgment_true. exact Hany.
Qed.

Lemma evaluation_dimensions_true (evaluation : value) (dims : list string)
    (eval gen : string) :
  evaluation_dimensions evaluation dims eval gen = Ok true ->
  Forall (dimension_judged evaluation eval gen) dims.
Proof.
  induction dims as [|dimension dims IH]; simpl; [constructor|].
  destruct (get evaluation dimension (VList [])) as [entries|e] eqn:Hget;
    [|discriminate]. simpl.
  destruct (truthy entries) eqn:Ht; [|discriminate]. simpl.
  destruct (iter entries) as [es|e] eqn:Hes; [|discriminate]. simpl.
  destruct (entries_judged es eval gen) as [[|]|e] eqn:Hall; try discriminate.
  simpl. intros Hrest. constructor; [|auto].
  exists entries, es. repeat split; try assumption.
  apply entries_judged_true. exact Hall.
Qed.

(** X29. [is_stage_completed] answers true for the [evaluate] stage only
    on a record of the legacy format with a method of the form [eval_gen]:
    the method is cut at its first [_] (so the evaluation model name holds no
    [_]), [evaluation] is a dict, and each configured dimension has at least
    one entry, every entry holding a judgment dict of these two models. *)
Theorem evaluate_stage_completed_sound `{PathLib} (output_dir : string)
    (fs : filesystem) (id : string) (method : option string)
    (dims : option (list string)) :
  is_stage_completed output_dir fs id "evaluate" method dims = Ok true ->
  exists data eval gen ds evaluation,
    fs !! item_json_path output_dir id = Some (FJson data)
    /\ method = Some (eval +:+ String "_" gen)
    /\ has_char "_" eval = false
    /\ dims = Some ds /\ ds <> []
    /\ get data "evaluation" (VDict []) = Ok evaluation
    /\ truthy evaluation = true
    /\ Forall (dimension_judged evaluation eval gen) ds.
Proof.
  unfold is_stage_completed, exists_, json_load.
  destruct (fs !! item_json_path output_dir id) as [[|data| |[]]|] eqn:Hfile;
    try discriminate.
  cbn [negb bind].
  change (stage_completed fs data "evaluate" method dims)
    with (match method, dims with
          | Some m, Some (d :: ds) =>
              if String.eqb m "" then Ok false
              else _validate_evaluation_completion data m (d :: ds)
          | _, _ => Ok false
          end).
  destruct method as [m|]; [|discriminate].
  destruct dims as [[|d ds]|]; try discriminate.
  destruct (String.eqb m ""); [discriminate|].
  unfold _validate_evaluation_completion.
  destruct (has_char "_" m) eqn:Hm; [|discriminate]. cbn [negb].
  destruct (split_once_cut _ _ Hm) as (eval & gen & -> & -> & Heval).
  destruct (get data "evaluation" (VDict [])) as [evaluation|e] eqn:Hev;
    [|discriminate]. cbn [bind].
  destruct (truthy evaluation) eqn:Ht; [|discriminate]. cbn [negb].
  destruct (evaluation_dimensions evaluation (d :: ds) eval gen) as [[|]|e] eqn:Hall;
    try discriminate.
  intros _. exists data, eval, gen, (d :: ds), evaluation.
  repeat split; try assumption; try discriminate.
  apply evaluation_dimensions_true. exact Hall.
Qed.

(** ** The further properties on concrete inputs *)

Import MoreSamples.

Lemma update_generation_then_lookup_witness :
  exists item',
    update_generation item42 "gemini-2.0" "outputs/42/42_gemini_2_0.png" = Ok item'
    /\ getitem (generation item') "gemini-2.0"
       = Ok (VStr "outputs/42/42_gemini_2_0.png")
    /\ check_generation_exists item' "gemini-2.0" = Ok true.
Proof.
  eexists. split; [reflexivity|].
  destruct (update_generation_then_lookup item42 _ "gemini-2.0"
              "outputs/42/42_gemini_2_0.png" eq_refl) as (Hget & Hcheck & _).
  split; [exact Hget | exact Hcheck].
Defined.

Lemma evaluation_run_appends_once_witness :
  EvalWorkflow_run (run_config "m2" true) "m1" None (fresh_world question_item)
  = (Ok tt, evaluated)
  /\ Forall2 (judged_once true "m1" "m2")
       (evaluation question_item) (evaluation (w_item evaluated)).
Proof.
  assert (Hrun : EvalWorkflow_run (run_config "m2" true) "m1" None
                   (fresh_world question_item) = (Ok tt, evaluated))
    by (vm_compute; reflexivity).
  split; [exact Hrun|].
  exact (proj1 (evaluation_run_appends_once _ _ _ _ _ Hrun)).
Defined.

Lemma evaluation_run_calls_witness :
  EvalWorkflow_run (run_config "m2" true) "m1" None (fresh_world question_item)
  = (Ok tt, evaluated)
  /\ exists p,
       w_calls evaluated
       = judgment_calls true "m1" "m2" p (evaluation question_item).
Proof.
  assert (Hrun : EvalWorkflow_run (run_config "m2" true) "m1" None
                   (fresh_world question_item) = (Ok tt, evaluated))
    by (vm_compute; reflexivity).
  split; [exact Hrun|].
  destruct (evaluation_run_calls _ _ _ _ _ Hrun) as (p & _ & Hcalls & _).
  exists p. exact Hcalls.
Defined.

Lemma evaluation_run_completes_witness :
  EvalWorkflow_run (run_config "m2" true) "m1" None (fresh_world question_item)
  = (Ok tt, evaluated)
  /\ check_evaluation_complete (w_item evaluated) "m1" "m2" = Ok true.
Proof.
  assert (Hrun : EvalWorkflow_run (run_config "m2" true) "m1" None
                   (fresh_world question_item) = (Ok tt, evaluated))
    by (vm_compute; reflexivity).
  split; [exact Hrun|].
  exact (evaluation_run_completes _ _ _ _ _ Hrun).
Defined.

Lemma evaluation_rerun_is_noop_witness :
  EvalWorkflow_run (run_config "m2" false) "m1" None (fresh_world question_item)
  = (Ok tt, evaluated)
  /\ EvalWorkflow_run (run_config "m2" true) "m1" None evaluated
     = (Ok tt, evaluated).
Proof.
  assert (Hrun : EvalWorkflow_run (run_config "m2" false) "m1" None
                   (fresh_world question_item) = (Ok tt, evaluated))
    by (vm_compute; reflexivity).
  split; [exact Hrun|].
  exact (evaluation_rerun_is_noop _ (run_config "m2" true) _ _ _ _ Hrun
           eq_refl eq_refl eq_refl).
Defined.

Lemma evaluation_run_persisted_witness :
  EvalWorkflow_run (run_config "m2" true) "m1" None (fresh_world question_item)
  = (Ok tt, evaluated)
  /\ w_calls evaluated <> w_calls (fresh_world question_item)
  /\ persisted "outputs" evaluated.
Proof.
  assert (Hrun : EvalWorkflow_run (run_config "m2" true) "m1" None
                   (fresh_world question_item) = (Ok tt, evaluated))
    by (vm_compute; reflexivity).
  assert (Hcalled : w_calls evaluated <> w_calls (fresh_world question_item))
    by (vm_compute; discriminate).
  split; [exact Hrun | split; [exact Hcalled|]].
  exact (proj1 (evaluation_run_persisted _ _ _ _ _ Hrun Hcalled)).
Defined.

Lemma completion_survives_runs_witness :
  check_evaluation_complete (w_item evaluated) "m1" "m2" = Ok true
  /\ check_evaluation_complete
       (w_item (snd (GenWorkflow_run (run_config "gemini-2.0" false) evaluated)))
       "m1" "m2" = Ok true.
Proof.
  assert (Hdone : check_evaluation_complete (w_item evaluated) "m1" "m2" = Ok true)
    by reflexivity.
  split; [exact Hdone|].
  destruct (completion_survives_runs evaluated "m1" "m2" Hdone) as [Hgen _].
  apply (Hgen (run_config "gemini-2.0" false)
           (fst (GenWorkflow_run (run_config "gemini-2.0" false) evaluated))).
  apply surjective_pairing.
Defined.

Lemma generation_run_calls_witness :
  GenWorkflow_run (run_config "gemini-2.0" true) (fresh_world item9)
  = (Raise (ValueError t2i_prompt_required), fresh_world item9)
  /\ GenWorkflow_run (run_config "gemini-2.0" true) (fresh_world item42)
     = (Ok tt, generated)
  /\ w_calls generated = [ImageGeneration "gemini-2.0" (VStr "draw a chart")].
Proof.
  assert (Hrun : GenWorkflow_run (run_config "gemini-2.0" true) (fresh_world item42)
                 = (Ok tt, generated)) by (vm_compute; reflexivity).
  split; [reflexivity | split; [exact Hrun|]].
  destruct (generation_run_calls _ _ _ _ Hrun)
    as [[Hsame _] | (Hcalls & _)]; [|exact Hcalls].
  exfalso. assert (Hc : w_calls generated = w_calls (fresh_world item42))
    by (rewrite Hsame; reflexivity).
  vm_compute in Hc. discriminate Hc.
Defined.

Lemma generation_run_records_image_witness :
  GenWorkflow_run (run_config "gemini-2.0" true) (fresh_world item42)
  = (Ok tt, generated)
  /\ already_generated (run_config "gemini-2.0" true) item42 ∅ = Ok false
  /\ exists X,
       item_id item42 = VStr X
       /\ getitem (generation (w_item generated)) "gemini-2.0"
          = Ok (VStr (resolve_image_path X "gemini-2.0" "outputs")).
Proof.
  assert (Hrun : GenWorkflow_run (run_config "gemini-2.0" true) (fresh_world item42)
                 = (Ok tt, generated)) by (vm_compute; reflexivity).
  assert (Hnot : already_generated (run_config "gemini-2.0" true)
                   (w_item (fresh_world item42)) (w_fs (fresh_world item42))
                 = Ok false) by reflexivity.
  split; [exact Hrun | split; [exact Hnot|]].
  destruct (generation_run_records_image _ _ _ Hrun Hnot) as (X & Hid & Hrec & _).
  exists X. split; [exact Hid | exact Hrec].
Defined.

Lemma generation_rerun_is_noop_witness :
  (forall X, Path (resolve_image_path X "gemini-2.0" "outputs")
             = resolve_image_path X "gemini-2.0" "outputs")
  /\ GenWorkflow_run (run_config "gemini-2.0" false) (fresh_world item42)
     = (Ok tt, generated)
  /\ GenWorkflow_run (run_config "gemini-2.0" true) generated = (Ok tt, generated).
Proof.
  assert (Hpath : forall X, Path (resolve_image_path X "gemini-2.0" "outputs")
                            = resolve_image_path X "gemini-2.0" "outputs")
    by (intros X; reflexivity).
  assert (Hrun : GenWorkflow_run (run_config "gemini-2.0" false) (fresh_world item42)
                 = (Ok tt, generated)) by (vm_compute; reflexivity).
  split; [exact Hpath | split; [exact Hrun|]].
  exact (generation_rerun_is_noop (run_config "gemini-2.0" false)
           (run_config "gemini-2.0" true) _ _ Hpath Hrun eq_refl eq_refl eq_refl).
Defined.

Lemma resume_loads_persisted_item_witness :
  exists fs',
    ItemStateManager_save_item "outputs" (w_item generated) (fst datasets)
    = (Ok tt, fs')
    /\ VISItem_from_dict fs' "datasets/42.json" = Ok item42
    /\ load_item "outputs" fs' "datasets/42.json" true = Ok (w_item generated).
Proof.
  exists (snd (ItemStateManager_save_item "outputs" (w_item generated) (fst datasets))).
  assert (Hsave : ItemStateManager_save_item "outputs" (w_item generated)
                    (fst datasets)
                  = (Ok tt, snd (ItemStateManager_save_item "outputs"
                                   (w_item generated) (fst datasets))))
    by (vm_compute; reflexivity).
  assert (Hseed : VISItem_from_dict
                    (snd (ItemStateManager_save_item "outputs" (w_item generated)
                            (fst datasets))) "datasets/42.json" = Ok item42)
    by (vm_compute; reflexivity).
  split; [exact Hsave | split; [exact Hseed|]].
  apply (resume_loads_persisted_item "outputs" (w_item generated) item42 "42"
           "datasets/42.json" (fst datasets) _);
    [reflexivity | constructor | reflexivity | exact Hsave | exact Hseed
    | reflexivity].
Defined.

Lemma written_record_only_completes_generate_witness :
  judged_outputs !! item_json_path "outputs" "7"
  = Some (FJson (VISItem_asdict judged_item))
  /\ is_stage_completed "outputs" judged_outputs "7" "evaluate" (Some "m2_m1")
       (Some ["seed"]) = Ok false.
Proof.
  assert (Hfile : judged_outputs !! item_json_path "outputs" "7"
                  = Some (FJson (VISItem_asdict judged_item))) by reflexivity.
  split; [exact Hfile|].
  apply (written_record_only_completes_generate "outputs" judged_outputs "7"
           "evaluate" judged_item (Some "m2_m1") (Some ["seed"]) Hfile).
  discriminate.
Defined.

Lemma persisted_and_memory_checks_agree_witness :
  w_fs generated !! item_json_path "outputs" "42"
  = Some (FJson (VISItem_asdict (w_item generated)))
  /\ is_stage_completed "outputs" (w_fs generated) "42" "generate"
       (Some "gemini-2.0") None = Ok true
  /\ already_generated (run_config "gemini-2.0" true) (w_item generated)
       (w_fs generated) = Ok true.
Proof.
  assert (Hfile : w_fs generated !! item_json_path "outputs" "42"
                  = Some (FJson (VISItem_asdict (w_item generated))))
    by (vm_compute; reflexivity).
  assert (Hdone : is_stage_completed "outputs" (w_fs generated) "42" "generate"
                    (Some "gemini-2.0") None = Ok true) by (vm_compute; reflexivity).
  split; [exact Hfile | split; [exact Hdone|]].
  destruct (persisted_and_memory_checks_agree "outputs" (w_fs generated) "42"
              (w_item generated) None (run_config "gemini-2.0" true) Hfile eq_refl)
    as [Hmem _].
  exact (Hmem Hdone).
Defined.

Lemma evaluation_by_source_grows_witness :
  grows question_item (w_item evaluated)
  /\ Forall2 entry_extends (get_evaluation_by_source question_item "seed")
       (get_evaluation_by_source (w_item evaluated) "seed").
Proof.
  assert (Hgrows : grows question_item (w_item evaluated)).
  { apply (EvalWorkflow_run_grows (run_config "m2" true) "m1" None
             (fresh_world question_item) evaluated
             (fst (EvalWorkflow_run (run_config "m2" true) "m1" None
                     (fresh_world question_item)))).
    apply surjective_pairing. }
  split; [exact Hgrows|].
  exact (evaluation_by_source_grows _ _ "seed" Hgrows).
Defined.

Lemma context_keeps_system_errors_witness :
  ErrorHandler.any_keyword ErrorHandler.SYSTEM_KEYWORDS
    (ErrorHandler.lower (ErrorHandler.error_text denied)) = true
  /\ ErrorHandler.should_retry
       {| ErrorHandler.type_name := "TimeoutError";
          ErrorHandler.error_text :=
            ErrorHandler.get_error_message_with_context denied "evaluate"
              (Some "42") (Some "m2") |} = false.
Proof.
  assert (Hsys : ErrorHandler.any_keyword ErrorHandler.SYSTEM_KEYWORDS
                   (ErrorHandler.lower (ErrorHandler.error_text denied)) = true)
    by reflexivity.
  split; [exact Hsys|].
  exact (proj2 (proj2 (context_keeps_system_errors denied "evaluate" (Some "42")
                         (Some "m2") "TimeoutError" Hsys))).
Defined.

Lemma evaluation_command_success_witness :
  exists o',
    cmd_run_evaluation "datasets/7.json" "m1" "google" "m2" "outputs" None false
      datasets = (0, o')
    /\ exists item' save_path,
         VISItem_from_dict (fst o') save_path = Ok item'
         /\ check_evaluation_complete item' "m1" "m2" = Ok true.
Proof.
  exists (snd (cmd_run_evaluation "datasets/7.json" "m1" "google" "m2" "outputs"
                 None false datasets)).
  assert (Hrun : cmd_run_evaluation "datasets/7.json" "m1" "google" "m2" "outputs"
                   None false datasets
                 = (0, snd (cmd_run_evaluation "datasets/7.json" "m1" "google"
                              "m2" "outputs" None false datasets)))
    by (vm_compute; reflexivity).
  split; [exact Hrun|].
  destruct (evaluation_command_success _ _ _ _ _ _ _ _ _ Hrun)
    as (item' & save_path & _ & Hload & Hdone).
  exists item', save_path. split; [exact Hload | exact Hdone].
Defined.

Lemma generation_command_success_witness :
  exists o',
    cmd_gen "datasets/42.json" "google" "gemini-2.0" "outputs" true datasets
    = (0, o')
    /\ exists item' save_path,
         VISItem_from_dict (fst o') save_path = Ok item'
         /\ check_generation_exists item' "gemini-2.0" = Ok true.
Proof.
  exists (snd (cmd_gen "datasets/42.json" "google" "gemini-2.0" "outputs" true
                 datasets)).
  assert (Hrun : cmd_gen "datasets/42.json" "google" "gemini-2.0" "outputs" true
                   datasets
                 = (0, snd (cmd_gen "datasets/42.json" "google" "gemini-2.0"
                              "outputs" true datasets)))
    by (vm_compute; reflexivity).
  split; [exact Hrun|].
  destruct (generation_command_success _ _ _ _ _ _ _ Hrun)
    as ((item' & save_path & _ & Hload & Hdone) & _).
  exists item', save_path. split; [exact Hload | exact Hdone].
Defined.

Lemma commands_reject_bad_input_witness :
  validate "google" "gemini-2.0" "outputs" = None
  /\ fst under_file !! "datasets/42.json/seed.json" = Some (FError ENOTDIR)
  /\ cmd_gen "datasets/42.json/seed.json" "google" "gemini-2.0" "outputs" false
       under_file = (1, under_file)
  /\ cmd_gen "datasets/none.json" "google" "gemini-2.0" "outputs" false
       under_file = (2, under_file).
Proof.
  assert (Hv : validate "google" "gemini-2.0" "outputs" = None) by reflexivity.
  assert (Hrefused : fst under_file !! "datasets/42.json/seed.json"
                     = Some (FError ENOTDIR)) by reflexivity.
  split; [exact Hv | split; [exact Hrefused | split]].
  - destruct (commands_reject_bad_input "datasets/42.json/seed.json" "m1" "google"
                "gemini-2.0" "outputs" None false under_file)
      as (_ & Hseed).
    destruct (Hseed Hv) as (_ & Herr & _).
    exact (proj1 (Herr ENOTDIR Hrefused)).
  - destruct (commands_reject_bad_input "datasets/none.json" "m1" "google"
                "gemini-2.0" "outputs" None false under_file)
      as (_ & Hseed).
    destruct (Hseed Hv) as (Hnone & _).
    exact (proj1 (Hnone eq_refl)).
Defined.

Lemma commands_reject_unworkable_item_witness :
  validate "google" "m2" "outputs" = None
  /\ command_item "outputs" "datasets/9.json" true (fst datasets) = Ok item9
  /\ cmd_run_evaluation "datasets/9.json" "m1" "google" "m2" "outputs" None true
       datasets = (3, datasets)
  /\ cmd_gen "datasets/9.json" "google" "m2" "outputs" true datasets
     = (3, datasets).
Proof.
  assert (Hv : validate "google" "m2" "outputs" = None) by reflexivity.
  assert (Hitem : command_item "outputs" "datasets/9.json" true (fst datasets)
                  = Ok item9) by (vm_compute; reflexivity).
  destruct (commands_reject_unworkable_item "datasets/9.json" "m1" "google" "m2"
              "outputs" None true datasets item9 Hv Hitem) as [Heval Hgen].
  split; [exact Hv | split; [exact Hitem | split]].
  - apply Heval; [reflexivity|]. right. exists "9". reflexivity.
  - apply Hgen; [reflexivity | vm_compute; reflexivity].
Defined.

Lemma evaluate_stage_completed_sound_witness :
  is_stage_completed "outputs" legacy_outputs "5" "evaluate" (Some "m2_m1")
    (Some ["layout"]) = Ok true
  /\ exists eval gen, Some "m2_m1" = Some (eval +:+ String "_" gen)
                      /\ has_char "_" eval = false.
Proof.
  assert (Hdone : is_stage_completed "outputs" legacy_outputs "5" "evaluate"
                    (Some "m2_m1") (Some ["layout"]) = Ok true)
    by (vm_compute; reflexivity).
  split; [exact Hdone|].
  destruct (evaluate_stage_completed_sound _ _ _ _ _ Hdone)
    as (data & eval & gen & ds & evaluation & _ & Hm & Heval & _).
  exists eval, gen. split; [exact Hm | exact Heval].
Defined.
